(** * ms-rewards-agent: answer cache, metrics store, humanizer and activity discovery

    A shallow embedding of [src/utils/storage.ts], [src/utils/humanizer.ts],
    [src/handlers/quiz-handler.ts] and [src/handlers/click-handler.ts], and
    of the command line of [src/index.ts].

    - JavaScript strings are sequences of UTF-16 code units ([list N]).
    - The JSON object used as the answer cache is a [gmap] keyed by the hash
      string.
    - JavaScript numbers that hold pixel coordinates or delays are modelled by
      exact rationals ([Q]); the rounding of IEEE doubles is not modelled.
    - [Math.random()] reads the next draw of an explicit random source and the
      pointer events sent to the page are collected in a trace.
    - The runs of the handlers see the browser and the site through an
      interface ([Browser]) over a state of the world: navigation, pauses,
      clicks and the clock are its operations. *)

From Stdlib Require Import ZArith NArith QArith Qround Qabs Lia Lqa.
From Stdlib Require Import String Ascii HexadecimalString DecimalString.
From stdpp Require Import gmap list.

(** ** JavaScript strings *)

Module JsString.

Definition jsstring : Type := list N.

(** A literal that only holds ASCII characters. *)
Definition js (s : string) : jsstring :=
  map N_of_ascii (list_ascii_of_string s).

(** The characters matched by [\s] and removed by [String.prototype.trim]:
    WhiteSpace and LineTerminator code points of ECMAScript. *)
Definition isWhiteSpace (c : N) : bool :=
  ((9 <=? c) && (c <=? 13) || (c =? 32) || (c =? 160) || (c =? 5760)
   || (8192 <=? c) && (c <=? 8202) || (c =? 8232) || (c =? 8233)
   || (c =? 8239) || (c =? 8287) || (c =? 12288) || (c =? 65279))%N.

Fixpoint trimStart (s : jsstring) : jsstring :=
  match s with
  | [] => []
  | c :: r => if isWhiteSpace c then trimStart r else s
  end.

Definition trimEnd (s : jsstring) : jsstring :=
  rev (trimStart (rev s)).

Definition trim (s : jsstring) : jsstring :=
  trimEnd (trimStart s).

(** [String.prototype.toLowerCase] on one code unit.  The three cases
    written out are all the code units whose lower-case form contains a
    character of [[a-z0-9]]: the ASCII capitals, U+0130 (which lower-cases
    to "i" followed by U+0307) and U+212A KELVIN SIGN (which lower-cases to
    "k").  Every other code unit is lower-cased by the runtime to code
    units outside [[a-z0-9]] and white space is left as it is; such code
    units are kept unchanged here. *)
Definition toLowerCase1 (c : N) : jsstring :=
  if ((65 <=? c) && (c <=? 90))%N then [(c + 32)%N]
  else if (c =? 304)%N then [105; 775]%N
  else if (c =? 8490)%N then [107%N]
  else [c].

Definition toLowerCase (s : jsstring) : jsstring :=
  flat_map toLowerCase1 s.

Definition isLowerAlnum (c : N) : bool :=
  ((97 <=? c) && (c <=? 122) || (48 <=? c) && (c <=? 57))%N.

(** [s.replace(/[^a-z0-9\s]/g, '')] *)
Definition stripNonAlnum (s : jsstring) : jsstring :=
  List.filter (fun c => isLowerAlnum c || isWhiteSpace c) s.

(** [s.replace(/\s+/g, ' ')]: every maximal run of white space becomes one
    space; [inRun] tells that the previous character belonged to a run. *)
Fixpoint collapseFrom (inRun : bool) (s : jsstring) : jsstring :=
  match s with
  | [] => []
  | c :: r =>
      if isWhiteSpace c
      then (if inRun then collapseFrom true r else 32%N :: collapseFrom true r)
      else c :: collapseFrom false r
  end.

Definition collapseWhiteSpace (s : jsstring) : jsstring :=
  collapseFrom false s.

(** [Number.prototype.toString(16)] and [String(n)] for natural numbers. *)
Definition toHex (n : N) : jsstring :=
  js (HexadecimalString.NilZero.string_of_uint (N.to_hex_uint n)).

Definition toDecimal (n : nat) : jsstring :=
  js (DecimalString.NilZero.string_of_uint (Nat.to_uint n)).

End JsString.

(** ** storage.ts: the answer cache *)

Module QACache.
Import JsString.

Record QARecord : Type := mkQARecord {
  questionHash : jsstring;
  answerIndex : Z;
  correct : bool;
  evidence : option (list jsstring)
}.

(** ToInt32 of ECMAScript. *)
Definition toInt32 (z : Z) : Z :=
  ((z + 2 ^ 31) mod 2 ^ 32 - 2 ^ 31)%Z.

Definition normalizeQuestion (question : jsstring) : jsstring :=
  trim (collapseWhiteSpace (stripNonAlnum (toLowerCase question))).

(** One round of the loop of [hashQuestion]:
    [hash = ((hash << 5) + hash) + charCode; hash = hash & hash]. *)
Definition hashStep (hash : Z) (charCode : N) : Z :=
  let sum := (toInt32 (Z.shiftl (toInt32 hash) 5) + hash + Z.of_N charCode)%Z in
  Z.land (toInt32 sum) (toInt32 sum).

Definition djb2 (normalized : jsstring) : Z :=
  fold_left hashStep normalized 5381%Z.

Definition hashQuestion (question : jsstring) : jsstring :=
  toHex (Z.to_N (Z.abs (djb2 (normalizeQuestion question)))).

(** [cache[hash] || null] *)
Definition lookup (question : jsstring) (cache : gmap jsstring QARecord)
  : option QARecord :=
  cache !! hashQuestion question.

Definition store (question : jsstring) (answerIndex : Z) (correct0 : bool)
    (evidence : option (list jsstring)) (cache : gmap jsstring QARecord)
  : gmap jsstring QARecord :=
  let hash := hashQuestion question in
  let record := mkQARecord hash answerIndex correct0 evidence in
  let existing := cache !! hash in
  if from_option correct false existing && negb correct0
  then cache
  else <[hash := record]> cache.

Definition getConfidence (question : jsstring) (cache : gmap jsstring QARecord) : Q :=
  match lookup question cache with
  | None => 0
  | Some record => if correct record then 1 else 3 # 10
  end.

End QACache.

(** ** storage.ts: the metrics store *)

Module MetricsStore.
Import JsString.

Inductive Status : Type := ok | failed | skipped.
Inductive Source : Type := click | search | quiz.

#[global] Instance Source_eq_dec : EqDecision Source.
Proof. solve_decision. Defined.

Record RunMetric : Type := mkRunMetric {
  timestamp : jsstring;
  handler : jsstring;
  status : Status;
  durationMs : Z;
  attempts : Z;
  (* a JSON object: keys with their serialized values *)
  meta : option (list (jsstring * jsstring))
}.

Record DailyPoints : Type := mkDailyPoints {
  date : jsstring;
  points : Z;
  source : Source
}.

Record MetricsData : Type := mkMetricsData {
  runs : list RunMetric;
  dailyPoints : list DailyPoints
}.

(** [Array.prototype.slice(-n)]: the last [n] elements, all of them when
    the array is shorter. *)
Definition sliceLast {A : Type} (n : nat) (l : list A) : list A :=
  drop (length l - n) l.

(** [Array.prototype.findIndex]; [None] stands for [-1]. *)
Fixpoint findIndex {A : Type} (p : A -> bool) (l : list A) : option nat :=
  match l with
  | [] => None
  | a :: r => if p a then Some 0%nat else S <$> findIndex p r
  end.

(** [now] is [new Date().toISOString()]. *)
Definition recordRun (now : jsstring) (handler0 : jsstring) (status0 : Status)
    (durationMs0 attempts0 : Z) (meta0 : option (list (jsstring * jsstring)))
    (data : MetricsData) : MetricsData :=
  mkMetricsData
    (sliceLast 999 (runs data)
       ++ [mkRunMetric now handler0 status0 durationMs0 attempts0 meta0])
    (dailyPoints data).

(** [today] is [new Date().toISOString().split('T')[0]]. *)
Definition recordPoints (today : jsstring) (points0 : Z) (source0 : Source)
    (data : MetricsData) : MetricsData :=
  let existingIndex :=
    findIndex (fun d => bool_decide (date d = today) && bool_decide (source d = source0))
              (dailyPoints data) in
  match existingIndex with
  | Some i =>
      let updated := dailyPoints data in
      match updated !! i with
      | Some e =>
          mkMetricsData (runs data)
            (<[i := mkDailyPoints (date e) (points e + points0) (source e)]> updated)
      | None => data (* not reached: [findIndex] returns a valid index *)
      end
  | None =>
      mkMetricsData (runs data)
        (sliceLast 365 (dailyPoints data) ++ [mkDailyPoints today points0 source0])
  end.

(** A sequence of [recordPoints] calls, each with the date of its day. *)
Definition recordPointsAll (calls : list (jsstring * Z * Source)) (data : MetricsData)
  : MetricsData :=
  fold_left (fun d '(today, p, s) => recordPoints today p s d) calls data.

End MetricsStore.

(** ** humanizer.ts *)

Module Humanizer.
Import JsString.
#[local] Open Scope Q_scope.

Record Point : Type := mkPoint { px : Q; py : Q }.

(** The bounding box Playwright returns for an element. *)
Record Box : Type := mkBox { x : Q; y : Q; width : Q; height : Q }.

Inductive Event : Type :=
| MouseMove (p : Point)
| MouseDown
| MouseUp
| Sleep (ms : Q).

(** The random source: [draws g n] is the value of the [n]-th call of
    [Math.random()]. *)
Record Rng : Type := mkRng { draws : nat -> Q; cursor : nat }.

(** A thrown [Error] object. *)
Record JsError : Type := mkJsError { name : jsstring; message : jsstring }.

(** [new Error(message)]: its [name] is the one of [Error.prototype]. *)
Definition newError (message0 : jsstring) : JsError :=
  mkJsError (js "Error") message0.

Inductive Outcome (A : Type) : Type :=
| Returned (a : A)
| Thrown (error : JsError).
Arguments Returned {A} a.
Arguments Thrown {A} error.

(** An asynchronous computation: it consumes random draws, sends events
    to the page, and returns or throws. *)
Definition M (A : Type) : Type := Rng -> Outcome A * list Event * Rng.

Definition ret {A : Type} (a : A) : M A := fun g => (Returned a, [], g).

Definition bind {A B : Type} (m : M A) (k : A -> M B) : M B :=
  fun g =>
    match m g with
    | (Returned a, t1, g1) =>
        match k a g1 with
        | (o, t2, g2) => (o, t1 ++ t2, g2)
        end
    | (Thrown e, t1, g1) => (Thrown e, t1, g1)
    end.

Definition throw {A : Type} (error : JsError) : M A :=
  fun g => (Thrown error, [], g).

Definition emit (e : Event) : M unit := fun g => (Returned tt, [e], g).

Definition random : M Q :=
  fun g => (Returned (draws g (cursor g)), [], mkRng (draws g) (S (cursor g))).

Notation "'do' x <- m ;; k" := (bind m (fun x => k))
  (at level 10, x name, m at level 99, k at level 200).
Notation "'exec' m ;; k" := (bind m (fun _ => k))
  (at level 10, m at level 99, k at level 200).

Fixpoint forEach {A : Type} (l : list A) (body : A -> M unit) : M unit :=
  match l with
  | [] => ret tt
  | a :: r => exec body a ;; forEach r body
  end.

(** [Math.floor(Math.random() * (max - min + 1)) + min], then a timer. *)
Definition randomDelay (min max : Z) : M unit :=
  do r <- random ;;
  let delay := (Qfloor (r * inject_Z (max - min + 1)) + min)%Z in
  emit (Sleep (inject_Z delay)).

(** The cubic Bezier polynomial of [generateMousePath]. *)
Definition bezier (t p0 c1 c2 p3 : Q) : Q :=
  (1 - t) ^ 3 * p0
  + 3 * (1 - t) ^ 2 * t * c1
  + 3 * (1 - t) * t ^ 2 * c2
  + t ^ 3 * p3.

(** [steps] is a natural number; for [steps = 0] JavaScript computes
    [0 / 0 = NaN] where [Q] gives [0]. *)
Definition generateMousePath (startX startY endX endY : Q) (steps : nat)
  : M (list Point) :=
  do r1 <- random ;;
  let control1X := startX + (endX - startX) * 0.3 + (r1 - 0.5) * 50 in
  do r2 <- random ;;
  let control1Y := startY + (endY - startY) * 0.1 + (r2 - 0.5) * 50 in
  do r3 <- random ;;
  let control2X := startX + (endX - startX) * 0.7 + (r3 - 0.5) * 50 in
  do r4 <- random ;;
  let control2Y := startY + (endY - startY) * 0.9 + (r4 - 0.5) * 50 in
  ret (map (fun i : nat =>
              let t := inject_Z (Z.of_nat i) / inject_Z (Z.of_nat steps) in
              mkPoint (bezier t startX control1X control2X endX)
                      (bezier t startY control1Y control2Y endY))
           (seq 0%nat (S steps))).

Record Locator : Type := mkLocator { boundingBox : option Box }.

Record Page : Type := mkPage { locator : jsstring -> Locator }.

(** [locator.first()] designates the first matching element; the handle
    already stands for it. *)
Definition first (l : Locator) : Locator := l.

Definition clickHuman (page : Page) (selector : jsstring) : M unit :=
  let element := first (locator page selector) in
  match boundingBox element with
  | None => throw (newError (js "Element " ++ selector ++ js " not visible"))
  | Some box =>
      do rx <- random ;;
      let targetX := x box + width box / 2 + (rx - 0.5) * (width box * 0.8) in
      do ry <- random ;;
      let targetY := y box + height box / 2 + (ry - 0.5) * (height box * 0.8) in
      let startX := 0 in
      let startY := 0 in
      do path <- generateMousePath startX startY targetX targetY 50 ;;
      exec forEach path (fun point =>
            exec emit (MouseMove point) ;;
            do r <- random ;;
            emit (Sleep (r * 5))) ;;
      exec randomDelay 100 300 ;;
      exec emit MouseDown ;;
      exec randomDelay 50 150 ;;
      exec emit MouseUp ;;
      randomDelay 500 1000
  end.

Definition clickLocatorHuman (page : Page) (locator0 : Locator) : M unit :=
  let element := first locator0 in
  match boundingBox element with
  | None => throw (newError (js "Element not visible"))
  | Some box =>
      do rx <- random ;;
      let targetX := x box + width box / 2 + (rx - 0.5) * (width box * 0.8) in
      do ry <- random ;;
      let targetY := y box + height box / 2 + (ry - 0.5) * (height box * 0.8) in
      let startX := 0 in
      let startY := 0 in
      do path <- generateMousePath startX startY targetX targetY 50 ;;
      exec forEach path (fun point =>
            exec emit (MouseMove point) ;;
            do r <- random ;;
            emit (Sleep (r * 5))) ;;
      exec randomDelay 100 300 ;;
      exec emit MouseDown ;;
      exec randomDelay 50 150 ;;
      exec emit MouseUp ;;
      randomDelay 500 1000
  end.

End Humanizer.

(** ** quiz-handler.ts: discovery of quiz cards *)

Module QuizHandler.
Import JsString.

(** What [findQuizActivities] can observe of a matched element, and the
    lock indicator of the card, which it does not query. *)
Record Card : Type := mkCard {
  (* matches of '[class*=completed], .mee-icon-SkypeCircleCheck, .c-glyph-check' *)
  completedMarks : nat;
  (* matches of the lock icon / points-locked indicator *)
  lockMarks : nat;
  textContent : option jsstring
}.

(** [page.locator(selector)]: the elements matching a selector, in
    document order. *)
Definition Page : Type := jsstring -> list Card.

Definition dq : jsstring := [34%N].

Definition quizSelectors : list jsstring :=
  [ js "mee-card:has([class*=" ++ dq ++ js "quiz" ++ dq ++ js "])";
    js "mee-card:has([aria-label*=" ++ dq ++ js "quiz" ++ dq ++ js " i])";
    js "mee-card:has([aria-label*=" ++ dq ++ js "poll" ++ dq ++ js " i])";
    js "mee-card:has([aria-label*=" ++ dq ++ js "this or that" ++ dq ++ js " i])";
    js "[data-bi-id*=" ++ dq ++ js "quiz" ++ dq ++ js "]";
    js "[data-bi-id*=" ++ dq ++ js "poll" ++ dq ++ js "]";
    js ".quiz-card" ].

(** The loop state: [processedIndices] and [quizzes]. *)
Definition State : Type := gset jsstring * list Card.

(** The body of the inner loop for one element. *)
Definition visit (st : State) (element : Card) : State :=
  let '(processedIndices, quizzes) := st in
  let isCompleted := (0 <? completedMarks element)%nat in
  if negb isCompleted then
    let text := default [] (textContent element) in
    if bool_decide (text ∈ processedIndices)
    then st
    else ({[text]} ∪ processedIndices, quizzes ++ [element])
  else st.

Definition findQuizActivities (page : Page) : list Card :=
  snd (fold_left
         (fun st selector => fold_left visit (page selector) st)
         quizSelectors
         (∅, [])).

(** The text under which a returned card was registered. *)
Definition cardText (c : Card) : jsstring := default [] (textContent c).

End QuizHandler.

(** ** click-handler.ts: discovery of activities and the explore query *)

Module ClickHandler.
Import JsString.

Inductive ActivityType : Type := standard | explore.

Record ActivityInfo : Type := mkActivityInfo {
  index : nat;
  title : jsstring;
  selector : jsstring;
  isCompleted : bool;
  locator : nat;
  type : ActivityType;
  description : option jsstring
}.

(** What [processCard] observes of a card. *)
Record Card : Type := mkCard {
  isVisible : bool;
  (* matches of '.mee-icon-SkypeCircleCheck, [aria-label*=complete i], .c-glyph-check' *)
  completeMarks : nat;
  (* matches of '[aria-label=Points you will earn]' *)
  pointsMarks : nat;
  (* matches of '.mee-icon-Question, [data-bi-id*=quiz i], [data-bi-id*=poll i]' *)
  quizMarks : nat;
  (* text of the first title element: [None] when there is none (the query
     throws), [Some None] when its text is null *)
  titleText : option (option jsstring);
  (* text of the first paragraph element; [None] when the query fails or
     the text is null *)
  descriptionText : option jsstring;
  linkCount : nat;
  (* the handle of the first link of the card *)
  link : nat
}.

Record Page : Type := mkPage {
  (* mee-cards of the section found by its "more activities" heading *)
  moreByHeading : list Card;
  (* mee-cards found by the fallback XPath *)
  moreByXPath : list Card;
  (* mee-cards of the "explore" section *)
  exploreSection : list Card
}.

(** Canonicalize of a case-insensitive, non-unicode regular expression,
    on the code units that can equal an ASCII letter of the pattern. *)
Definition canonicalize (c : N) : N :=
  if ((97 <=? c) && (c <=? 122))%N then (c - 32)%N else c.

Fixpoint matchLiteral (literal s : jsstring) : option jsstring :=
  match literal, s with
  | [], _ => Some s
  | _ :: _, [] => None
  | l :: literal', c :: s' =>
      if (canonicalize l =? canonicalize c)%N then matchLiteral literal' s' else None
  end.

(** [\s+]: at least one white space character, then as many as follow. *)
Definition matchSpaces1 (s : jsstring) : option jsstring :=
  match s with
  | c :: r => if isWhiteSpace c then Some (trimStart r) else None
  | [] => None
  end.

(** [[:\-–]?] *)
Definition matchSeparatorOpt (s : jsstring) : jsstring :=
  match s with
  | c :: r => if ((c =? 58) || (c =? 45) || (c =? 8211))%N then r else s
  | [] => s
  end.

(** What is left of [s] after a match of
    [/^search\s+on\s+bing\s+(?:to|for)\s*[:\-–]?\s*/i] at its start;
    [None] when the expression does not match.  Each [\s+] is followed by a
    letter and the tail of the expression accepts the empty string, so the
    greedy choices are the only ones. *)
Definition matchLead (s : jsstring) : option jsstring :=
  s1 ← matchLiteral (js "search") s;
  s2 ← matchSpaces1 s1;
  s3 ← matchLiteral (js "on") s2;
  s4 ← matchSpaces1 s3;
  s5 ← matchLiteral (js "bing") s4;
  s6 ← matchSpaces1 s5;
  s7 ← match matchLiteral (js "to") s6 with
       | Some r => Some r
       | None => matchLiteral (js "for") s6
       end;
  Some (trimStart (matchSeparatorOpt (trimStart s7))).

(** [s.replace(/^search.../i, '')] *)
Definition stripLead (s : jsstring) : jsstring :=
  default s (matchLead s).

Definition isEmpty (s : jsstring) : bool :=
  match s with [] => true | _ => false end.

Definition normalizeExploreQuery (text : jsstring) : jsstring :=
  let trimmed := trim text in
  if isEmpty trimmed then []
  else
    let cleaned := trim (stripLead trimmed) in
    if isEmpty cleaned then trimmed else cleaned.

Definition getExploreQuery (activity : ActivityInfo) : jsstring :=
  let fromDescription :=
    match description activity with
    | Some d => if isEmpty d then [] else normalizeExploreQuery d
    | None => []
    end in
  if isEmpty fromDescription
  then normalizeExploreQuery (title activity)
  else fromDescription.

(** The helper [processCard] of [findClickableActivities]; [None] is its
    [null], also returned when a query throws. *)
Definition processCard (card : Card) (type0 : ActivityType) (index0 : nat)
  : option ActivityInfo :=
  if negb (isVisible card) then None
  else
    let isCompleted0 := (0 <? completeMarks card)%nat in
    if isCompleted0 then None
    else if match type0 with
            | standard => negb (0 <? pointsMarks card)%nat
            | explore => false
            end then None
    else if match type0 with
            | standard => (0 <? quizMarks card)%nat
            | explore => false
            end then None
    else
      match titleText card with
      | None => None
      | Some text =>
          let fallback := js "Activity #" ++ toDecimal index0 in
          let title0 :=
            match text with
            | Some t => if isEmpty t then fallback else t
            | None => fallback
            end in
          let description0 := descriptionText card in
          if (linkCount card =? 0)%nat then None
          else Some (mkActivityInfo index0 (trim title0) (js "placeholder")
                       isCompleted0 (link card) type0 (trim <$> description0))
      end.

(** One round of either loop: [processCard] with the current length of
    [activities], pushed when not null. *)
Definition collect (type0 : ActivityType) (activities : list ActivityInfo)
    (card : Card) : list ActivityInfo :=
  match processCard card type0 (length activities) with
  | Some info => activities ++ [info]
  | None => activities
  end.

Definition findClickableActivities (page : Page) : list ActivityInfo :=
  let moreActivities :=
    if (length (moreByHeading page) =? 0)%nat
    then moreByXPath page
    else moreByHeading page in
  let activities := fold_left (collect standard) moreActivities [] in
  fold_left (collect explore) (exploreSection page) activities.

End ClickHandler.

(** ** storage.ts: cache statistics and metrics queries *)

Module QACacheStats.
Import JsString.

Record Stats : Type := mkStats { total : nat; correct : nat; incorrect : nat }.

(** [Object.values(cache)] *)
Definition records (cache : gmap jsstring QACache.QARecord) : list QACache.QARecord :=
  (map_to_list cache).*2.

Definition getStats (cache : gmap jsstring QACache.QARecord) : Stats :=
  mkStats (length (records cache))
          (length (List.filter (fun r => QACache.correct r) (records cache)))
          (length (List.filter (fun r => negb (QACache.correct r)) (records cache))).

End QACacheStats.

Module MetricsQueries.
Import JsString.
Import MetricsStore.

Definition isOk (s : Status) : bool :=
  match s with ok => true | _ => false end.

(** [this.storage.get().runs.filter(r => r.handler === handler)] *)
Definition runsOf (handler0 : jsstring) (data : MetricsData) : list RunMetric :=
  List.filter (fun r => bool_decide (handler r = handler0)) (runs data).

(** [successful / runs.length], 0 when the handler has no run. *)
Definition rate (rs : list RunMetric) : Q :=
  if (length rs =? 0)%nat then 0%Q
  else (inject_Z (Z.of_nat (length (List.filter (fun r => isOk (status r)) rs)))
        / inject_Z (Z.of_nat (length rs)))%Q.

(** [runs.reduce((sum, r) => sum + r.durationMs, 0)] *)
Definition totalDuration (rs : list RunMetric) : Z :=
  fold_left (fun sum r => (sum + durationMs r)%Z) rs 0%Z.

Definition average (rs : list RunMetric) : Q :=
  if (length rs =? 0)%nat then 0%Q
  else (inject_Z (totalDuration rs) / inject_Z (Z.of_nat (length rs)))%Q.

Definition getSuccessRate (handler0 : jsstring) (data : MetricsData) : Q :=
  rate (runsOf handler0 data).

Definition getAverageDuration (handler0 : jsstring) (data : MetricsData) : Q :=
  average (runsOf handler0 data).


(** A sequence of [recordRun] calls, each with its own time stamp. *)
Definition recordRunAll (calls : list RunMetric) (data : MetricsData) : MetricsData :=
  fold_left (fun d r =>
               recordRun (timestamp r) (handler r) (status r) (durationMs r)
                         (attempts r) (meta r) d)
            calls data.

End MetricsQueries.

Module HandlerStats.
Record t : Type := mk { runs : nat; successRate : Q; avgDuration : Q }.
End HandlerStats.

Module Summary.
Import JsString.

Record t : Type := mk {
  totalRuns : nat;
  successRate : Q;
  avgDuration : Q;
  todayPoints : Z;
  (* an object keyed by handler name *)
  handlerStats : gmap jsstring HandlerStats.t
}.




End Summary.

(** ** humanizer.ts: typing *)

Module Keyboard.
Import JsString.

(** What the page receives while text is typed: the events of the click
    that focuses the element (and the pauses), and the calls of
    [page.keyboard]. *)
Inductive Input : Type :=
| Pointer (e : Humanizer.Event)
| KeyboardType (text : jsstring)
| KeyboardPress (key : jsstring).

Definition K (A : Type) : Type :=
  Humanizer.Rng -> Humanizer.Outcome A * list Input * Humanizer.Rng.

Definition ret {A : Type} (a : A) : K A := fun g => (Humanizer.Returned a, [], g).

Definition bind {A B : Type} (m : K A) (k : A -> K B) : K B :=
  fun g =>
    match m g with
    | (Humanizer.Returned a, t1, g1) =>
        match k a g1 with
        | (o, t2, g2) => (o, t1 ++ t2, g2)
        end
    | (Humanizer.Thrown e, t1, g1) => (Humanizer.Thrown e, t1, g1)
    end.

(** A computation of the humanizer, run as part of the typing. *)
Definition lift {A : Type} (m : Humanizer.M A) : K A :=
  fun g =>
    match m g with
    | (o, t, g1) => (o, map Pointer t, g1)
    end.

Definition keyboardType (text : jsstring) : K unit :=
  fun g => (Humanizer.Returned tt, [KeyboardType text], g).

Definition keyboardPress (key : jsstring) : K unit :=
  fun g => (Humanizer.Returned tt, [KeyboardPress key], g).

Notation "'do' x <- m ;; k" := (bind m (fun x => k))
  (at level 10, x name, m at level 99, k at level 200).
Notation "'exec' m ;; k" := (bind m (fun _ => k))
  (at level 10, m at level 99, k at level 200).

Fixpoint forEach {A : Type} (l : list A) (body : A -> K unit) : K unit :=
  match l with
  | [] => ret tt
  | a :: r => exec body a ;; forEach r body
  end.

Definition isLeadSurrogate (c : N) : bool := ((55296 <=? c) && (c <=? 56319))%N.

Definition isTrailSurrogate (c : N) : bool := ((56320 <=? c) && (c <=? 57343))%N.

(** The string iterator used by [for (const char of text)]: it yields the
    code points of the string, a surrogate pair as one string of two code
    units, a lone surrogate as it is. *)
Fixpoint codePoints (s : jsstring) : list jsstring :=
  match s with
  | [] => []
  | c :: r =>
      match r with
      | c2 :: r2 =>
          if isLeadSurrogate c && isTrailSurrogate c2
          then [c; c2] :: codePoints r2
          else [c] :: codePoints r
      | [] => [[c]]
      end
  end.

Definition typeHuman (page : Humanizer.Page) (selector text : jsstring) : K unit :=
  exec lift (Humanizer.clickHuman page selector) ;;
  forEach (codePoints text) (fun char =>
    exec keyboardType char ;;
    lift (Humanizer.randomDelay 50 150)).

Definition clearAndTypeHuman (page : Humanizer.Page) (selector text : jsstring) : K unit :=
  exec lift (Humanizer.clickHuman page selector) ;;
  exec keyboardPress (js "Control+A") ;;
  exec lift (Humanizer.randomDelay 30 80) ;;
  exec keyboardPress (js "Backspace") ;;
  exec lift (Humanizer.randomDelay 50 120) ;;
  forEach (codePoints text) (fun char =>
    exec keyboardType char ;;
    lift (Humanizer.randomDelay 50 150)).

End Keyboard.

(** ** types/index.ts: the result of a handler *)

Module ActionResult.
Import JsString.

Inductive Kind : Type := click | search | quiz.

(** The shapes of [meta] the handlers build. *)
Inductive Meta : Type :=
| ClickedActivities (clickedActivities : list jsstring) (totalClicked : option nat)
| QuizzesCompleted (quizzesCompleted : nat) (correctAnswers : option nat)
| Reason (reason : jsstring)
| ErrorMessage (error : jsstring).

Record t : Type := mk {
  type : Kind;
  status : MetricsStore.Status;
  attempts : nat;
  durationMs : Z;
  meta : Meta
}.

End ActionResult.

(** ** click-handler.ts: the run *)

Module ClickHandlerRun.
Import JsString.

Record Config : Type := mkConfig { dryRun : bool; maxActionsPerHour : Z }.

(** The browser and the site, as the handler uses them; [World] is the
    state of both. *)
Record Browser (World : Type) : Type := mkBrowser {
  (* [browser.goto(url)]: the error it throws, if any *)
  goto : jsstring -> World -> option Humanizer.JsError * World;
  (* [randomDelay(min, max)]: the state once the timer has fired *)
  pause : Z -> Z -> World -> World;
  (* the dashboard page, as [findClickableActivities] observes it *)
  dashboard : World -> ClickHandler.Page;
  (* the steps of [clickActivity] outside dry-run (scroll, humanized
     click, search of an explore activity, closing of the tabs): [true]
     when none of them throws *)
  performClick : ClickHandler.ActivityInfo -> World -> bool * World
}.
Arguments goto {World} _ _ _.
Arguments pause {World} _ _ _ _.
Arguments dashboard {World} _ _.
Arguments performClick {World} _ _ _.

(** [clickActivity] returns [{ success, title }]. *)
Definition clickActivity {World : Type} (config : Config) (browser : Browser World)
    (activity : ClickHandler.ActivityInfo) (w : World) : (bool * jsstring) * World :=
  let title0 := ClickHandler.title activity in
  if dryRun config then ((true, title0), w)
  else
    match performClick browser activity w with
    | (success, w1) => ((success, title0), w1)
    end.

(** The variables of the loop of [run]. *)
Record Progress (World : Type) : Type := mkProgress {
  clickedCount : nat;
  attempts : nat;
  clickedActivities : list jsstring;
  world : World
}.
Arguments mkProgress {World} _ _ _ _.
Arguments clickedCount {World} _.
Arguments attempts {World} _.
Arguments clickedActivities {World} _.
Arguments world {World} _.

(** [for (const activity of activities) { ... }], with its [break]. *)
Fixpoint clickAll {World : Type} (config : Config) (browser : Browser World)
    (maxClicks : Z) (activities : list ClickHandler.ActivityInfo) (p : Progress World)
  : Progress World :=
  match activities with
  | [] => p
  | activity :: rest =>
      if (maxClicks <=? Z.of_nat (clickedCount p))%Z then p
      else
        match clickActivity config browser activity (world p) with
        | ((success, title0), w1) =>
            let w2 := pause browser 2000 4000 w1 in
            clickAll config browser maxClicks rest
              (if success
               then mkProgress (S (clickedCount p)) (S (attempts p))
                               (clickedActivities p ++ [title0]) w2
               else mkProgress (clickedCount p) (S (attempts p))
                               (clickedActivities p) w2)
        end
  end.

(** [startTime] and [endTime] are the two readings of [Date.now()]. *)
Definition run {World : Type} (config : Config) (browser : Browser World)
    (startTime endTime : Z) (w : World) : ActionResult.t * World :=
  let durationMs0 := (endTime - startTime)%Z in
  match goto browser (js "https://rewards.bing.com/") w with
  | (Some e, w1) =>
      (ActionResult.mk ActionResult.click MetricsStore.failed 0 durationMs0
         (ActionResult.ErrorMessage (Humanizer.message e)), w1)
  | (None, w1) =>
      let w2 := pause browser 2000 4000 w1 in
      let activities := ClickHandler.findClickableActivities (dashboard browser w2) in
      if (length activities =? 0)%nat
      then (ActionResult.mk ActionResult.click MetricsStore.skipped 0 durationMs0
              (ActionResult.Reason (js "No incomplete activities")), w2)
      else
        let maxClicks := Z.min 10 (maxActionsPerHour config) in
        let p := clickAll config browser maxClicks activities (mkProgress 0 0 [] w2) in
        (ActionResult.mk ActionResult.click
           (if (0 <? clickedCount p)%nat then MetricsStore.ok else MetricsStore.failed)
           (attempts p) durationMs0
           (ActionResult.ClickedActivities (clickedActivities p) (Some (clickedCount p))),
         world p)
  end.

End ClickHandlerRun.

(** ** quiz-handler.ts: answering a quiz and the run *)

Module QuizHandlerRun.
Import JsString.

Record Config : Type := mkConfig { dryRun : bool; maxActionsPerHour : Z }.

(** What the handler observes of the page that shows a quiz; the queries of
    the page are taken not to throw. *)
Record View : Type := mkView {
  (* [page.content()] *)
  content : jsstring;
  (* matches of '.c-heading' with the text 'complete' *)
  completeHeadings : nat;
  (* matches of '.points-earned' *)
  pointsEarned : nat;
  (* [page.locator(selector)]: the handles of the matching elements, in
     document order *)
  matches : jsstring -> list nat
}.

Fixpoint startsWith (s prefix : jsstring) : bool :=
  match prefix, s with
  | [], _ => true
  | _ :: _, [] => false
  | p :: prefix', c :: s' => (p =? c)%N && startsWith s' prefix'
  end.

(** [String.prototype.includes] *)
Fixpoint includes (s search : jsstring) : bool :=
  startsWith s search
  || match s with
     | [] => false
     | _ :: r => includes r search
     end.

Definition isQuizComplete (view : View) : bool :=
  let text := content view in
  if includes text (js "Quiz complete") || includes text (js "You earned") then true
  else if (0 <? completeHeadings view)%nat then true
  else if (0 <? pointsEarned view)%nat then true
  else false.

Definition possibleSelectors : list jsstring :=
  [ js ".wk_Option";
    js "#currentQuestionContainer .b_algo";
    js ".btOption";
    js ".rqOption";
    js ".mc_Item";
    js "input[type=" ++ QuizHandler.dq ++ js "radio" ++ QuizHandler.dq ++ js "] + label";
    js ".choice-card" ].

(** The loop of [findOptions] over the selectors. *)
Fixpoint firstMatching (view : View) (selectors : list jsstring) : list nat :=
  match selectors with
  | [] => []
  | sel :: rest =>
      let locs := matches view sel in
      if (0 <? length locs)%nat then locs else firstMatching view rest
  end.

Definition findOptions (view : View) : list nat :=
  firstMatching view possibleSelectors.

(** The browser and the site, as the handler uses them; [World] is the
    state of both. *)
Record Browser (World : Type) : Type := mkBrowser {
  (* [browser.goto(url)]: the error it throws, if any *)
  goto : jsstring -> World -> option Humanizer.JsError * World;
  (* [randomDelay(min, max)]: the state once the timer has fired *)
  pause : Z -> Z -> World -> World;
  (* [Date.now()] *)
  now : World -> Z;
  (* the dashboard page, as [findQuizActivities] observes it *)
  dashboard : World -> QuizHandler.Page;
  (* the page, as [isQuizComplete] and [findOptions] observe it *)
  view : World -> View;
  (* [quizLocator.click()]: the error it throws, if any *)
  clickCard : QuizHandler.Card -> World -> option Humanizer.JsError * World;
  (* [option.click()]: the error it throws, if any *)
  clickOption : nat -> World -> option Humanizer.JsError * World
}.
Arguments goto {World} _ _ _.
Arguments pause {World} _ _ _ _.
Arguments now {World} _ _.
Arguments dashboard {World} _ _.
Arguments view {World} _ _.
Arguments clickCard {World} _ _ _.
Arguments clickOption {World} _ _ _.

(** [for (const option of options) { ... }] of [handleQuiz]: [true] when
    the loop returns [{ completed: true }], [false] when it ends or
    breaks. *)
Fixpoint tryOptions {World : Type} (config : Config) (browser : Browser World)
    (options : list nat) (w : World) : bool * World :=
  match options with
  | [] => (false, w)
  | option :: rest =>
      if dryRun config then (true, w)
      else
        match clickOption browser option w with
        | (Some _, w1) => (false, w1)
        | (None, w1) =>
            let w2 := pause browser 1000 2000 w1 in
            if isQuizComplete (view browser w2) then (true, w2)
            else tryOptions config browser rest w2
        end
  end.

(** [while (Date.now() - startTime < maxDuration) { ... }] of
    [handleQuiz]; [fuel] bounds the number of rounds and [None] tells that
    it ran out. *)
Fixpoint answer {World : Type} (fuel : nat) (config : Config) (browser : Browser World)
    (startTime : Z) (w : World) : option (bool * World) :=
  match fuel with
  | O => None
  | S fuel' =>
      let maxDuration := 60000%Z in
      if (now browser w - startTime <? maxDuration)%Z then
        if isQuizComplete (view browser w) then Some (true, w)
        else
          let options := findOptions (view browser w) in
          if (length options =? 0)%nat
          then answer fuel' config browser startTime (pause browser 1000 2000 w)
          else
            match tryOptions config browser options w with
            | (true, w1) => Some (true, w1)
            | (false, w1) =>
                answer fuel' config browser startTime (pause browser 2000 3000 w1)
            end
      else Some (false, w)
  end.

(** The result is the field [completed]. *)
Definition handleQuiz {World : Type} (fuel : nat) (config : Config)
    (browser : Browser World) (w : World) : option (bool * World) :=
  let w1 := pause browser 2000 3000 w in
  let startTime := now browser w1 in
  answer fuel config browser startTime w1.

(** The variables of the loop of [run]. *)
Record Progress (World : Type) : Type := mkProgress {
  completedCount : nat;
  attempts : nat;
  world : World
}.
Arguments mkProgress {World} _ _ _.
Arguments completedCount {World} _.
Arguments attempts {World} _.
Arguments world {World} _.

(** The first statements of the [try] block of the loop: the click that
    opens the quiz. *)
Definition openQuiz {World : Type} (config : Config) (browser : Browser World)
    (quizLocator : QuizHandler.Card) (w : World) : option Humanizer.JsError * World :=
  if negb (dryRun config) then
    match clickCard browser quizLocator w with
    | (Some e, w1) => (Some e, w1)
    | (None, w1) => (None, pause browser 2000 4000 w1)
    end
  else (None, w).

(** The last statements of the [try] block: back to the dashboard; an
    error of [goto] is caught by the [catch] of the loop. *)
Definition returnToMain {World : Type} (config : Config) (browser : Browser World)
    (w : World) : World :=
  if negb (dryRun config) then
    match goto browser (js "https://rewards.bing.com/") w with
    | (Some _, w1) => w1
    | (None, w1) => pause browser 1500 3000 w1
    end
  else w.

(** [for (const quizLocator of quizzes) { ... }], with its [break]. *)
Fixpoint handleAll {World : Type} (fuel : nat) (config : Config) (browser : Browser World)
    (quizzes : list QuizHandler.Card) (p : Progress World) : option (Progress World) :=
  match quizzes with
  | [] => Some p
  | quizLocator :: rest =>
      if (maxActionsPerHour config <=? Z.of_nat (completedCount p))%Z then Some p
      else
        match openQuiz config browser quizLocator (world p) with
        | (Some _, w1) =>
            handleAll fuel config browser rest
              (mkProgress (completedCount p) (S (attempts p)) w1)
        | (None, w1) =>
            match handleQuiz fuel config browser w1 with
            | None => None
            | Some (completed, w2) =>
                handleAll fuel config browser rest
                  (mkProgress
                     (if completed then S (completedCount p) else completedCount p)
                     (S (attempts p))
                     (returnToMain config browser w2))
            end
        end
  end.

(** [startTime] and [endTime] are the two readings of [Date.now()] of
    [run]. *)
Definition run {World : Type} (fuel : nat) (config : Config) (browser : Browser World)
    (startTime endTime : Z) (w : World) : option (ActionResult.t * World) :=
  let durationMs0 := (endTime - startTime)%Z in
  match goto browser (js "https://rewards.bing.com/") w with
  | (Some e, w1) =>
      Some (ActionResult.mk ActionResult.quiz MetricsStore.failed 0 durationMs0
              (ActionResult.ErrorMessage (Humanizer.message e)), w1)
  | (None, w1) =>
      let w2 := pause browser 2000 4000 w1 in
      let quizzes := QuizHandler.findQuizActivities (dashboard browser w2) in
      if (length quizzes =? 0)%nat
      then Some (ActionResult.mk ActionResult.quiz MetricsStore.skipped 0 durationMs0
                   (ActionResult.Reason (js "No quiz activities found")), w2)
      else
        match handleAll fuel config browser quizzes (mkProgress 0 0 w2) with
        | None => None
        | Some p =>
            Some (ActionResult.mk ActionResult.quiz
                    (if (0 <? completedCount p)%nat
                     then MetricsStore.ok else MetricsStore.failed)
                    (attempts p) durationMs0
                    (ActionResult.QuizzesCompleted (completedCount p) None),
                  world p)
        end
  end.

End QuizHandlerRun.

(** ** index.ts: the command line *)

Module Cli.
Import JsString.

Record ExtendedConfig : Type := mkExtendedConfig {
  userDataDir : jsstring;
  dryRun : bool;
  maxActionsPerHour : Z;
  skipClicks : bool;
  skipQuizzes : bool;
  showMetrics : bool
}.

Definition isDigit (c : N) : bool := ((48 <=? c) && (c <=? 57))%N.

(** The longest prefix of decimal digits, and its value after [acc]. *)
Fixpoint digitsValue (acc : option Z) (s : jsstring) : option Z :=
  match s with
  | [] => acc
  | c :: r =>
      if isDigit c
      then digitsValue (Some (10 * default 0 acc + (Z.of_N c - 48))%Z) r
      else acc
  end.

(** [parseInt(s, 10)]; [None] is [NaN].  Leading white space is skipped, a
    sign is read, then the longest prefix of digits; the value is the exact
    integer (the rounding of integers beyond 2^53 is not modelled). *)
Definition parseInt (s : jsstring) : option Z :=
  let s1 := trimStart s in
  let '(sign, s2) :=
    match s1 with
    | 45%N :: r => ((-1)%Z, r)
    | 43%N :: r => (1%Z, r)
    | _ => (1%Z, s1)
    end in
  (fun n => (sign * n)%Z) <$> digitsValue None s2.

(** The loop of [parseArgs] from the argument at hand; [None] is
    [process.exit(0)]. *)
Fixpoint parse (args : list jsstring) (config : ExtendedConfig) : option ExtendedConfig :=
  match args with
  | [] => Some config
  | arg :: rest =>
      if bool_decide (arg = js "--dry-run") || bool_decide (arg = js "-d") then
        parse rest (mkExtendedConfig (userDataDir config) true (maxActionsPerHour config)
                      (skipClicks config) (skipQuizzes config) (showMetrics config))
      else if bool_decide (arg = js "--user-data-dir") || bool_decide (arg = js "-u") then
        match rest with
        | value :: rest' =>
            parse rest'
              (mkExtendedConfig
                 (if bool_decide (value = []) then userDataDir config else value)
                 (dryRun config) (maxActionsPerHour config)
                 (skipClicks config) (skipQuizzes config) (showMetrics config))
        | [] => Some config
        end
      else if bool_decide (arg = js "--max-actions") || bool_decide (arg = js "-m") then
        match rest with
        | value :: rest' =>
            parse rest'
              (mkExtendedConfig (userDataDir config) (dryRun config)
                 (match parseInt value with
                  | Some n => if (n =? 0)%Z then maxActionsPerHour config else n
                  | None => maxActionsPerHour config
                  end)
                 (skipClicks config) (skipQuizzes config) (showMetrics config))
        | [] => Some config
        end
      else if bool_decide (arg = js "--skip-clicks") then
        parse rest (mkExtendedConfig (userDataDir config) (dryRun config)
                      (maxActionsPerHour config) true (skipQuizzes config)
                      (showMetrics config))
      else if bool_decide (arg = js "--skip-quizzes") then
        parse rest (mkExtendedConfig (userDataDir config) (dryRun config)
                      (maxActionsPerHour config) (skipClicks config) true
                      (showMetrics config))
      else if bool_decide (arg = js "--metrics") then
        parse rest (mkExtendedConfig (userDataDir config) (dryRun config)
                      (maxActionsPerHour config) (skipClicks config) (skipQuizzes config)
                      true)
      else if bool_decide (arg = js "--help") || bool_decide (arg = js "-h") then None
      else parse rest config
  end.

(** [defaultDir] is [getDefaultEdgeUserDataDir()] and [args] is
    [process.argv.slice(2)]. *)
Definition parseArgs (defaultDir : jsstring) (args : list jsstring) : option ExtendedConfig :=
  parse args (mkExtendedConfig defaultDir false 30 false false false).

End Cli.

Import JsString.

(** * Definitions used by the statements *)

(** ** Strings: trimming and white space *)

Definition headNotSpace (s : jsstring) : bool :=
  match s with
  | [] => true
  | c :: _ => negb (isWhiteSpace c)
  end.

(** Every white space character of [s] is a space, and no two are adjacent;
    [prevSpace] tells that the character before [s] was white space. *)
Fixpoint singleSpaced (prevSpace : bool) (s : jsstring) : bool :=
  match s with
  | [] => true
  | c :: r =>
      if isWhiteSpace c
      then (c =? 32)%N && negb prevSpace && singleSpaced true r
      else singleSpaced false r
  end.

Definition cleanChar (c : N) : bool := isLowerAlnum c || (c =? 32)%N.

Definition keptChar (c : N) : bool := isLowerAlnum c || isWhiteSpace c.

(** A run of writes that all record an incorrect attempt. *)
Definition storeIncorrectAll (writes : list (jsstring * Z * option (list jsstring)))
    (cache : gmap jsstring QACache.QARecord) : gmap jsstring QACache.QARecord :=
  fold_left (fun c '(q, a, ev) => QACache.store q a false ev c) writes cache.

(** ** The humanizer *)

#[local] Open Scope Q_scope.

Definition pointerEvents (t : list Humanizer.Event) : list Humanizer.Event :=
  List.filter (fun e => match e with Humanizer.Sleep _ => false | _ => true end) t.

Definition mouseMoves (t : list Humanizer.Event) : list Humanizer.Point :=
  omap (fun e => match e with Humanizer.MouseMove p => Some p | _ => None end) t.

(** The point the pointer is at when the button goes down: that of the last
    pointer-move event. *)
Definition clickPoint (t : list Humanizer.Event) : option Humanizer.Point :=
  last (mouseMoves t).

Definition outcome {A : Type} (r : Humanizer.Outcome A * list Humanizer.Event * Humanizer.Rng)
  : Humanizer.Outcome A := fst (fst r).

Definition trace {A : Type} (r : Humanizer.Outcome A * list Humanizer.Event * Humanizer.Rng)
  : list Humanizer.Event := snd (fst r).

(** The path [generateMousePath] returns when its four draws are [r1..r4]. *)
Definition bezierPath (startX startY endX endY : Q) (steps : nat) (r1 r2 r3 r4 : Q)
  : list Humanizer.Point :=
  map (fun i : nat =>
         let t := inject_Z (Z.of_nat i) / inject_Z (Z.of_nat steps) in
         Humanizer.mkPoint
           (Humanizer.bezier t startX
              (startX + (endX - startX) * 0.3 + (r1 - 0.5) * 50)
              (startX + (endX - startX) * 0.7 + (r3 - 0.5) * 50) endX)
           (Humanizer.bezier t startY
              (startY + (endY - startY) * 0.1 + (r2 - 0.5) * 50)
              (startY + (endY - startY) * 0.9 + (r4 - 0.5) * 50) endY))
      (seq 0%nat (S steps)).

Definition targetX (box : Humanizer.Box) (r : Q) : Q :=
  Humanizer.x box + Humanizer.width box / 2 + (r - 0.5) * (Humanizer.width box * 0.8).

Definition targetY (box : Humanizer.Box) (r : Q) : Q :=
  Humanizer.y box + Humanizer.height box / 2 + (r - 0.5) * (Humanizer.height box * 0.8).

Definition testBox : Humanizer.Box := Humanizer.mkBox 100 100 50 30.

Definition testPage : Humanizer.Page :=
  Humanizer.mkPage (fun selector =>
    Humanizer.mkLocator
      (if bool_decide (selector = js "#test-button") then Some testBox else None)).

Definition zeroRng : Humanizer.Rng := Humanizer.mkRng (fun _ => 0) 0.

Definition halfRng : Humanizer.Rng := Humanizer.mkRng (fun _ => 1 # 2) 0.

(** The path the pointer follows for a box, from the state of the random
    source at the call. *)
Definition clickPath (box : Humanizer.Box) (g : Humanizer.Rng) : list Humanizer.Point :=
  bezierPath 0 0
    (targetX box (Humanizer.draws g (Humanizer.cursor g)))
    (targetY box (Humanizer.draws g (S (Humanizer.cursor g))))
    50
    (Humanizer.draws g (2 + Humanizer.cursor g))
    (Humanizer.draws g (3 + Humanizer.cursor g))
    (Humanizer.draws g (4 + Humanizer.cursor g))
    (Humanizer.draws g (5 + Humanizer.cursor g)).

(** The draws of [Math.random()] lie in [[0, 1)]. *)
Definition unitDraws (g : Humanizer.Rng) : Prop :=
  forall n : nat, 0 <= Humanizer.draws g n /\ Humanizer.draws g n < 1.

(** The bound on a click point: within [fraction] of the width and of the
    height around the centre of the box. *)
Definition withinOfCentre (fraction : Q) (box : Humanizer.Box) (p : Humanizer.Point) : Prop :=
  Qabs (Humanizer.px p - (Humanizer.x box + Humanizer.width box / 2))
    <= fraction * Qabs (Humanizer.width box)
  /\ Qabs (Humanizer.py p - (Humanizer.y box + Humanizer.height box / 2))
    <= fraction * Qabs (Humanizer.height box).

#[local] Close Scope Q_scope.

(** ** The metrics store *)

Definition emptyMetrics : MetricsStore.MetricsData := MetricsStore.mkMetricsData [] [].

Definition pad2 (n : nat) : jsstring :=
  if (n <? 10)%nat then js "0" ++ toDecimal n else toDecimal n.

Definition isoDate (month day : nat) : jsstring :=
  js "2025-" ++ pad2 month ++ js "-" ++ pad2 day.

(** The first 122 days of 2025 (28 days of each month are enough). *)
Definition days122 : list jsstring :=
  take 122 (flat_map (fun m => map (isoDate m) (seq 1 28)) (seq 1 5)).

(** On each of the 122 days, points of the three sources are recorded. *)
Definition calls366 : list (jsstring * Z * MetricsStore.Source) :=
  flat_map (fun d => [(d, 10%Z, MetricsStore.click);
                      (d, 5%Z, MetricsStore.search);
                      (d, 20%Z, MetricsStore.quiz)]) days122.

Definition matches (today : jsstring) (source0 : MetricsStore.Source)
    (d : MetricsStore.DailyPoints) : bool :=
  bool_decide (MetricsStore.date d = today) && bool_decide (MetricsStore.source d = source0).

(** ** Discovery of quiz cards *)

(** A card of tomorrow's quiz: not completed, but locked. *)
Definition lockedCard : QuizHandler.Card :=
  QuizHandler.mkCard 0 1 (Some (js "Tomorrow Quiz")).

(** A page whose only quiz card is the locked one. *)
Definition lockedPage : QuizHandler.Page :=
  fun selector => if bool_decide (selector = js ".quiz-card") then [lockedCard] else [].

(** The invariant of the two loops of [findQuizActivities]. *)
Definition quizInvariant (st : QuizHandler.State) : Prop :=
  Forall (fun c => QuizHandler.completedMarks c = 0%nat) (snd st)
  /\ NoDup (map QuizHandler.cardText (snd st))
  /\ (forall c, c ∈ snd st -> QuizHandler.cardText c ∈ fst st).

(** ** Discovery of activities and the explore query *)

(** The field [getExploreQuery] takes the query from: the description when
    it is present and not blank, the title otherwise. *)
Definition queryField (activity : ClickHandler.ActivityInfo) : jsstring :=
  match ClickHandler.description activity with
  | Some d => if ClickHandler.isEmpty (trim d) then ClickHandler.title activity else d
  | None => ClickHandler.title activity
  end.

(** What is left of a field once it is trimmed, the leading phrase is
    stripped, and the rest is trimmed again. *)
Definition stripped (text : jsstring) : jsstring :=
  trim (ClickHandler.stripLead (trim text)).

(** An explore card whose description is only the leading phrase, with
    white space around it. *)
Definition phraseOnly : ClickHandler.ActivityInfo :=
  ClickHandler.mkActivityInfo 0 (js "Explore") (js "placeholder") false 0
    ClickHandler.explore (Some (js "  Search on Bing for  ")).

Definition offerCard (handle : nat) : ClickHandler.Card :=
  ClickHandler.mkCard true 0 1 0 (Some (Some (js "Daily offer"))) None 1 handle.

(** Two different cards of the explore section with the same title. *)
Definition twinPage : ClickHandler.Page :=
  ClickHandler.mkPage [] [] [offerCard 1; offerCard 2].

(** An explore card whose paragraph holds white space only. *)
Definition blankCard : ClickHandler.Card :=
  ClickHandler.mkCard true 0 0 0 (Some (Some (js "Search on Bing for cats")))
    (Some (js "   ")) 1 7.

(** A card passes the filters of [processCard]; the index does not matter. *)
Definition accepted (type0 : ClickHandler.ActivityType) (card : ClickHandler.Card) : bool :=
  bool_decide (is_Some (ClickHandler.processCard card type0 0)).

(** The cards of the more-activities section the pass looks at. *)
Definition moreActivities (page : ClickHandler.Page) : list ClickHandler.Card :=
  if (length (ClickHandler.moreByHeading page) =? 0)%nat
  then ClickHandler.moreByXPath page
  else ClickHandler.moreByHeading page.

(** [String.prototype.toLowerCase] on the ASCII letters. *)
Definition asciiLower (c : N) : N :=
  if ((65 <=? c) && (c <=? 90))%N then (c + 32)%N else c.

(** The test of [[:\-–]]. *)
Definition isSeparator (c : N) : bool :=
  ((c =? 58) || (c =? 45) || (c =? 8211))%N.

(** The entries are numbered by their position in the list. *)
Definition numbered (activities : list ClickHandler.ActivityInfo) : Prop :=
  forall i info, activities !! i = Some info -> ClickHandler.index info = i.

(** ** Statements about the metrics store *)


(** What identifies an entry of the daily points. *)
Definition entryKey (d : MetricsStore.DailyPoints) : jsstring * MetricsStore.Source :=
  (MetricsStore.date d, MetricsStore.source d).

(** Three runs of one handler, two of which ended [ok]. *)
Definition threeRuns : MetricsStore.MetricsData :=
  MetricsStore.mkMetricsData
    [MetricsStore.mkRunMetric (js "t1") (js "TestHandler") MetricsStore.ok 100 1 None;
     MetricsStore.mkRunMetric (js "t2") (js "TestHandler") MetricsStore.ok 200 1 None;
     MetricsStore.mkRunMetric (js "t3") (js "TestHandler") MetricsStore.failed 300 1 None]
    [].


(** ** Statements about pauses and typing *)

(** The delay [randomDelay] computes from the draw [r]. *)
Definition delayMs (min max : Z) (r : Q) : Z :=
  (Qfloor (r * inject_Z (max - min + 1)) + min)%Z.

(** The calls of [page.keyboard] among the inputs, in order. *)
Definition keyboardInputs (t : list Keyboard.Input) : list Keyboard.Input :=
  List.filter (fun i => match i with Keyboard.Pointer _ => false | _ => true end) t.

(** The events of the humanizer among the inputs, in order. *)
Definition pointerInputs (t : list Keyboard.Input) : list Humanizer.Event :=
  omap (fun i => match i with Keyboard.Pointer e => Some e | _ => None end) t.

(** An input that is a pause lasts between [lo] and [hi] milliseconds. *)
Definition pauseWithin (lo hi : Z) (i : Keyboard.Input) : Prop :=
  match i with
  | Keyboard.Pointer (Humanizer.Sleep ms) => (inject_Z lo <= ms /\ ms <= inject_Z hi)%Q
  | _ => True
  end.

Definition inputs {A : Type}
    (r : Humanizer.Outcome A * list Keyboard.Input * Humanizer.Rng) : list Keyboard.Input :=
  snd (fst r).

Definition result {A : Type}
    (r : Humanizer.Outcome A * list Keyboard.Input * Humanizer.Rng) : Humanizer.Outcome A :=
  fst (fst r).

(** No code unit of the string is a surrogate. *)
Definition noSurrogate (s : jsstring) : Prop :=
  Forall (fun c => Keyboard.isLeadSurrogate c = false) s.

(** ** Statements about the run of the click handler *)

(** [n] pauses between clicks. *)
Definition pauses {World : Type} (browser : ClickHandlerRun.Browser World) (n : nat)
    (w : World) : World :=
  Nat.iter n (ClickHandlerRun.pause browser 2000 4000) w.

(** A site that shows [twinPage] and counts the clicks performed on it. *)
Definition countingBrowser : ClickHandlerRun.Browser nat :=
  ClickHandlerRun.mkBrowser nat
    (fun _ w => (None, w))
    (fun _ _ w => w)
    (fun _ => twinPage)
    (fun _ w => (true, S w)).

(** A browser that was not initialised: [goto] throws. *)
Definition closedBrowser : ClickHandlerRun.Browser nat :=
  ClickHandlerRun.mkBrowser nat
    (fun _ w => (Some (Humanizer.newError (js "Browser not initialized")), w))
    (fun _ _ w => w)
    (fun _ => twinPage)
    (fun _ w => (true, S w)).

(** ** Statements about the quiz handler *)

(** Time does not stand still: a pause lasts at least its lower bound, and
    a click on an option does not turn the clock back. *)
Definition clockAdvances {World : Type} (browser : QuizHandlerRun.Browser World) : Prop :=
  (forall lo hi w,
      (QuizHandlerRun.now browser w + lo
       <= QuizHandlerRun.now browser (QuizHandlerRun.pause browser lo hi w))%Z)
  /\ (forall option w,
         (QuizHandlerRun.now browser w
          <= QuizHandlerRun.now browser (snd (QuizHandlerRun.clickOption browser option w)))%Z).

(** [w'] is reached from [w] by pauses alone: no navigation and no click. *)
Inductive pausedFrom {World : Type} (browser : QuizHandlerRun.Browser World) (w : World)
  : World -> Prop :=
| paused_here : pausedFrom browser w w
| paused_more (lo hi : Z) (w' : World) :
    pausedFrom browser w w' -> pausedFrom browser w (QuizHandlerRun.pause browser lo hi w').

(** A quiz page with two answers, on which the quiz is never complete; the
    state is the clock and the number of clicks on answers. *)
Definition openView : QuizHandlerRun.View :=
  QuizHandlerRun.mkView (js "<html>Question 1</html>") 0 0
    (fun sel => if bool_decide (sel = js ".btOption") then [1; 2]%nat else []).

Definition quizCard : QuizHandler.Card := QuizHandler.mkCard 0 0 (Some (js "Daily quiz")).

Definition quizBrowser : QuizHandlerRun.Browser (Z * nat) :=
  QuizHandlerRun.mkBrowser (Z * nat)
    (fun _ w => (None, w))
    (fun lo _ w => ((fst w + lo)%Z, snd w))
    fst
    (fun _ sel => if bool_decide (sel = js ".quiz-card") then [quizCard] else [])
    (fun _ => openView)
    (fun _ w => (None, (fst w, S (snd w))))
    (fun _ w => (None, (fst w, S (snd w)))).

(** ** Further statements about the cache and discovery *)

(** No code unit of the lower-cased question is in [[a-z0-9]]. *)
Definition alnumFree (question : jsstring) : Prop :=
  Forall (fun c => isLowerAlnum c = false) (toLowerCase question).

(** The cards a pass looks at for entries of a type. *)
Definition sectionOf (page : ClickHandler.Page) (type0 : ClickHandler.ActivityType)
  : list ClickHandler.Card :=
  match type0 with
  | ClickHandler.standard => moreActivities page
  | ClickHandler.explore => ClickHandler.exploreSection page
  end.

(** The title [processCard] gives an entry of index [n] made from [card]. *)
Definition titleOf (card : ClickHandler.Card) (n : nat) : jsstring :=
  match ClickHandler.titleText card with
  | Some (Some (c :: t)) => trim (c :: t)
  | _ => trim (js "Activity #" ++ toDecimal n)
  end.

(** ** Statements about the command line *)

(** The options that take the next argument as their value. *)
Definition takesValue (arg : jsstring) : bool :=
  bool_decide (arg = js "--user-data-dir") || bool_decide (arg = js "-u")
  || bool_decide (arg = js "--max-actions") || bool_decide (arg = js "-m").

Definition isHelp (arg : jsstring) : bool :=
  bool_decide (arg = js "--help") || bool_decide (arg = js "-h").

Definition isDryRun (arg : jsstring) : bool :=
  bool_decide (arg = js "--dry-run") || bool_decide (arg = js "-d").

(** ** Further statements about the humanizer and quiz discovery *)

(** The time spent in the pauses of a trace, in milliseconds. *)
Definition sleepTotal (t : list Humanizer.Event) : Q :=
  fold_right (fun e total =>
                match e with
                | Humanizer.Sleep ms => (ms + total)%Q
                | _ => total
                end) 0%Q t.

(** The elements [findQuizActivities] visits, in the order of the visit. *)
Definition candidates (page : QuizHandler.Page) : list QuizHandler.Card :=
  flat_map page QuizHandler.quizSelectors.

(** The invariant of the loops of [findQuizActivities] with respect to the
    elements visited so far. *)
Definition visited (seen : list QuizHandler.Card) (st : QuizHandler.State) : Prop :=
  (forall text,
      text ∈ fst st
      <-> exists card, card ∈ seen /\ QuizHandler.completedMarks card = 0%nat
                       /\ QuizHandler.cardText card = text)
  /\ (forall text, text ∈ fst st <-> text ∈ map QuizHandler.cardText (snd st))
  /\ (forall card, card ∈ snd st -> card ∈ seen).

(** * Properties *)

(** ** Strings: trimming and white space *)

Lemma trimStart_split (s : jsstring) :
  exists w, s = w ++ trimStart s /\ forallb isWhiteSpace w = true.
Proof.
  induction s as [|c r [w [Hs Hw]]]; [by exists []|].
  simpl. destruct (isWhiteSpace c) eqn:Hc.
  - exists (c :: w). simpl. rewrite Hc, Hw. split; [by f_equal|done].
  - by exists [].
Qed.

Lemma trimEnd_split (s : jsstring) :
  exists w, s = trimEnd s ++ w /\ forallb isWhiteSpace w = true.
Proof.
  unfold trimEnd. destruct (trimStart_split (rev s)) as [w [Hs Hw]].
  exists (rev w). split.
  - rewrite <- rev_app_distr, <- Hs. by rewrite rev_involutive.
  - rewrite forallb_forall in *. intros c Hc. apply Hw. by apply in_rev.
Qed.

Lemma trimStart_headNotSpace (s : jsstring) : headNotSpace (trimStart s) = true.
Proof.
  induction s as [|c r IH]; [done|]. simpl.
  destruct (isWhiteSpace c) eqn:Hc; [done|]. simpl. by rewrite Hc.
Qed.

Lemma trimStart_fixed (s : jsstring) : headNotSpace s = true -> trimStart s = s.
Proof.
  destruct s as [|c r]; [done|]. simpl. by destruct (isWhiteSpace c).
Qed.

Lemma trimStart_idem (s : jsstring) : trimStart (trimStart s) = trimStart s.
Proof. apply trimStart_fixed, trimStart_headNotSpace. Qed.

Lemma trimEnd_idem (s : jsstring) : trimEnd (trimEnd s) = trimEnd s.
Proof. unfold trimEnd. by rewrite rev_involutive, trimStart_idem. Qed.

Lemma headNotSpace_prefix (p w : jsstring) :
  headNotSpace (p ++ w) = true -> p <> [] -> headNotSpace p = true.
Proof. by destruct p. Qed.

Lemma trimEnd_headNotSpace (s : jsstring) :
  headNotSpace s = true -> headNotSpace (trimEnd s) = true.
Proof.
  intros H. destruct (trimEnd_split s) as [w [Hs _]].
  destruct (trimEnd s) as [|c r] eqn:E; [done|].
  rewrite Hs in H. by apply headNotSpace_prefix in H.
Qed.

Lemma trim_idem (s : jsstring) : trim (trim s) = trim s.
Proof.
  unfold trim at 1.
  rewrite trimStart_fixed.
  - unfold trim. apply trimEnd_idem.
  - unfold trim. apply trimEnd_headNotSpace, trimStart_headNotSpace.
Qed.

Lemma trimStart_Forall (P : N -> Prop) (s : jsstring) :
  Forall P s -> Forall P (trimStart s).
Proof.
  intros H. destruct (trimStart_split s) as [w [Hs _]].
  rewrite Hs in H. by apply Forall_app in H as [_ H].
Qed.

Lemma trimEnd_Forall (P : N -> Prop) (s : jsstring) :
  Forall P s -> Forall P (trimEnd s).
Proof.
  intros H. destruct (trimEnd_split s) as [w [Hs _]].
  rewrite Hs in H. by apply Forall_app in H as [H _].
Qed.

Lemma trim_Forall (P : N -> Prop) (s : jsstring) :
  Forall P s -> Forall P (trim s).
Proof. intros H. by apply trimEnd_Forall, trimStart_Forall. Qed.

Lemma singleSpaced_weaken (b : bool) (s : jsstring) :
  singleSpaced b s = true -> singleSpaced false s = true.
Proof.
  destruct s as [|c r]; [done|]. simpl.
  destruct (isWhiteSpace c); [|done].
  destruct b; simpl; [|done]. rewrite andb_false_r. discriminate.
Qed.

Lemma singleSpaced_prefix (b : bool) (p w : jsstring) :
  singleSpaced b (p ++ w) = true -> singleSpaced b p = true.
Proof.
  revert b. induction p as [|c r IH]; intros b; [done|]. simpl.
  destruct (isWhiteSpace c).
  - rewrite !andb_true_iff. intros [H1 H2]. split; [done|]. by apply IH.
  - apply IH.
Qed.

Lemma singleSpaced_trimStart (s : jsstring) :
  singleSpaced false s = true -> singleSpaced false (trimStart s) = true.
Proof.
  induction s as [|c r IH]; [done|]. intros H. simpl.
  destruct (isWhiteSpace c) eqn:Hc; [|done].
  apply IH. simpl in H. rewrite Hc in H.
  apply andb_true_iff in H as [_ H]. by apply singleSpaced_weaken in H.
Qed.

Lemma singleSpaced_trim (s : jsstring) :
  singleSpaced false s = true -> singleSpaced false (trim s) = true.
Proof.
  intros H. unfold trim.
  destruct (trimEnd_split (trimStart s)) as [w [Hs _]].
  apply singleSpaced_trimStart in H. rewrite Hs in H.
  by apply singleSpaced_prefix in H.
Qed.

Lemma collapseFrom_singleSpaced (b : bool) (s : jsstring) :
  singleSpaced b (collapseFrom b s) = true.
Proof.
  revert b. induction s as [|c r IH]; intros b; [done|]. simpl.
  destruct (isWhiteSpace c) eqn:Hc.
  - destruct b; [apply IH|]. simpl. apply IH.
  - simpl. rewrite Hc. apply IH.
Qed.

Lemma collapseFrom_fixed (b : bool) (s : jsstring) :
  singleSpaced b s = true -> collapseFrom b s = s.
Proof.
  revert b. induction s as [|c r IH]; intros b; [done|]. simpl.
  destruct (isWhiteSpace c) eqn:Hc.
  - rewrite !andb_true_iff. intros [[H1 H2] H3].
    apply N.eqb_eq in H1. subst c.
    destruct b; [done|]. f_equal. by apply IH.
  - intros H. f_equal. by apply IH.
Qed.

Lemma collapseFrom_clean (b : bool) (s : jsstring) :
  Forall (fun c => keptChar c = true) s ->
  Forall (fun c => cleanChar c = true) (collapseFrom b s).
Proof.
  revert b. induction s as [|c r IH]; intros b H; [constructor|].
  apply Forall_cons in H as [Hc Hr]. simpl.
  destruct (isWhiteSpace c) eqn:Hw.
  - destruct b; [by apply IH|]. constructor; [done|by apply IH].
  - constructor; [|by apply IH].
    unfold keptChar in Hc. rewrite Hw, orb_false_r in Hc.
    unfold cleanChar. by rewrite Hc.
Qed.

Lemma stripNonAlnum_kept (s : jsstring) :
  Forall (fun c => keptChar c = true) (stripNonAlnum s).
Proof.
  unfold stripNonAlnum. apply Forall_forall. intros c Hc.
  apply list_elem_of_In, filter_In in Hc. apply Hc.
Qed.

Lemma cleanChar_kept (c : N) : cleanChar c = true -> keptChar c = true.
Proof.
  unfold cleanChar, keptChar. intros H.
  apply orb_true_iff in H as [H|H]; [by rewrite H|].
  apply N.eqb_eq in H. subst c. apply orb_true_r.
Qed.

Lemma stripNonAlnum_fixed (s : jsstring) :
  Forall (fun c => cleanChar c = true) s -> stripNonAlnum s = s.
Proof.
  induction 1 as [|c r Hc Hr IH]; [done|].
  unfold stripNonAlnum in *. simpl.
  apply cleanChar_kept in Hc. unfold keptChar in Hc. rewrite Hc. by f_equal.
Qed.

Lemma toLowerCase1_clean (c : N) : cleanChar c = true -> toLowerCase1 c = [c].
Proof.
  unfold cleanChar, isLowerAlnum, toLowerCase1. intros H.
  destruct ((65 <=? c) && (c <=? 90))%N eqn:E1.
  { apply andb_true_iff in E1 as [E1 E2].
    apply N.leb_le in E1, E2.
    repeat (apply orb_true_iff in H as [H|H]);
      try (apply andb_true_iff in H as [H1 H2]; apply N.leb_le in H1, H2; lia).
    apply N.eqb_eq in H. lia. }
  destruct (c =? 304)%N eqn:E2.
  { apply N.eqb_eq in E2. subst c. discriminate. }
  destruct (c =? 8490)%N eqn:E3.
  { apply N.eqb_eq in E3. subst c. discriminate. }
  done.
Qed.

Lemma toLowerCase_fixed (s : jsstring) :
  Forall (fun c => cleanChar c = true) s -> toLowerCase s = s.
Proof.
  induction 1 as [|c r Hc Hr IH]; [done|].
  unfold toLowerCase in *. simpl. rewrite IH.
  by rewrite (toLowerCase1_clean c Hc).
Qed.

(** ** The answer cache *)

Lemma normalizeQuestion_clean (q : jsstring) :
  Forall (fun c => cleanChar c = true) (QACache.normalizeQuestion q).
Proof.
  unfold QACache.normalizeQuestion, collapseWhiteSpace.
  apply trim_Forall, collapseFrom_clean, stripNonAlnum_kept.
Qed.

Lemma normalizeQuestion_singleSpaced (q : jsstring) :
  singleSpaced false (QACache.normalizeQuestion q) = true.
Proof.
  unfold QACache.normalizeQuestion, collapseWhiteSpace.
  apply singleSpaced_trim, collapseFrom_singleSpaced.
Qed.

(** Normalisation is idempotent. *)
Lemma normalizeQuestion_idem (q : jsstring) :
  QACache.normalizeQuestion (QACache.normalizeQuestion q) = QACache.normalizeQuestion q.
Proof.
  pose proof (normalizeQuestion_clean q) as Hc.
  pose proof (normalizeQuestion_singleSpaced q) as Hs.
  unfold QACache.normalizeQuestion at 1.
  rewrite (toLowerCase_fixed _ Hc), (stripNonAlnum_fixed _ Hc).
  unfold collapseWhiteSpace. rewrite (collapseFrom_fixed _ _ Hs).
  unfold QACache.normalizeQuestion. apply trim_idem.
Qed.

(** The hash is a 32-bit integer whatever the text. *)
Lemma toInt32_range (z : Z) : (- 2 ^ 31 <= QACache.toInt32 z < 2 ^ 31)%Z.
Proof.
  unfold QACache.toInt32.
  pose proof (Z.mod_pos_bound (z + 2 ^ 31) (2 ^ 32) ltac:(lia)). lia.
Qed.

Lemma hashStep_range (h : Z) (c : N) : (- 2 ^ 31 <= QACache.hashStep h c < 2 ^ 31)%Z.
Proof. unfold QACache.hashStep. rewrite Z.land_diag. apply toInt32_range. Qed.

(** A record that is marked correct makes every incorrect write to its key a
    no-op on the whole cache. *)
Lemma store_incorrect_noop (cache : gmap jsstring QACache.QARecord)
    (q : jsstring) (a : Z) (ev : option (list jsstring)) (r : QACache.QARecord) :
  cache !! QACache.hashQuestion q = Some r ->
  QACache.correct r = true ->
  QACache.store q a false ev cache = cache.
Proof.
  intros Hr Hc. unfold QACache.store. rewrite Hr. simpl. by rewrite Hc.
Qed.

Lemma store_correct_lookup (cache : gmap jsstring QACache.QARecord)
    (q : jsstring) (a : Z) (ev : option (list jsstring)) :
  QACache.store q a true ev cache !! QACache.hashQuestion q
  = Some (QACache.mkQARecord (QACache.hashQuestion q) a true ev).
Proof.
  unfold QACache.store. rewrite andb_false_r. apply lookup_insert_eq.
Qed.

Lemma store_incorrect_keeps_correct (cache : gmap jsstring QACache.QARecord)
    (q : jsstring) (a : Z) (ev : option (list jsstring))
    (h : jsstring) (r : QACache.QARecord) :
  cache !! h = Some r ->
  QACache.correct r = true ->
  QACache.store q a false ev cache !! h = Some r.
Proof.
  intros Hr Hc. destruct (decide (QACache.hashQuestion q = h)) as [<-|Hne].
  - by rewrite (store_incorrect_noop cache q a ev r Hr Hc).
  - unfold QACache.store.
    destruct (from_option QACache.correct false (cache !! QACache.hashQuestion q) && negb false);
      [done|]. by rewrite lookup_insert_ne.
Qed.

(** A correct record survives any run of incorrect writes, to its key or to
    other keys. *)
Lemma storeIncorrectAll_keeps_correct (writes : list (jsstring * Z * option (list jsstring)))
    (cache : gmap jsstring QACache.QARecord) (h : jsstring) (r : QACache.QARecord) :
  cache !! h = Some r ->
  QACache.correct r = true ->
  storeIncorrectAll writes cache !! h = Some r.
Proof.
  revert cache. induction writes as [|[[q a] ev] writes IH]; intros cache Hr Hc; [done|].
  unfold storeIncorrectAll in *. simpl. apply IH; [|done].
  by apply store_incorrect_keeps_correct.
Qed.

(** C1: once [store q a true] has recorded a correct record under the hash
    of [q], a later [store q2 a2 false] for a question with the same hash
    leaves the cache, and so the record found by [lookup q], unchanged:
    it is still correct and still holds the answer index [a]. *)
Theorem store_sticky_correct (cache : gmap jsstring QACache.QARecord)
    (q q2 : jsstring) (a a2 : Z) (ev ev2 : option (list jsstring)) :
  QACache.hashQuestion q2 = QACache.hashQuestion q ->
  let stored := QACache.store q a true ev cache in
  QACache.store q2 a2 false ev2 stored = stored
  /\ QACache.lookup q (QACache.store q2 a2 false ev2 stored)
     = Some (QACache.mkQARecord (QACache.hashQuestion q) a true ev).
Proof.
  intros Hh stored.
  assert (Hs : stored !! QACache.hashQuestion q2
               = Some (QACache.mkQARecord (QACache.hashQuestion q) a true ev)).
  { rewrite Hh. apply store_correct_lookup. }
  assert (Hn : QACache.store q2 a2 false ev2 stored = stored)
    by (eapply store_incorrect_noop; [exact Hs|done]).
  split; [exact Hn|].
  rewrite Hn. unfold QACache.lookup. apply store_correct_lookup.
Qed.

Lemma store_sticky_correct_witness :
  QACache.hashQuestion (js "test question!") = QACache.hashQuestion (js "Test question")
  /\ QACache.lookup (js "Test question")
       (QACache.store (js "test question!") 2 false None
          (QACache.store (js "Test question") 1 true None ∅))
     = Some (QACache.mkQARecord (QACache.hashQuestion (js "Test question")) 1 true None).
Proof.
  split; [reflexivity|].
  apply (store_sticky_correct ∅ (js "Test question") (js "test question!") 1 2 None None).
  reflexivity.
Defined.

(** C10: a write with [correct = true] always replaces the record of its
    key, also one that was already correct: afterwards [lookup] returns the
    new answer index and the new evidence. *)
Theorem store_correct_overwrites (cache : gmap jsstring QACache.QARecord)
    (q : jsstring) (a a2 : Z) (ev ev2 : option (list jsstring)) :
  QACache.lookup q (QACache.store q a2 true ev2 cache)
  = Some (QACache.mkQARecord (QACache.hashQuestion q) a2 true ev2)
  /\ QACache.lookup q (QACache.store q a2 true ev2 (QACache.store q a true ev cache))
     = Some (QACache.mkQARecord (QACache.hashQuestion q) a2 true ev2).
Proof.
  unfold QACache.lookup. split; apply store_correct_lookup.
Qed.

(** C8: the hash depends on the question through its normal form only; the
    two spellings of "What is 2+2?" have the same hash; and hashing the
    normal form of a question gives the hash of the question. *)
Theorem hashQuestion_factors_through_normalization :
  (forall q1 q2 : jsstring,
      QACache.normalizeQuestion q1 = QACache.normalizeQuestion q2 ->
      QACache.hashQuestion q1 = QACache.hashQuestion q2)
  /\ QACache.hashQuestion (js "What is 2+2?") = QACache.hashQuestion (js "what is 2+2")
  /\ (forall q : jsstring,
         QACache.hashQuestion (QACache.normalizeQuestion q) = QACache.hashQuestion q).
Proof.
  split; [|split].
  - intros q1 q2 H. unfold QACache.hashQuestion. by rewrite H.
  - reflexivity.
  - intros q. unfold QACache.hashQuestion. by rewrite normalizeQuestion_idem.
Qed.

Lemma hashQuestion_factors_through_normalization_witness :
  QACache.normalizeQuestion (js "What is the CAPITAL of France?")
  = QACache.normalizeQuestion (js "what is the capital of france")
  /\ QACache.hashQuestion (js "What is the CAPITAL of France?")
     = QACache.hashQuestion (js "what is the capital of france").
Proof.
  split; [reflexivity|].
  apply (proj1 hashQuestion_factors_through_normalization).
  reflexivity.
Defined.

(** ** The humanizer *)

#[local] Open Scope Q_scope.

Lemma generateMousePath_run (x0 y0 x1 y1 : Q) (steps : nat) (g : Humanizer.Rng) :
  Humanizer.generateMousePath x0 y0 x1 y1 steps g
  = (Humanizer.Returned
       (bezierPath x0 y0 x1 y1 steps
          (Humanizer.draws g (Humanizer.cursor g))
          (Humanizer.draws g (S (Humanizer.cursor g)))
          (Humanizer.draws g (S (S (Humanizer.cursor g))))
          (Humanizer.draws g (S (S (S (Humanizer.cursor g)))))),
     [],
     Humanizer.mkRng (Humanizer.draws g) (S (S (S (S (Humanizer.cursor g)))))).
Proof. reflexivity. Qed.

Lemma bezier_at_0 (t p0 c1 c2 p3 : Q) : t == 0 -> Humanizer.bezier t p0 c1 c2 p3 == p0.
Proof. intros H. unfold Humanizer.bezier. rewrite H. simpl. ring. Qed.

Lemma bezier_at_1 (t p0 c1 c2 p3 : Q) : t == 1 -> Humanizer.bezier t p0 c1 c2 p3 == p3.
Proof. intros H. unfold Humanizer.bezier. rewrite H. simpl. ring. Qed.

Lemma bezierPath_length x0 y0 x1 y1 steps r1 r2 r3 r4 :
  length (bezierPath x0 y0 x1 y1 steps r1 r2 r3 r4) = S steps.
Proof. unfold bezierPath. by rewrite length_map, length_seq. Qed.

Lemma bezierPath_head x0 y0 x1 y1 steps r1 r2 r3 r4 :
  exists p, head (bezierPath x0 y0 x1 y1 steps r1 r2 r3 r4) = Some p
            /\ Humanizer.px p == x0 /\ Humanizer.py p == y0.
Proof.
  unfold bezierPath. simpl. eexists. split; [reflexivity|].
  simpl. split; apply bezier_at_0; unfold Qdiv; ring.
Qed.

Lemma bezierPath_last x0 y0 x1 y1 steps r1 r2 r3 r4 :
  (1 <= steps)%nat ->
  exists p, last (bezierPath x0 y0 x1 y1 steps r1 r2 r3 r4) = Some p
            /\ Humanizer.px p == x1 /\ Humanizer.py p == y1.
Proof.
  intros Hs. unfold bezierPath. rewrite seq_S, map_app. simpl.
  rewrite last_snoc. eexists. split; [reflexivity|].
  assert (Ht : inject_Z (Z.of_nat steps) / inject_Z (Z.of_nat steps) == 1).
  { apply Qmult_inv_r. unfold Qeq. simpl. lia. }
  simpl. split; by apply bezier_at_1.
Qed.

Lemma pointerEvents_app (t1 t2 : list Humanizer.Event) :
  pointerEvents (t1 ++ t2) = pointerEvents t1 ++ pointerEvents t2.
Proof. unfold pointerEvents. apply List.filter_app. Qed.

Lemma mouseMoves_pointerEvents (t : list Humanizer.Event) :
  mouseMoves (pointerEvents t) = mouseMoves t.
Proof.
  unfold mouseMoves, pointerEvents. induction t as [|e t IH]; [done|].
  destruct e; simpl; first [exact IH | f_equal; exact IH].
Qed.

Lemma mouseMoves_moves (path : list Humanizer.Point) (t : list Humanizer.Event) :
  mouseMoves (map Humanizer.MouseMove path ++ t) = path ++ mouseMoves t.
Proof.
  unfold mouseMoves. induction path as [|p path IH]; [done|].
  simpl. f_equal. exact IH.
Qed.

(** The loop over the path sends one pointer-move per point, in order, and
    does not throw. *)
Lemma forEach_moves (path : list Humanizer.Point) (g : Humanizer.Rng) :
  exists t,
    Humanizer.forEach path
      (fun point =>
         Humanizer.bind (Humanizer.emit (Humanizer.MouseMove point)) (fun _ =>
         Humanizer.bind Humanizer.random (fun r =>
         Humanizer.emit (Humanizer.Sleep (r * 5))))) g
    = (Humanizer.Returned tt, t,
       Humanizer.mkRng (Humanizer.draws g) (length path + Humanizer.cursor g))
    /\ pointerEvents t = map Humanizer.MouseMove path.
Proof.
  revert g. induction path as [|p path IH]; intros g.
  - exists []. split; [by destruct g|done].
  - destruct (IH (Humanizer.mkRng (Humanizer.draws g) (S (Humanizer.cursor g))))
      as [t [Hr Ht]].
    eexists. split.
    + simpl. unfold Humanizer.bind at 1. simpl.
      simpl in Hr. rewrite Hr. simpl. rewrite Nat.add_succ_r. reflexivity.
    + simpl. by rewrite Ht.
Qed.

Lemma bind_run {A B : Type} (m : Humanizer.M A) (k : A -> Humanizer.M B)
    (g g1 : Humanizer.Rng) (a : A) (t1 : list Humanizer.Event) :
  m g = (Humanizer.Returned a, t1, g1) ->
  outcome (Humanizer.bind m k g) = outcome (k a g1)
  /\ trace (Humanizer.bind m k g) = t1 ++ trace (k a g1).
Proof.
  intros H. unfold Humanizer.bind, outcome, trace. rewrite H.
  by destruct (k a g1) as [[o t2] g2].
Qed.

Lemma random_run (g : Humanizer.Rng) :
  Humanizer.random g
  = (Humanizer.Returned (Humanizer.draws g (Humanizer.cursor g)), [],
     Humanizer.mkRng (Humanizer.draws g) (S (Humanizer.cursor g))).
Proof. reflexivity. Qed.

Lemma emit_run (e : Humanizer.Event) (g : Humanizer.Rng) :
  Humanizer.emit e g = (Humanizer.Returned tt, [e], g).
Proof. reflexivity. Qed.

Lemma randomDelay_run (min max : Z) (g : Humanizer.Rng) :
  exists ms,
    Humanizer.randomDelay min max g
    = (Humanizer.Returned tt, [Humanizer.Sleep ms],
       Humanizer.mkRng (Humanizer.draws g) (S (Humanizer.cursor g))).
Proof. eexists. reflexivity. Qed.

Ltac run_step :=
  match goal with
  | |- context [Humanizer.bind Humanizer.random ?k ?g] =>
      destruct (bind_run _ k _ _ _ _ (random_run g)) as [-> ->]
  | |- context [Humanizer.bind (Humanizer.emit ?e) ?k ?g] =>
      destruct (bind_run _ k _ _ _ _ (emit_run e g)) as [-> ->]
  | |- context [Humanizer.bind (Humanizer.randomDelay ?a ?b) ?k ?g] =>
      let ms := fresh "ms" in
      let H := fresh "H" in
      destruct (randomDelay_run a b g) as [ms H];
      destruct (bind_run _ k _ _ _ _ H) as [-> ->]; clear H
  | |- context [Humanizer.bind (Humanizer.generateMousePath ?a ?b ?c ?d ?n) ?k ?g] =>
      destruct (bind_run _ k _ _ _ _ (generateMousePath_run a b c d n g)) as [-> ->]
  | |- context [Humanizer.bind (Humanizer.forEach ?p ?b) ?k ?g] =>
      let t := fresh "t" in
      let Hr := fresh "Hr" in
      let Ht := fresh "Ht" in
      destruct (forEach_moves p g) as [t [Hr Ht]];
      destruct (bind_run _ k _ _ _ _ Hr) as [-> ->]; clear Hr
  end;
  cbv beta; cbn [Humanizer.draws Humanizer.cursor].

(** The script that runs the body shared by [clickHuman] and
    [clickLocatorHuman] once the box is known. *)
Ltac click_trace :=
  do 8 run_step;
  match goal with
  | |- context [outcome (Humanizer.randomDelay ?a ?b ?g0)] =>
      let ms := fresh "ms" in
      let H := fresh "H" in
      destruct (randomDelay_run a b g0) as [ms H]; rewrite H
  end;
  split; [reflexivity|];
  unfold trace; cbn [fst snd];
  match goal with
  | Ht : pointerEvents _ = _ |- _ => rewrite !pointerEvents_app, Ht
  end;
  reflexivity.

Lemma clickLocatorHuman_visible (page : Humanizer.Page) (locator0 : Humanizer.Locator)
    (box : Humanizer.Box) (g : Humanizer.Rng) :
  Humanizer.boundingBox (Humanizer.first locator0) = Some box ->
  outcome (Humanizer.clickLocatorHuman page locator0 g) = Humanizer.Returned tt
  /\ pointerEvents (trace (Humanizer.clickLocatorHuman page locator0 g))
     = map Humanizer.MouseMove (clickPath box g)
       ++ [Humanizer.MouseDown; Humanizer.MouseUp].
Proof.
  intros Hb. cbv beta zeta delta [Humanizer.clickLocatorHuman].
  rewrite Hb. unfold clickPath. click_trace.
Qed.

Lemma clickHuman_visible (page : Humanizer.Page) (selector : jsstring)
    (box : Humanizer.Box) (g : Humanizer.Rng) :
  Humanizer.boundingBox (Humanizer.first (Humanizer.locator page selector)) = Some box ->
  outcome (Humanizer.clickHuman page selector g) = Humanizer.Returned tt
  /\ pointerEvents (trace (Humanizer.clickHuman page selector g))
     = map Humanizer.MouseMove (clickPath box g)
       ++ [Humanizer.MouseDown; Humanizer.MouseUp].
Proof.
  intros Hb. cbv beta zeta delta [Humanizer.clickHuman].
  rewrite Hb. unfold clickPath. click_trace.
Qed.

(** C7: for every state of the random source and every [steps >= 1],
    [generateMousePath] returns [steps + 1] points, the first of which is the
    start point and the last of which is the end point (in exact
    arithmetic). *)
Theorem generateMousePath_endpoints (x0 y0 x1 y1 : Q) (steps : nat) (g : Humanizer.Rng) :
  (1 <= steps)%nat ->
  exists path,
    outcome (Humanizer.generateMousePath x0 y0 x1 y1 steps g) = Humanizer.Returned path
    /\ length path = (steps + 1)%nat
    /\ (exists p, head path = Some p /\ Humanizer.px p == x0 /\ Humanizer.py p == y0)
    /\ (exists p, last path = Some p /\ Humanizer.px p == x1 /\ Humanizer.py p == y1).
Proof.
  intros Hs. rewrite generateMousePath_run.
  exists (bezierPath x0 y0 x1 y1 steps
          (Humanizer.draws g (Humanizer.cursor g))
          (Humanizer.draws g (S (Humanizer.cursor g)))
          (Humanizer.draws g (S (S (Humanizer.cursor g))))
          (Humanizer.draws g (S (S (S (Humanizer.cursor g)))))).
  split; [reflexivity|].
  split; [rewrite bezierPath_length; lia|].
  split; [apply bezierPath_head|apply bezierPath_last; exact Hs].
Qed.

Lemma generateMousePath_endpoints_witness :
  exists path,
    outcome (Humanizer.generateMousePath 50 75 200 300 20 halfRng) = Humanizer.Returned path
    /\ length path = 21%nat
    /\ (exists p, head path = Some p /\ Humanizer.px p == 50 /\ Humanizer.py p == 75)
    /\ (exists p, last path = Some p /\ Humanizer.px p == 200 /\ Humanizer.py p == 300).
Proof.
  apply (generateMousePath_endpoints 50 75 200 300 20 halfRng). lia.
Defined.

(** C9: [clickHuman] throws exactly when no bounding box is obtained: an
    [Error] with the message "Element <selector> not visible", before any
    event is sent; with a bounding box it returns, and the pointer events it
    sent are the moves along the 51 points of the path, then pointer-down,
    then pointer-up. *)
Theorem clickHuman_throws_iff_no_box (page : Humanizer.Page) (selector : jsstring)
    (g : Humanizer.Rng) :
  let r := Humanizer.clickHuman page selector g in
  ((exists error, outcome r = Humanizer.Thrown error)
   <-> Humanizer.boundingBox (Humanizer.first (Humanizer.locator page selector)) = None)
  /\ match Humanizer.boundingBox (Humanizer.first (Humanizer.locator page selector)) with
     | None =>
         outcome r
         = Humanizer.Thrown
             (Humanizer.newError (js "Element " ++ selector ++ js " not visible"))
         /\ trace r = []
     | Some box =>
         exists path,
           outcome r = Humanizer.Returned tt
           /\ length path = 51%nat
           /\ pointerEvents (trace r)
              = map Humanizer.MouseMove path ++ [Humanizer.MouseDown; Humanizer.MouseUp]
     end.
Proof.
  intros r. subst r.
  destruct (Humanizer.boundingBox (Humanizer.first (Humanizer.locator page selector)))
    as [box|] eqn:Hb.
  - destruct (clickHuman_visible page selector box g Hb) as [Ho Ht].
    split.
    + split; [|discriminate]. intros [m Hm]. rewrite Ho in Hm. discriminate.
    + exists (clickPath box g). split; [exact Ho|]. split; [|exact Ht].
      unfold clickPath. rewrite bezierPath_length. reflexivity.
  - assert (Hr : Humanizer.clickHuman page selector g
                 = (Humanizer.Thrown
                      (Humanizer.newError (js "Element " ++ selector ++ js " not visible")),
                    [], g)).
    { unfold Humanizer.clickHuman. cbv zeta. by rewrite Hb. }
    rewrite Hr. split; [|done]. split; [done|]. intros _. by eexists.
Qed.

Lemma clickHuman_throws_iff_no_box_witness :
  (exists error,
      outcome (Humanizer.clickHuman testPage (js "#invisible") zeroRng)
      = Humanizer.Thrown error)
  /\ outcome (Humanizer.clickHuman testPage (js "#test-button") zeroRng)
     = Humanizer.Returned tt.
Proof.
  split.
  - apply (proj1 (clickHuman_throws_iff_no_box testPage (js "#invisible") zeroRng)).
    reflexivity.
  - destruct (proj2 (clickHuman_throws_iff_no_box testPage (js "#test-button") zeroRng))
      as [path [Ho _]].
    exact Ho.
Defined.

(** The pointer is at the last point of the path when the button goes down,
    and that point is the target computed from the box. *)
Lemma clickPath_last (box : Humanizer.Box) (g : Humanizer.Rng) :
  exists p,
    last (clickPath box g) = Some p
    /\ Humanizer.px p == targetX box (Humanizer.draws g (Humanizer.cursor g))
    /\ Humanizer.py p == targetY box (Humanizer.draws g (S (Humanizer.cursor g))).
Proof. unfold clickPath. apply bezierPath_last. lia. Qed.

Lemma clickPoint_of_trace (t : list Humanizer.Event) (path : list Humanizer.Point) :
  pointerEvents t = map Humanizer.MouseMove path ++ [Humanizer.MouseDown; Humanizer.MouseUp] ->
  clickPoint t = last path.
Proof.
  intros H. unfold clickPoint.
  rewrite <- mouseMoves_pointerEvents, H, mouseMoves_moves.
  by rewrite app_nil_r.
Qed.

Lemma offset_bound (r w : Q) :
  0 <= r -> r < 1 -> Qabs ((r - 0.5) * (w * 0.8)) <= 0.4 * Qabs w.
Proof.
  intros H0 H1. rewrite !Qabs_Qmult.
  assert (Hr : Qabs (r - 0.5) <= 0.5) by (apply Qabs_Qle_condition; split; lra).
  assert (Hw : Qabs 0.8 == 0.8) by reflexivity.
  rewrite Hw.
  pose proof (Qabs_nonneg w) as Hn.
  pose proof (Qabs_nonneg (r - 0.5)) as Hm.
  nra.
Qed.

Lemma targetX_bound (box : Humanizer.Box) (r : Q) :
  0 <= r -> r < 1 ->
  Qabs (targetX box r - (Humanizer.x box + Humanizer.width box / 2))
  <= 0.4 * Qabs (Humanizer.width box).
Proof.
  intros H0 H1.
  assert (E : targetX box r - (Humanizer.x box + Humanizer.width box / 2)
              == (r - 0.5) * (Humanizer.width box * 0.8))
    by (unfold targetX; ring).
  rewrite E. by apply offset_bound.
Qed.

Lemma targetY_bound (box : Humanizer.Box) (r : Q) :
  0 <= r -> r < 1 ->
  Qabs (targetY box r - (Humanizer.y box + Humanizer.height box / 2))
  <= 0.4 * Qabs (Humanizer.height box).
Proof.
  intros H0 H1.
  assert (E : targetY box r - (Humanizer.y box + Humanizer.height box / 2)
              == (r - 0.5) * (Humanizer.height box * 0.8))
    by (unfold targetY; ring).
  rewrite E. by apply offset_bound.
Qed.

Lemma clickPath_last_within (box : Humanizer.Box) (g : Humanizer.Rng) :
  unitDraws g ->
  exists p, last (clickPath box g) = Some p /\ withinOfCentre 0.4 box p.
Proof.
  intros Hg. destruct (clickPath_last box g) as [p [Hl [Hx Hy]]].
  exists p. split; [exact Hl|]. unfold withinOfCentre. rewrite Hx, Hy.
  split; [apply targetX_bound|apply targetY_bound]; apply Hg.
Qed.

(** C6 (as amended): for every box and every outcome of the random draws,
    the point at which [clickHuman] and [clickLocatorHuman] press the button
    lies within 40% of the width of the box horizontally and 40% of its
    height vertically around the centre of the box, that is within 80% of the
    half-width and of the half-height. *)
Theorem click_offset_within_40_percent_of_size (page : Humanizer.Page)
    (selector : jsstring) (locator0 : Humanizer.Locator) (box : Humanizer.Box)
    (g : Humanizer.Rng) :
  unitDraws g ->
  (Humanizer.boundingBox (Humanizer.first (Humanizer.locator page selector)) = Some box ->
   exists p, clickPoint (trace (Humanizer.clickHuman page selector g)) = Some p
             /\ withinOfCentre 0.4 box p)
  /\ (Humanizer.boundingBox (Humanizer.first locator0) = Some box ->
      exists p, clickPoint (trace (Humanizer.clickLocatorHuman page locator0 g)) = Some p
                /\ withinOfCentre 0.4 box p).
Proof.
  intros Hg. split; intros Hb.
  - destruct (clickHuman_visible page selector box g Hb) as [_ Ht].
    rewrite (clickPoint_of_trace _ _ Ht). by apply clickPath_last_within.
  - destruct (clickLocatorHuman_visible page locator0 box g Hb) as [_ Ht].
    rewrite (clickPoint_of_trace _ _ Ht). by apply clickPath_last_within.
Qed.

Lemma unitDraws_zeroRng : unitDraws zeroRng.
Proof. intros n. simpl. split; [apply Qle_refl|reflexivity]. Defined.

Lemma click_offset_within_40_percent_of_size_witness :
  exists p, clickPoint (trace (Humanizer.clickHuman testPage (js "#test-button") zeroRng)) = Some p
            /\ withinOfCentre 0.4 testBox p.
Proof.
  apply (proj1 (click_offset_within_40_percent_of_size testPage (js "#test-button")
                  (Humanizer.mkLocator (Some testBox)) testBox zeroRng unitDraws_zeroRng)).
  reflexivity.
Defined.

(** C6 as stated fails: with the box (100, 100, 50, 30) and every draw equal
    to 0, [clickHuman] presses the button 20 to the left of the centre, more
    than 40% of the half-width (10). *)
Lemma click_offset_exceeds_40_percent_of_half_size :
  unitDraws zeroRng
  /\ exists p,
       clickPoint (trace (Humanizer.clickHuman testPage (js "#test-button") zeroRng)) = Some p
       /\ Humanizer.px p == 105
       /\ ~ (Qabs (Humanizer.px p - (Humanizer.x testBox + Humanizer.width testBox / 2))
             <= 0.4 * (Humanizer.width testBox / 2)).
Proof.
  split; [apply unitDraws_zeroRng|].
  eexists. split; [vm_compute; reflexivity|].
  split; [reflexivity|].
  vm_compute. intros H. apply H. reflexivity.
Qed.

#[local] Close Scope Q_scope.

(** ** The metrics store *)

Lemma sliceLast_length {A : Type} (n : nat) (l : list A) :
  length (MetricsStore.sliceLast n l) = Nat.min n (length l).
Proof. unfold MetricsStore.sliceLast. rewrite length_drop. lia. Qed.

Lemma sliceLast_suffix {A : Type} (n : nat) (l : list A) :
  exists evicted, l = evicted ++ MetricsStore.sliceLast n l
                  /\ length evicted = (length l - n)%nat.
Proof.
  unfold MetricsStore.sliceLast. exists (take (length l - n) l).
  split; [by rewrite take_drop|]. rewrite length_take. lia.
Qed.

Lemma findIndex_Some {A : Type} (p : A -> bool) (l : list A) (i : nat) :
  MetricsStore.findIndex p l = Some i ->
  exists e, l !! i = Some e /\ p e = true
            /\ forall j e', (j < i)%nat -> l !! j = Some e' -> p e' = false.
Proof.
  revert i. induction l as [|a r IH]; intros i; [done|]. simpl.
  destruct (p a) eqn:Hp.
  - intros [= <-]. exists a. repeat split; [done|]. intros j e' Hj. lia.
  - destruct (MetricsStore.findIndex p r) as [k|] eqn:Hk; [|done].
    simpl. intros [= <-]. destruct (IH k eq_refl) as [e [He [Hpe Hmin]]].
    exists e. repeat split; [done..|].
    intros [|j] e' Hj; simpl.
    + by intros [= <-].
    + apply Hmin. lia.
Qed.

Lemma findIndex_None {A : Type} (p : A -> bool) (l : list A) :
  MetricsStore.findIndex p l = None -> Forall (fun e => p e = false) l.
Proof.
  induction l as [|a r IH]; [constructor|]. simpl.
  destruct (p a) eqn:Hp; [done|].
  destruct (MetricsStore.findIndex p r); [done|]. intros _. constructor; auto.
Qed.

(** A call whose date and source match an entry adds its points to the first
    such entry; the other entries and the length of the list are unchanged. *)
Lemma recordPoints_accumulates (today : jsstring) (p : Z) (s : MetricsStore.Source)
    (data : MetricsStore.MetricsData) (i : nat) :
  MetricsStore.findIndex (matches today s) (MetricsStore.dailyPoints data) = Some i ->
  exists e,
    MetricsStore.dailyPoints data !! i = Some e
    /\ MetricsStore.date e = today /\ MetricsStore.source e = s
    /\ MetricsStore.dailyPoints (MetricsStore.recordPoints today p s data)
       = <[i := MetricsStore.mkDailyPoints today (MetricsStore.points e + p) s]>
           (MetricsStore.dailyPoints data)
    /\ length (MetricsStore.dailyPoints (MetricsStore.recordPoints today p s data))
       = length (MetricsStore.dailyPoints data).
Proof.
  intros Hi. destruct (findIndex_Some _ _ _ Hi) as [e [He [Hm _]]].
  exists e. unfold matches in Hm. apply andb_true_iff in Hm as [Hd Hs].
  apply bool_decide_eq_true in Hd, Hs.
  unfold MetricsStore.recordPoints. fold (matches today s). rewrite Hi, He. simpl.
  rewrite Hd, Hs. repeat split; try done. by rewrite length_insert.
Qed.

(** A call that matches no entry appends one, after the entries older than
    the last 365 have been evicted from the front. *)
Lemma recordPoints_appends (today : jsstring) (p : Z) (s : MetricsStore.Source)
    (data : MetricsStore.MetricsData) :
  MetricsStore.findIndex (matches today s) (MetricsStore.dailyPoints data) = None ->
  MetricsStore.dailyPoints (MetricsStore.recordPoints today p s data)
  = MetricsStore.sliceLast 365 (MetricsStore.dailyPoints data)
    ++ [MetricsStore.mkDailyPoints today p s].
Proof.
  intros Hi. unfold MetricsStore.recordPoints. fold (matches today s). by rewrite Hi.
Qed.

(** What the code guarantees: a list of at most 366 entries stays so. *)
Lemma recordPoints_length_bound (today : jsstring) (p : Z) (s : MetricsStore.Source)
    (data : MetricsStore.MetricsData) :
  (length (MetricsStore.dailyPoints data) <= 366)%nat ->
  (length (MetricsStore.dailyPoints (MetricsStore.recordPoints today p s data)) <= 366)%nat.
Proof.
  intros Hl.
  destruct (MetricsStore.findIndex (matches today s) (MetricsStore.dailyPoints data))
    as [i|] eqn:Hi.
  - destruct (recordPoints_accumulates today p s data i Hi) as [e [_ [_ [_ [_ Hlen]]]]].
    by rewrite Hlen.
  - rewrite (recordPoints_appends today p s data Hi).
    rewrite length_app, sliceLast_length. cbn [length]. lia.
Qed.

Lemma recordPointsAll_length_bound (calls : list (jsstring * Z * MetricsStore.Source))
    (data : MetricsStore.MetricsData) :
  (length (MetricsStore.dailyPoints data) <= 366)%nat ->
  (length (MetricsStore.dailyPoints (MetricsStore.recordPointsAll calls data)) <= 366)%nat.
Proof.
  revert data. induction calls as [|[[today p] s] calls IH]; intros data Hl; [done|].
  simpl. unfold MetricsStore.recordPointsAll in *. simpl.
  apply IH. by apply recordPoints_length_bound.
Qed.

(** The sibling [recordRun] does keep its log at the 1000 entries its
    comment names: it slices to 999 before it appends. *)
Lemma recordRun_length_bound (now handler0 : jsstring) (status0 : MetricsStore.Status)
    (durationMs0 attempts0 : Z) (meta0 : option (list (jsstring * jsstring)))
    (data : MetricsStore.MetricsData) :
  (length (MetricsStore.runs
             (MetricsStore.recordRun now handler0 status0 durationMs0 attempts0 meta0 data))
   <= 1000)%nat.
Proof.
  unfold MetricsStore.recordRun. simpl.
  rewrite length_app, sliceLast_length. cbn [length]. lia.
Qed.

(** C4 (code defect): starting from the empty store, recording points of the
    three sources on each of 122 days leaves 366 entries in [dailyPoints],
    one more than the 365 of the claim; each call evicts nothing because
    [slice(-365)] is taken before the new entry is appended. *)
Theorem recordPoints_keeps_366_entries :
  length calls366 = 366%nat
  /\ length (MetricsStore.dailyPoints (MetricsStore.recordPointsAll calls366 emptyMetrics))
     = 366%nat.
Proof. split; vm_compute; reflexivity. Qed.

(** ** Discovery of quiz cards *)

Lemma visit_invariant (st : QuizHandler.State) (element : QuizHandler.Card) :
  quizInvariant st -> quizInvariant (QuizHandler.visit st element).
Proof.
  destruct st as [processed quizzes]. intros (Hc & Hn & Hp).
  unfold QuizHandler.visit.
  destruct (0 <? QuizHandler.completedMarks element)%nat eqn:Hm; simpl; [done|].
  apply Nat.ltb_ge in Hm.
  fold (QuizHandler.cardText element).
  case_bool_decide as Hin; [done|].
  repeat split; simpl in *.
  - apply Forall_app. split; [done|]. constructor; [lia|constructor].
  - rewrite map_app. simpl. apply NoDup_app. repeat split; [done| |apply NoDup_singleton].
    intros t Ht Ht'. apply list_elem_of_singleton in Ht'. subst t.
    apply list_elem_of_fmap in Ht as [c [Hc1 Hc2]].
    apply Hin. rewrite Hc1. by apply Hp.
  - intros c Hc'. apply elem_of_app in Hc' as [Hc'|Hc'].
    + apply elem_of_union_r. by apply Hp.
    + apply list_elem_of_singleton in Hc'. subst c. apply elem_of_union_l.
      by apply elem_of_singleton.
Qed.

Lemma fold_visit_invariant (elements : list QuizHandler.Card) (st : QuizHandler.State) :
  quizInvariant st -> quizInvariant (fold_left QuizHandler.visit elements st).
Proof.
  revert st. induction elements as [|e r IH]; intros st H; [done|].
  simpl. by apply IH, visit_invariant.
Qed.

Lemma fold_selectors_invariant (page : QuizHandler.Page) (selectors : list jsstring)
    (st : QuizHandler.State) :
  quizInvariant st ->
  quizInvariant
    (fold_left (fun st selector => fold_left QuizHandler.visit (page selector) st)
       selectors st).
Proof.
  revert st. induction selectors as [|s r IH]; intros st H; [done|].
  simpl. by apply IH, fold_visit_invariant.
Qed.

(** The parts of C2 the code does implement: no returned card is completed,
    and no two returned cards have the same text. *)
Lemma findQuizActivities_not_completed_no_duplicate (page : QuizHandler.Page) :
  Forall (fun c => QuizHandler.completedMarks c = 0%nat) (QuizHandler.findQuizActivities page)
  /\ NoDup (map QuizHandler.cardText (QuizHandler.findQuizActivities page)).
Proof.
  unfold QuizHandler.findQuizActivities.
  destruct (fold_selectors_invariant page QuizHandler.quizSelectors (∅, []))
    as (Hc & Hn & _).
  - repeat split; simpl; [constructor|constructor|]. intros c Hc. by apply elem_of_nil in Hc.
  - done.
Qed.

(** C2 (code defect): on a page whose only quiz card is not completed but
    locked, [findQuizActivities] returns that card: the lock indicator is
    never looked at. *)
Theorem findQuizActivities_returns_locked_card :
  QuizHandler.findQuizActivities lockedPage = [lockedCard]
  /\ QuizHandler.lockMarks lockedCard = 1%nat
  /\ QuizHandler.completedMarks lockedCard = 0%nat.
Proof. repeat split; vm_compute; reflexivity. Qed.

(** ** Discovery of activities and the explore query *)

Lemma isEmpty_true (s : jsstring) : ClickHandler.isEmpty s = true <-> s = [].
Proof. by destruct s. Qed.

Lemma normalizeExploreQuery_cases (text : jsstring) :
  ClickHandler.normalizeExploreQuery text
  = if ClickHandler.isEmpty (stripped text) then trim text else stripped text.
Proof.
  unfold ClickHandler.normalizeExploreQuery, stripped.
  destruct (ClickHandler.isEmpty (trim text)) eqn:E; [|done].
  apply isEmpty_true in E. rewrite E. reflexivity.
Qed.

Lemma normalizeExploreQuery_empty (text : jsstring) :
  ClickHandler.isEmpty (ClickHandler.normalizeExploreQuery text)
  = ClickHandler.isEmpty (trim text).
Proof.
  unfold ClickHandler.normalizeExploreQuery.
  destruct (ClickHandler.isEmpty (trim text)) eqn:E; [done|].
  destruct (ClickHandler.isEmpty (trim (ClickHandler.stripLead (trim text)))) eqn:E2; done.
Qed.

Lemma trim_nil_of_nil (s : jsstring) : ClickHandler.isEmpty s = true -> trim s = [].
Proof. intros H. apply isEmpty_true in H. by subst s. Qed.

Lemma getExploreQuery_field (activity : ClickHandler.ActivityInfo) :
  ClickHandler.getExploreQuery activity
  = ClickHandler.normalizeExploreQuery (queryField activity).
Proof.
  unfold ClickHandler.getExploreQuery, queryField.
  destruct (ClickHandler.description activity) as [d|]; [|done].
  destruct (ClickHandler.isEmpty d) eqn:Ed.
  - rewrite (trim_nil_of_nil d Ed). done.
  - rewrite normalizeExploreQuery_empty.
    by destruct (ClickHandler.isEmpty (trim d)).
Qed.

Ltac range_cases :=
  repeat (match goal with
          | |- context [(?a <=? ?b)%N] => destruct (N.leb_spec a b)
          | |- context [(?a =? ?b)%N] => destruct (N.eqb_spec a b)
          end; cbn [andb orb] in *; try lia);
  cbn [andb orb]; try reflexivity; try lia.

Lemma isWhiteSpace_not_letter (c : N) :
  (33 <= c <= 159)%N -> isWhiteSpace c = false.
Proof. intros H. unfold isWhiteSpace. range_cases. Qed.

Lemma isSeparator_not_letter (c : N) :
  (59 <= c <= 8210)%N -> isSeparator c = false.
Proof. intros H. unfold isSeparator. range_cases. Qed.

(** The regular expression treats a text and its image under a mapping of
    characters alike when the mapping respects Canonicalize, white space and
    the separators. *)
Section CharacterMapping.

Variable f : N -> N.
Hypothesis f_canonicalize :
  forall c, ClickHandler.canonicalize (f c) = ClickHandler.canonicalize c.
Hypothesis f_space : forall c, isWhiteSpace (f c) = isWhiteSpace c.
Hypothesis f_separator : forall c, isSeparator (f c) = isSeparator c.

Lemma trimStart_map (s : jsstring) : trimStart (map f s) = map f (trimStart s).
Proof.
  induction s as [|c r IH]; [done|]. simpl. rewrite f_space.
  by destruct (isWhiteSpace c).
Qed.

Lemma trim_map (s : jsstring) : trim (map f s) = map f (trim s).
Proof.
  unfold trim, trimEnd. by rewrite trimStart_map, <- map_rev, trimStart_map, map_rev.
Qed.

Lemma matchLiteral_map (literal s : jsstring) :
  ClickHandler.matchLiteral literal (map f s)
  = map f <$> ClickHandler.matchLiteral literal s.
Proof.
  revert s. induction literal as [|l literal IH]; intros s; [done|].
  destruct s as [|c s]; [done|]. simpl. rewrite f_canonicalize.
  destruct (ClickHandler.canonicalize l =? ClickHandler.canonicalize c)%N; [apply IH|done].
Qed.

Lemma matchSpaces1_map (s : jsstring) :
  ClickHandler.matchSpaces1 (map f s) = map f <$> ClickHandler.matchSpaces1 s.
Proof.
  destruct s as [|c s]; [done|]. simpl. rewrite f_space.
  destruct (isWhiteSpace c); [|done]. simpl. by rewrite trimStart_map.
Qed.

Lemma matchSeparatorOpt_map (s : jsstring) :
  ClickHandler.matchSeparatorOpt (map f s) = map f (ClickHandler.matchSeparatorOpt s).
Proof.
  destruct s as [|c s]; [done|]. simpl.
  fold (isSeparator (f c)). fold (isSeparator c). rewrite f_separator.
  by destruct (isSeparator c).
Qed.

Lemma matchLead_map (s : jsstring) :
  ClickHandler.matchLead (map f s) = map f <$> ClickHandler.matchLead s.
Proof.
  unfold ClickHandler.matchLead.
  rewrite matchLiteral_map.
  destruct (ClickHandler.matchLiteral (js "search") s) as [s1|]; [|done].
  cbn [mbind option_bind fmap option_fmap option_map]. rewrite matchSpaces1_map.
  destruct (ClickHandler.matchSpaces1 s1) as [s2|]; [|done].
  cbn [mbind option_bind fmap option_fmap option_map]. rewrite matchLiteral_map.
  destruct (ClickHandler.matchLiteral (js "on") s2) as [s3|]; [|done].
  cbn [mbind option_bind fmap option_fmap option_map]. rewrite matchSpaces1_map.
  destruct (ClickHandler.matchSpaces1 s3) as [s4|]; [|done].
  cbn [mbind option_bind fmap option_fmap option_map]. rewrite matchLiteral_map.
  destruct (ClickHandler.matchLiteral (js "bing") s4) as [s5|]; [|done].
  cbn [mbind option_bind fmap option_fmap option_map]. rewrite matchSpaces1_map.
  destruct (ClickHandler.matchSpaces1 s5) as [s6|]; [|done].
  cbn [mbind option_bind fmap option_fmap option_map]. rewrite !matchLiteral_map.
  destruct (ClickHandler.matchLiteral (js "to") s6) as [s7|].
  - cbn [mbind option_bind fmap option_fmap option_map].
    by rewrite trimStart_map, matchSeparatorOpt_map, trimStart_map.
  - destruct (ClickHandler.matchLiteral (js "for") s6) as [s7|]; [|done].
    cbn [mbind option_bind fmap option_fmap option_map].
    by rewrite trimStart_map, matchSeparatorOpt_map, trimStart_map.
Qed.

Lemma stripLead_map (s : jsstring) :
  ClickHandler.stripLead (map f s) = map f (ClickHandler.stripLead s).
Proof.
  unfold ClickHandler.stripLead. rewrite matchLead_map.
  by destruct (ClickHandler.matchLead s).
Qed.

Lemma isEmpty_map (s : jsstring) :
  ClickHandler.isEmpty (map f s) = ClickHandler.isEmpty s.
Proof. by destruct s. Qed.

Lemma normalizeExploreQuery_map (text : jsstring) :
  ClickHandler.normalizeExploreQuery (map f text)
  = map f (ClickHandler.normalizeExploreQuery text).
Proof.
  unfold ClickHandler.normalizeExploreQuery.
  rewrite !trim_map, isEmpty_map.
  destruct (ClickHandler.isEmpty (trim text)); [done|].
  rewrite stripLead_map, trim_map, isEmpty_map.
  by destruct (ClickHandler.isEmpty (trim (ClickHandler.stripLead (trim text)))).
Qed.

End CharacterMapping.

Lemma canonicalize_idem (c : N) :
  ClickHandler.canonicalize (ClickHandler.canonicalize c) = ClickHandler.canonicalize c.
Proof. unfold ClickHandler.canonicalize. range_cases. Qed.

Lemma canonicalize_space (c : N) : isWhiteSpace (ClickHandler.canonicalize c) = isWhiteSpace c.
Proof.
  unfold ClickHandler.canonicalize.
  destruct (N.leb_spec 97 c); [|done]. destruct (N.leb_spec c 122); [|done]. simpl.
  rewrite !isWhiteSpace_not_letter; [done|lia..].
Qed.

Lemma canonicalize_separator (c : N) : isSeparator (ClickHandler.canonicalize c) = isSeparator c.
Proof.
  unfold ClickHandler.canonicalize.
  destruct (N.leb_spec 97 c); [|done]. destruct (N.leb_spec c 122); [|done]. simpl.
  rewrite !isSeparator_not_letter; [done|lia..].
Qed.

Lemma asciiLower_canonicalize (c : N) :
  ClickHandler.canonicalize (asciiLower c) = ClickHandler.canonicalize c.
Proof. unfold ClickHandler.canonicalize, asciiLower. range_cases. Qed.

Lemma asciiLower_space (c : N) : isWhiteSpace (asciiLower c) = isWhiteSpace c.
Proof.
  unfold asciiLower.
  destruct (N.leb_spec 65 c); [|done]. destruct (N.leb_spec c 90); [|done]. simpl.
  rewrite !isWhiteSpace_not_letter; [done|lia..].
Qed.

Lemma asciiLower_separator (c : N) : isSeparator (asciiLower c) = isSeparator c.
Proof.
  unfold asciiLower.
  destruct (N.leb_spec 65 c); [|done]. destruct (N.leb_spec c 90); [|done]. simpl.
  rewrite !isSeparator_not_letter; [done|lia..].
Qed.

(** The phrase is stripped case-insensitively: the query of a text put in
    upper case, or in lower case, is the query of the text, put in that
    case. *)
Lemma normalizeExploreQuery_case_insensitive (text : jsstring) :
  ClickHandler.normalizeExploreQuery (map ClickHandler.canonicalize text)
  = map ClickHandler.canonicalize (ClickHandler.normalizeExploreQuery text)
  /\ ClickHandler.normalizeExploreQuery (map asciiLower text)
     = map asciiLower (ClickHandler.normalizeExploreQuery text).
Proof.
  split.
  - apply normalizeExploreQuery_map;
      [apply canonicalize_idem|apply canonicalize_space|apply canonicalize_separator].
  - apply normalizeExploreQuery_map;
      [apply asciiLower_canonicalize|apply asciiLower_space|apply asciiLower_separator].
Qed.

(** C3 (as amended): the query is taken from the description, or from the
    title when the description is absent or blank; the field is trimmed, a
    leading "search on Bing to/for" phrase is stripped case-insensitively
    and the rest is trimmed; when that leaves the empty string the query is
    the trimmed field, which is the field itself when it has no white space
    around it. *)
Theorem getExploreQuery_strips_or_keeps_trimmed (activity : ClickHandler.ActivityInfo) :
  let field := queryField activity in
  (stripped field <> [] -> ClickHandler.getExploreQuery activity = stripped field)
  /\ (stripped field = [] -> ClickHandler.getExploreQuery activity = trim field)
  /\ (stripped field = [] -> trim field = field ->
      ClickHandler.getExploreQuery activity = field)
  /\ stripped (map ClickHandler.canonicalize field)
     = map ClickHandler.canonicalize (stripped field)
  /\ stripped (map asciiLower field) = map asciiLower (stripped field).
Proof.
  intros field. subst field.
  rewrite getExploreQuery_field, normalizeExploreQuery_cases.
  assert (Hcase :
    stripped (map ClickHandler.canonicalize (queryField activity))
    = map ClickHandler.canonicalize (stripped (queryField activity))
    /\ stripped (map asciiLower (queryField activity))
       = map asciiLower (stripped (queryField activity))).
  { unfold stripped. split.
    - rewrite (trim_map _ canonicalize_space), (stripLead_map _ canonicalize_idem
                canonicalize_space canonicalize_separator).
      apply (trim_map _ canonicalize_space).
    - rewrite (trim_map _ asciiLower_space), (stripLead_map _ asciiLower_canonicalize
                asciiLower_space asciiLower_separator).
      apply (trim_map _ asciiLower_space). }
  destruct (ClickHandler.isEmpty (stripped (queryField activity))) eqn:E.
  - apply isEmpty_true in E. split; [|split; [|split]].
    + intros Hne. by destruct Hne.
    + done.
    + by intros _ ->.
    + exact Hcase.
  - split; [done|]. split; [|split; [|exact Hcase]];
      intros E2; rewrite E2 in E; discriminate.
Qed.

Lemma getExploreQuery_strips_or_keeps_trimmed_witness :
  stripped (js "Search on Bing for best pizza") <> []
  /\ ClickHandler.getExploreQuery
       (ClickHandler.mkActivityInfo 0 (js "Explore") (js "placeholder") false 0
          ClickHandler.explore (Some (js "Search on Bing for best pizza")))
     = js "best pizza"
  /\ stripped (js "  Search on Bing for  ") = []
  /\ ClickHandler.getExploreQuery phraseOnly = js "Search on Bing for"
  /\ ClickHandler.getExploreQuery
       (ClickHandler.mkActivityInfo 0 (js "search on bing to:") (js "placeholder") false 0
          ClickHandler.explore None)
     = js "search on bing to:".
Proof.
  split; [discriminate|].
  split.
  { apply (proj1 (getExploreQuery_strips_or_keeps_trimmed
                    (ClickHandler.mkActivityInfo 0 (js "Explore") (js "placeholder") false 0
                       ClickHandler.explore (Some (js "Search on Bing for best pizza"))))).
    discriminate. }
  split; [reflexivity|].
  split.
  { apply (proj1 (proj2 (getExploreQuery_strips_or_keeps_trimmed phraseOnly))).
    reflexivity. }
  apply (proj1 (proj2 (proj2 (getExploreQuery_strips_or_keeps_trimmed
                         (ClickHandler.mkActivityInfo 0 (js "search on bing to:")
                            (js "placeholder") false 0 ClickHandler.explore None)))));
    reflexivity.
Defined.

(** C3 as stated fails: stripping the description of [phraseOnly] leaves the
    empty string, and the query is the trimmed description, not the
    description as it is. *)
Lemma getExploreQuery_not_untrimmed :
  ClickHandler.description phraseOnly = Some (js "  Search on Bing for  ")
  /\ stripped (js "  Search on Bing for  ") = []
  /\ ClickHandler.getExploreQuery phraseOnly <> js "  Search on Bing for  ".
Proof.
  split; [reflexivity|]. split; [vm_compute; reflexivity|]. discriminate.
Qed.

(** Discovery stores a blank description as the empty string, and the query
    is then taken from the title. *)
Example getExploreQuery_blank_description :
  exists info,
    ClickHandler.findClickableActivities (ClickHandler.mkPage [] [] [blankCard]) = [info]
    /\ ClickHandler.description info = Some []
    /\ ClickHandler.getExploreQuery info = js "cats".
Proof. eexists. split; [vm_compute; reflexivity|]. split; reflexivity. Qed.

(** The phrase is matched whatever the case of its letters, with any white
    space between its words and an optional separator after it. *)
Example normalizeExploreQuery_examples :
  ClickHandler.normalizeExploreQuery (js "Search on Bing for best pizza") = js "best pizza"
  /\ ClickHandler.normalizeExploreQuery (js "Search on Bing to learn about whales")
     = js "learn about whales"
  /\ ClickHandler.normalizeExploreQuery (js "SEARCH   ON bInG  FOR : tide times ")
     = js "tide times"
  /\ ClickHandler.normalizeExploreQuery (js "search on bing to " ++ [8211%N] ++ js " maps")
     = js "maps"
  /\ ClickHandler.normalizeExploreQuery (js "Find a recipe") = js "Find a recipe".
Proof. repeat split. Qed.

Lemma processCard_index_irrelevant (card : ClickHandler.Card)
    (type0 : ClickHandler.ActivityType) (n : nat) :
  is_Some (ClickHandler.processCard card type0 n) <-> accepted type0 card = true.
Proof.
  unfold accepted. rewrite bool_decide_eq_true.
  unfold ClickHandler.processCard.
  destruct (negb (ClickHandler.isVisible card)); [done|].
  destruct (0 <? ClickHandler.completeMarks card)%nat; [done|].
  destruct type0.
  - destruct (negb (0 <? ClickHandler.pointsMarks card)%nat); [done|].
    destruct (0 <? ClickHandler.quizMarks card)%nat; [done|].
    destruct (ClickHandler.titleText card); [|done].
    destruct (ClickHandler.linkCount card =? 0)%nat; [done|].
    split; intros _; by eexists.
  - destruct (ClickHandler.titleText card); [|done].
    destruct (ClickHandler.linkCount card =? 0)%nat; [done|].
    split; intros _; by eexists.
Qed.

Lemma processCard_fields (card : ClickHandler.Card) (type0 : ClickHandler.ActivityType)
    (n : nat) (info : ClickHandler.ActivityInfo) :
  ClickHandler.processCard card type0 n = Some info ->
  ClickHandler.index info = n
  /\ ClickHandler.locator info = ClickHandler.link card
  /\ ClickHandler.type info = type0
  /\ ClickHandler.isCompleted info = false.
Proof.
  unfold ClickHandler.processCard.
  destruct (negb (ClickHandler.isVisible card)); [done|].
  destruct (0 <? ClickHandler.completeMarks card)%nat; [done|].
  destruct type0.
  - destruct (negb (0 <? ClickHandler.pointsMarks card)%nat); [done|].
    destruct (0 <? ClickHandler.quizMarks card)%nat; [done|].
    destruct (ClickHandler.titleText card); [|done].
    destruct (ClickHandler.linkCount card =? 0)%nat; [done|].
    by intros [= <-].
  - destruct (ClickHandler.titleText card); [|done].
    destruct (ClickHandler.linkCount card =? 0)%nat; [done|].
    by intros [= <-].
Qed.

Lemma collect_fold (type0 : ClickHandler.ActivityType) (cards : list ClickHandler.Card)
    (activities : list ClickHandler.ActivityInfo) :
  numbered activities ->
  let result := fold_left (ClickHandler.collect type0) cards activities in
  numbered result
  /\ map ClickHandler.locator result
     = map ClickHandler.locator activities
       ++ map ClickHandler.link (List.filter (accepted type0) cards).
Proof.
  revert activities. induction cards as [|c r IH]; intros activities Hn; simpl.
  - split; [done|]. by rewrite app_nil_r.
  - unfold ClickHandler.collect at 2 4.
    pose proof (processCard_index_irrelevant c type0 (length activities)) as Hacc.
    destruct (ClickHandler.processCard c type0 (length activities)) as [info|] eqn:Hp.
    + assert (Ha : accepted type0 c = true) by (apply Hacc; by eexists).
      rewrite Ha.
      destruct (processCard_fields _ _ _ _ Hp) as (Hi & Hl & _).
      destruct (IH (activities ++ [info])) as [Hn' Hm].
      { intros i info' Hlk. apply lookup_app_Some in Hlk as [Hlk|[Hge Hlk]].
        - by apply Hn.
        - apply list_lookup_singleton_Some in Hlk as [Hz <-]. lia. }
      split; [exact Hn'|]. rewrite Hm, map_app. simpl. rewrite Hl.
      by rewrite <- app_assoc.
    + assert (Ha : accepted type0 c = false).
      { apply not_true_is_false. intros E. apply Hacc in E.
        destruct E as [info E]. discriminate. }
      rewrite Ha. by apply IH.
Qed.

(** C5 (as amended): [findClickableActivities] does not compare titles.  It
    returns one entry for every card that passes the filters of
    [processCard], the cards of the more-activities section first and those
    of the explore section after them, in page order, and numbers the
    entries by position. *)
Theorem findClickableActivities_keeps_every_accepted_card (page : ClickHandler.Page) :
  map ClickHandler.locator (ClickHandler.findClickableActivities page)
  = map ClickHandler.link
      (List.filter (accepted ClickHandler.standard) (moreActivities page)
       ++ List.filter (accepted ClickHandler.explore) (ClickHandler.exploreSection page))
  /\ numbered (ClickHandler.findClickableActivities page).
Proof.
  unfold ClickHandler.findClickableActivities. fold (moreActivities page).
  destruct (collect_fold ClickHandler.standard (moreActivities page) []) as [Hn1 Hm1].
  { intros i info Hlk. done. }
  destruct (collect_fold ClickHandler.explore (ClickHandler.exploreSection page)
              (fold_left (ClickHandler.collect ClickHandler.standard) (moreActivities page) [])
              Hn1) as [Hn2 Hm2].
  split; [|exact Hn2].
  rewrite Hm2, Hm1, map_app. reflexivity.
Qed.

(** C5 as stated fails: two cards of the explore section with the title
    "Daily offer" are both returned. *)
Lemma findClickableActivities_equal_titles :
  map ClickHandler.title (ClickHandler.findClickableActivities twinPage)
  = [js "Daily offer"; js "Daily offer"]
  /\ ~ NoDup (map ClickHandler.title (ClickHandler.findClickableActivities twinPage)).
Proof.
  split; [vm_compute; reflexivity|].
  assert (E : map ClickHandler.title (ClickHandler.findClickableActivities twinPage)
              = [js "Daily offer"; js "Daily offer"]) by (vm_compute; reflexivity).
  rewrite E. intros H. apply NoDup_cons in H as [H _].
  apply H. apply list_elem_of_here.
Qed.

(** * Further properties of the code *)

(** ** The answer cache: confidence and statistics *)

Lemma getConfidence_one (q : jsstring) (cache : gmap jsstring QACache.QARecord) :
  QACache.getConfidence q cache = 1%Q
  <-> exists r, cache !! QACache.hashQuestion q = Some r /\ QACache.correct r = true.
Proof.
  unfold QACache.getConfidence, QACache.lookup.
  destruct (cache !! QACache.hashQuestion q) as [r|]; [|split; [discriminate|by intros [r [? _]]]].
  destruct (QACache.correct r) eqn:Hc.
  - split; [by exists r|done].
  - split; [discriminate|]. intros [r' [[= <-] Hc']]. congruence.
Qed.

(** X1: a question whose confidence is 1 keeps it under every later write,
    correct or not, for the same or for another question. *)
Theorem getConfidence_one_is_kept (cache : gmap jsstring QACache.QARecord)
    (q q2 : jsstring) (a : Z) (c : bool) (ev : option (list jsstring)) :
  QACache.getConfidence q cache = 1%Q ->
  QACache.getConfidence q (QACache.store q2 a c ev cache) = 1%Q.
Proof.
  rewrite !getConfidence_one. intros [r [Hr Hc]].
  destruct c.
  - destruct (decide (QACache.hashQuestion q2 = QACache.hashQuestion q)) as [He|Hne].
    + eexists. rewrite <- He, store_correct_lookup. done.
    + exists r. split; [|done]. unfold QACache.store. rewrite andb_false_r.
      by rewrite lookup_insert_ne.
  - exists r. split; [|done]. by apply store_incorrect_keeps_correct.
Qed.

Lemma getConfidence_one_is_kept_witness :
  QACache.getConfidence (js "Test question")
    (QACache.store (js "test QUESTION?") 3 false None
       (QACache.store (js "Test question") 1 true None ∅)) = 1%Q.
Proof.
  apply (getConfidence_one_is_kept
           (QACache.store (js "Test question") 1 true None ∅)
           (js "Test question") (js "test QUESTION?") 3 false None).
  reflexivity.
Defined.

(** X2: the confidence of a question is 0 exactly when the cache has no
    record for it; right after a write for the question it is 1 when the
    write was correct or the confidence was 1 before, and 0.3 otherwise, so
    never 0. *)
Theorem getConfidence_after_store (cache : gmap jsstring QACache.QARecord)
    (q : jsstring) (a : Z) (c : bool) (ev : option (list jsstring)) :
  let after := QACache.getConfidence q (QACache.store q a c ev cache) in
  (QACache.getConfidence q cache = 0%Q <-> QACache.lookup q cache = None)
  /\ (c = true \/ QACache.getConfidence q cache = 1%Q -> after = 1%Q)
  /\ (c = false -> QACache.getConfidence q cache <> 1%Q -> after = (3 # 10)%Q).
Proof.
  simpl. split; [|split].
  - unfold QACache.getConfidence. destruct (QACache.lookup q cache) as [r|]; [|done].
    destruct (QACache.correct r); split; discriminate.
  - intros [->|H1].
    + apply getConfidence_one. eexists. by rewrite store_correct_lookup.
    + apply getConfidence_one in H1 as [r [Hr Hc]]. apply getConfidence_one.
      destruct c.
      * eexists. by rewrite store_correct_lookup.
      * exists r. split; [|done]. by apply store_incorrect_keeps_correct.
  - intros -> H1.
    unfold QACache.getConfidence, QACache.lookup, QACache.store in *.
    destruct (cache !! QACache.hashQuestion q) as [r|] eqn:Hr; simpl.
    + destruct (QACache.correct r) eqn:Hc; [done|]. simpl.
      by rewrite lookup_insert_eq.
    + by rewrite lookup_insert_eq.
Qed.

Lemma getConfidence_after_store_witness :
  QACache.getConfidence (js "Q1") (QACache.store (js "Q1") 2 true None ∅) = 1%Q
  /\ QACache.getConfidence (js "Q1") (QACache.store (js "Q1") 2 false None ∅) = (3 # 10)%Q
  /\ QACache.getConfidence (js "Q2") (QACache.store (js "Q1") 2 false None ∅) = 0%Q.
Proof.
  split; [|split].
  - apply (proj1 (proj2 (getConfidence_after_store ∅ (js "Q1") 2 true None))).
    left. reflexivity.
  - apply (proj2 (proj2 (getConfidence_after_store ∅ (js "Q1") 2 false None)));
      [reflexivity|discriminate].
  - apply (proj1 (getConfidence_after_store
                    (QACache.store (js "Q1") 2 false None ∅) (js "Q2") 0 true None)).
    reflexivity.
Defined.

Lemma filter_length_Permutation {A : Type} (f : A -> bool) (l l' : list A) :
  l ≡ₚ l' -> length (List.filter f l) = length (List.filter f l').
Proof.
  induction 1 as [|x l l' _ IH|x y l|l l' l'' _ IH1 _ IH2]; simpl; [done| | |congruence].
  - destruct (f x); simpl; congruence.
  - destruct (f x), (f y); reflexivity.
Qed.

Lemma records_insert (cache : gmap jsstring QACache.QARecord) (k : jsstring)
    (r : QACache.QARecord) :
  QACacheStats.records (<[k := r]> cache) ≡ₚ r :: QACacheStats.records (delete k cache).
Proof.
  unfold QACacheStats.records. rewrite <- insert_delete_eq.
  rewrite map_to_list_insert by apply lookup_delete_eq. done.
Qed.

Lemma records_lookup (cache : gmap jsstring QACache.QARecord) (k : jsstring)
    (r : QACache.QARecord) :
  cache !! k = Some r ->
  QACacheStats.records cache ≡ₚ r :: QACacheStats.records (delete k cache).
Proof.
  intros H. unfold QACacheStats.records.
  by rewrite <- (map_to_list_delete cache k r H).
Qed.

Lemma filter_length_split {A : Type} (f : A -> bool) (l : list A) :
  length l = (length (List.filter f l) + length (List.filter (fun x => negb (f x)) l))%nat.
Proof.
  induction l as [|x l IH]; [done|]. simpl. destruct (f x); simpl; lia.
Qed.

(** X3: in the statistics of the cache, every record is counted once as
    correct or as incorrect; a write adds one to the total when the question
    had no record and leaves it otherwise, and never lowers the number of
    correct records. *)
Theorem getStats_after_store (cache : gmap jsstring QACache.QARecord)
    (q : jsstring) (a : Z) (c : bool) (ev : option (list jsstring)) :
  let before := QACacheStats.getStats cache in
  let after := QACacheStats.getStats (QACache.store q a c ev cache) in
  QACacheStats.total before
  = (QACacheStats.correct before + QACacheStats.incorrect before)%nat
  /\ QACacheStats.total after
     = (QACacheStats.total before
        + match QACache.lookup q cache with Some _ => 0 | None => 1 end)%nat
  /\ (QACacheStats.correct before <= QACacheStats.correct after)%nat
  /\ QACacheStats.total before = size cache.
Proof.
  simpl. split; [apply filter_length_split|].
  assert (Hsize : forall m, length (QACacheStats.records m) = size m).
  { intros m. unfold QACacheStats.records. by rewrite length_fmap, length_map_to_list. }
  split; [|split; [|apply Hsize]].
  - rewrite !Hsize. unfold QACache.store, QACache.lookup.
    destruct (cache !! QACache.hashQuestion q) as [r|] eqn:Hr; simpl.
    + destruct (QACache.correct r && negb c); [lia|].
      rewrite map_size_insert_Some; [lia|by eexists].
    + rewrite map_size_insert_None; [lia|done].
  - unfold QACache.store.
    destruct (cache !! QACache.hashQuestion q) as [r|] eqn:Hr; simpl.
    + destruct (QACache.correct r && negb c) eqn:Hg; [done|].
      rewrite (filter_length_Permutation _ _ _ (records_insert cache _ _)).
      rewrite (filter_length_Permutation _ _ _ (records_lookup cache _ r Hr)).
      simpl. destruct c; simpl.
      * destruct (QACache.correct r); simpl; lia.
      * rewrite andb_true_r in Hg. rewrite Hg. done.
    + rewrite (filter_length_Permutation _ _ _ (records_insert cache _ _)).
      rewrite (delete_id cache _ Hr). simpl. destruct c; simpl; lia.
Qed.

(** ** The metrics store: the run log *)


Lemma sliceLast_snoc {A : Type} (n : nat) (l : list A) (x : A) :
  MetricsStore.sliceLast n l ++ [x] = MetricsStore.sliceLast (S n) (l ++ [x]).
Proof.
  unfold MetricsStore.sliceLast. rewrite length_app. simpl.
  replace (length l + 1 - S n)%nat with (length l - n)%nat by lia.
  rewrite drop_app_le by lia. done.
Qed.

Lemma sliceLast_sliceLast_app {A : Type} (n : nat) (l k : list A) :
  MetricsStore.sliceLast n (MetricsStore.sliceLast n l ++ k)
  = MetricsStore.sliceLast n (l ++ k).
Proof.
  unfold MetricsStore.sliceLast.
  rewrite !length_app, length_drop, !drop_app, drop_drop, length_drop.
  f_equal; f_equal; lia.
Qed.

Lemma sliceLast_last {A : Type} (n : nat) (l : list A) :
  last (MetricsStore.sliceLast (S n) l) = last l.
Proof.
  unfold MetricsStore.sliceLast.
  rewrite !last_lookup, lookup_drop, length_drop.
  destruct l as [|x l]; [done|]. simpl length. f_equal. lia.
Qed.

Lemma recordRun_runs (r : MetricsStore.RunMetric) (data : MetricsStore.MetricsData) :
  MetricsStore.runs
    (MetricsStore.recordRun (MetricsStore.timestamp r) (MetricsStore.handler r)
       (MetricsStore.status r) (MetricsStore.durationMs r) (MetricsStore.attempts r)
       (MetricsStore.meta r) data)
  = MetricsStore.sliceLast 1000 (MetricsStore.runs data ++ [r]).
Proof.
  unfold MetricsStore.recordRun. simpl. rewrite sliceLast_snoc. by destruct r.
Qed.

Lemma recordRunAll_runs (calls : list MetricsStore.RunMetric)
    (data : MetricsStore.MetricsData) :
  MetricsStore.runs (MetricsQueries.recordRunAll calls data)
  = (if decide (calls = []) then MetricsStore.runs data
     else MetricsStore.sliceLast 1000 (MetricsStore.runs data ++ calls))
  /\ MetricsStore.dailyPoints (MetricsQueries.recordRunAll calls data)
     = MetricsStore.dailyPoints data.
Proof.
  revert data. induction calls as [|r calls IH]; intros data; [done|].
  unfold MetricsQueries.recordRunAll in *. simpl fold_left.
  destruct (IH (MetricsStore.recordRun (MetricsStore.timestamp r) (MetricsStore.handler r)
                  (MetricsStore.status r) (MetricsStore.durationMs r)
                  (MetricsStore.attempts r) (MetricsStore.meta r) data)) as [H1 H2].
  split; [|by rewrite H2].
  rewrite H1, recordRun_runs. rewrite (decide_False (P := r :: calls = [])) by done.
  case_decide as Hc; [by subst calls|].
  rewrite sliceLast_sliceLast_app, <- app_assoc. done.
Qed.

(** X4: after one or more runs are recorded, the log holds the last 1000
    entries of the old log followed by the new runs, in order: the newest
    run is always kept, the oldest entries are evicted first, and the log
    never holds more than 1000 entries; the daily points are untouched. *)
Theorem recordRunAll_keeps_last_1000 (r : MetricsStore.RunMetric)
    (calls : list MetricsStore.RunMetric) (data : MetricsStore.MetricsData) :
  let after := MetricsQueries.recordRunAll (r :: calls) data in
  MetricsStore.runs after
  = MetricsStore.sliceLast 1000 (MetricsStore.runs data ++ r :: calls)
  /\ length (MetricsStore.runs after)
     = Nat.min 1000 (length (MetricsStore.runs data) + S (length calls))
  /\ last (MetricsStore.runs after) = last (r :: calls)
  /\ MetricsStore.dailyPoints after = MetricsStore.dailyPoints data.
Proof.
  cbv zeta. destruct (recordRunAll_runs (r :: calls) data) as [H1 H2].
  rewrite decide_False in H1 by done. rewrite H1.
  split; [done|]. split; [|split; [|done]].
  - rewrite sliceLast_length, length_app. reflexivity.
  - by rewrite sliceLast_last, last_app_cons.
Qed.

(** ** The metrics store: success rate and average duration *)

Lemma filter_length_le {A : Type} (f : A -> bool) (l : list A) :
  (length (List.filter f l) <= length l)%nat.
Proof. induction l as [|x l IH]; [done|]. simpl. destruct (f x); simpl; lia. Qed.

Lemma filter_length_all {A : Type} (f : A -> bool) (l : list A) :
  length (List.filter f l) = length l <-> Forall (fun x => f x = true) l.
Proof.
  induction l as [|x l IH]; [by split; [constructor|]|]. simpl.
  pose proof (filter_length_le f l).
  destruct (f x) eqn:Hx; simpl.
  - rewrite Forall_cons. split.
    + intros [= H']. split; [done|]. by apply IH.
    + intros [_ H']. f_equal. by apply IH.
  - split; [lia|]. intros H'. apply Forall_cons in H' as [H' _]. congruence.
Qed.

Lemma filter_length_none {A : Type} (f : A -> bool) (l : list A) :
  length (List.filter f l) = 0%nat <-> Forall (fun x => f x = false) l.
Proof.
  induction l as [|x l IH]; [by split; [constructor|]|]. simpl.
  destruct (f x) eqn:Hx; simpl.
  - split; [lia|]. intros H'. apply Forall_cons in H' as [H' _]. congruence.
  - rewrite Forall_cons. split; [intros H'; split; [done|by apply IH]|].
    intros [_ H']. by apply IH.
Qed.

Lemma ratio_facts (n m : nat) :
  (n <= m)%nat -> (0 < m)%nat ->
  let q := (inject_Z (Z.of_nat n) / inject_Z (Z.of_nat m))%Q in
  (0 <= q)%Q /\ (q <= 1)%Q /\ ((q == 1)%Q <-> n = m) /\ ((q == 0)%Q <-> n = 0%nat).
Proof.
  intros Hn Hm. simpl.
  destruct m as [|m]; [lia|].
  unfold Qdiv, Qmult, Qinv, Qle, Qeq, inject_Z.
  rewrite Nat2Z.inj_succ. unfold Z.succ.
  destruct (Z.of_nat m + 1)%Z as [|p|p] eqn:Hp; [lia| |lia].
  cbn [Qnum Qden]. rewrite ?Pos.mul_1_l.
  repeat split; try lia.
Qed.

Lemma rate_nonempty (rs : list MetricsStore.RunMetric) :
  rs <> [] ->
  MetricsQueries.rate rs
  = (inject_Z (Z.of_nat (length (List.filter
                                   (fun r => MetricsQueries.isOk (MetricsStore.status r)) rs)))
     / inject_Z (Z.of_nat (length rs)))%Q.
Proof. by destruct rs. Qed.

Lemma rate_facts (rs : list MetricsStore.RunMetric) :
  (0 <= MetricsQueries.rate rs)%Q
  /\ (MetricsQueries.rate rs <= 1)%Q
  /\ ((MetricsQueries.rate rs == 1)%Q
      <-> rs <> [] /\ Forall (fun r => MetricsStore.status r = MetricsStore.ok) rs)
  /\ ((MetricsQueries.rate rs == 0)%Q
      <-> Forall (fun r => MetricsStore.status r <> MetricsStore.ok) rs).
Proof.
  destruct (decide (rs = [])) as [->|Hne].
  - repeat split; try done; try (by intros [? _]); constructor.
  - rewrite (rate_nonempty rs Hne).
    destruct (ratio_facts
                (length (List.filter (fun r => MetricsQueries.isOk (MetricsStore.status r)) rs))
                (length rs)) as (H0 & H1 & H2 & H3).
    { apply filter_length_le. }
    { destruct rs; [done|simpl; lia]. }
    split; [exact H0|]. split; [exact H1|]. split.
    + rewrite H2, filter_length_all. split.
      * intros H. split; [done|]. eapply Forall_impl; [exact H|].
        intros x Hx. simpl in Hx. by destruct (MetricsStore.status x).
      * intros [_ H]. eapply Forall_impl; [exact H|]. intros x Hx. simpl. by rewrite Hx.
    + rewrite H3, filter_length_none. split; intros H;
        (eapply Forall_impl; [exact H|]); intros x Hx; simpl in *.
      * intros E. by rewrite E in Hx.
      * by destruct (MetricsStore.status x).
Qed.

(** X5: the success rate of a handler lies between 0 and 1; it is 1 exactly
    when the handler has at least one recorded run and all of them ended
    [ok], and 0 exactly when none of its runs ended [ok], in particular when
    it has no run at all (no division by zero). *)
Theorem getSuccessRate_bounds (handler0 : jsstring) (data : MetricsStore.MetricsData) :
  let rate := MetricsQueries.getSuccessRate handler0 data in
  let runs := MetricsQueries.runsOf handler0 data in
  (0 <= rate)%Q /\ (rate <= 1)%Q
  /\ ((rate == 1)%Q
      <-> runs <> [] /\ Forall (fun r => MetricsStore.status r = MetricsStore.ok) runs)
  /\ ((rate == 0)%Q
      <-> Forall (fun r => MetricsStore.status r <> MetricsStore.ok) runs).
Proof. apply rate_facts. Qed.

Lemma totalDuration_bounds (lo hi : Z) (rs : list MetricsStore.RunMetric) (acc : Z) :
  Forall (fun r => (lo <= MetricsStore.durationMs r <= hi)%Z) rs ->
  (acc + lo * Z.of_nat (length rs)
   <= fold_left (fun sum r => sum + MetricsStore.durationMs r) rs acc
   <= acc + hi * Z.of_nat (length rs))%Z.
Proof.
  revert acc. induction rs as [|r rs IH]; intros acc H; [simpl; lia|].
  apply Forall_cons in H as [Hr H]. simpl fold_left.
  specialize (IH (acc + MetricsStore.durationMs r)%Z H).
  rewrite length_cons, Nat2Z.inj_succ. lia.
Qed.

Lemma average_bounds (lo hi : Z) (rs : list MetricsStore.RunMetric) :
  rs <> [] ->
  Forall (fun r => (lo <= MetricsStore.durationMs r <= hi)%Z) rs ->
  (inject_Z lo <= MetricsQueries.average rs)%Q
  /\ (MetricsQueries.average rs <= inject_Z hi)%Q.
Proof.
  intros Hne H. unfold MetricsQueries.average, MetricsQueries.totalDuration.
  pose proof (totalDuration_bounds lo hi rs 0 H) as Hb.
  destruct rs as [|r rs]; [done|]. set (l := r :: rs) in *.
  assert (Hl : (0 < Z.of_nat (length l))%Z) by (simpl; lia).
  replace (length l =? 0)%nat with false by (symmetry; apply Nat.eqb_neq; simpl; lia).
  revert Hb Hl. generalize (Z.of_nat (length l)) as m.
  generalize (fold_left (fun sum r => (sum + MetricsStore.durationMs r)%Z) l 0%Z) as t.
  intros t m Hb Hm.
  unfold Qdiv, Qmult, Qinv, Qle, inject_Z.
  destruct m as [|p|p]; [lia| |lia].
  cbn [Qnum Qden]. rewrite ?Pos.mul_1_l. lia.
Qed.

(** X6: the average duration of a handler is 0 when it has no recorded run;
    otherwise it lies between any two bounds that hold for the durations of
    all its runs. *)
Theorem getAverageDuration_bounds (handler0 : jsstring) (data : MetricsStore.MetricsData)
    (lo hi : Z) :
  let runs := MetricsQueries.runsOf handler0 data in
  (runs = [] -> MetricsQueries.getAverageDuration handler0 data = 0%Q)
  /\ (runs <> [] ->
      Forall (fun r => (lo <= MetricsStore.durationMs r <= hi)%Z) runs ->
      (inject_Z lo <= MetricsQueries.getAverageDuration handler0 data)%Q
      /\ (MetricsQueries.getAverageDuration handler0 data <= inject_Z hi)%Q).
Proof.
  cbv zeta. unfold MetricsQueries.getAverageDuration. split.
  - by intros ->.
  - apply average_bounds.
Qed.

Lemma getSuccessRate_bounds_witness :
  (MetricsQueries.getSuccessRate (js "Other") threeRuns == 0)%Q
  /\ (MetricsQueries.getSuccessRate (js "TestHandler") threeRuns <= 1)%Q.
Proof.
  split.
  - apply (proj2 (proj2 (proj2 (getSuccessRate_bounds (js "Other") threeRuns)))).
    constructor.
  - apply (proj1 (proj2 (getSuccessRate_bounds (js "TestHandler") threeRuns))).
Defined.

Lemma getAverageDuration_bounds_witness :
  (inject_Z 100 <= MetricsQueries.getAverageDuration (js "TestHandler") threeRuns)%Q
  /\ (MetricsQueries.getAverageDuration (js "TestHandler") threeRuns <= inject_Z 300)%Q.
Proof.
  apply (proj2 (getAverageDuration_bounds (js "TestHandler") threeRuns 100 300)).
  - discriminate.
  - vm_compute. repeat constructor; discriminate.
Defined.

(** ** The metrics store: daily points *)







Lemma sliceLast_NoDup {A : Type} (n : nat) (l : list A) :
  NoDup l -> NoDup (MetricsStore.sliceLast n l).
Proof.
  intros H. destruct (sliceLast_suffix n l) as [ev [Hl _]].
  rewrite Hl in H. by apply NoDup_app in H as (_ & _ & H).
Qed.

Lemma recordPoints_unique_step (today : jsstring) (p : Z) (s : MetricsStore.Source)
    (data : MetricsStore.MetricsData) :
  NoDup (map entryKey (MetricsStore.dailyPoints data)) ->
  NoDup (map entryKey (MetricsStore.dailyPoints (MetricsStore.recordPoints today p s data))).
Proof.
  intros Hn.
  destruct (MetricsStore.findIndex (matches today s) (MetricsStore.dailyPoints data))
    as [i|] eqn:Hi.
  - destruct (recordPoints_accumulates today p s data i Hi) as (e & He & Hd & Hs & Hr & _).
    rewrite Hr. change (map entryKey ?l) with (entryKey <$> l).
    rewrite list_fmap_insert. rewrite list_insert_id; [done|].
    rewrite list_lookup_fmap, He. simpl. unfold entryKey. simpl. by rewrite Hd, Hs.
  - rewrite (recordPoints_appends today p s data Hi).
    destruct (sliceLast_suffix 365 (MetricsStore.dailyPoints data)) as [ev [Hl _]].
    rewrite map_app. apply NoDup_app. split; [|split].
    + rewrite Hl, map_app in Hn. by apply NoDup_app in Hn as (_ & _ & Hn).
    + intros k Hk Hk'. simpl in Hk'. apply list_elem_of_singleton in Hk'. subst k.
      apply list_elem_of_fmap in Hk as [d [Hd Hin]].
      apply findIndex_None in Hi. rewrite Forall_forall in Hi.
      assert (Hin' : d ∈ MetricsStore.dailyPoints data).
      { rewrite Hl. apply elem_of_app. by right. }
      specialize (Hi d Hin'). unfold matches in Hi.
      unfold entryKey in Hd. simpl in Hd. injection Hd as Hd1 Hd2.
      rewrite bool_decide_eq_true_2 in Hi by done.
      rewrite bool_decide_eq_true_2 in Hi by done. discriminate.
    + simpl. apply NoDup_singleton.
Qed.

(** X8: [recordPoints] keeps the entries of the daily points unique by date
    and source: if no two entries have the same date and source before a
    sequence of calls, none have after it; so a store that starts empty
    never holds two entries for one date and source. *)
Theorem recordPoints_keeps_entries_unique (calls : list (jsstring * Z * MetricsStore.Source))
    (data : MetricsStore.MetricsData) :
  NoDup (map entryKey (MetricsStore.dailyPoints data)) ->
  NoDup (map entryKey (MetricsStore.dailyPoints (MetricsStore.recordPointsAll calls data))).
Proof.
  revert data. induction calls as [|[[today p] s] calls IH]; intros data Hn; [done|].
  unfold MetricsStore.recordPointsAll in *. simpl. apply IH.
  by apply recordPoints_unique_step.
Qed.

Lemma recordPoints_keeps_entries_unique_witness :
  NoDup (map entryKey
           (MetricsStore.dailyPoints
              (MetricsStore.recordPointsAll
                 [(js "2025-01-01", 10%Z, MetricsStore.click);
                  (js "2025-01-01", 15%Z, MetricsStore.click);
                  (js "2025-01-02", 5%Z, MetricsStore.click)] emptyMetrics))).
Proof.
  apply (recordPoints_keeps_entries_unique _ emptyMetrics). simpl. constructor.
Defined.

(** ** The metrics store: the summary *)








(** ** Pauses and typing *)

#[local] Open Scope Q_scope.

Lemma delayMs_bounds (min max : Z) (r : Q) :
  0 <= r -> r < 1 -> (min <= max)%Z -> (min <= delayMs min max r <= max)%Z.
Proof.
  intros H0 H1 Hm. unfold delayMs.
  set (n := (max - min + 1)%Z). assert (Hn : (1 <= n)%Z) by (subst n; lia).
  assert (Hq : 0 < inject_Z n) by (change 0 with (inject_Z 0); rewrite <- Zlt_Qlt; lia).
  assert (Hlo : (0 <= Qfloor (r * inject_Z n))%Z).
  { change 0%Z with (Qfloor 0). apply Qfloor_resp_le.
    apply Qmult_le_0_compat; [exact H0|]. by apply Qlt_le_weak. }
  assert (Hhi : (Qfloor (r * inject_Z n) < n)%Z).
  { rewrite Zlt_Qlt. eapply Qle_lt_trans; [apply Qfloor_le|].
    apply Qlt_le_trans with (1 * inject_Z n); [by apply Qmult_lt_compat_r|].
    rewrite Qmult_1_l. apply Qle_refl. }
  subst n. lia.
Qed.

Lemma randomDelay_eq (min max : Z) (g : Humanizer.Rng) :
  Humanizer.randomDelay min max g
  = (Humanizer.Returned tt,
     [Humanizer.Sleep (inject_Z (delayMs min max (Humanizer.draws g (Humanizer.cursor g))))],
     Humanizer.mkRng (Humanizer.draws g) (S (Humanizer.cursor g))).
Proof. reflexivity. Qed.

(** X10: for draws in [[0, 1)] and [min <= max], [randomDelay] never throws,
    consumes one draw and pauses once, for a whole number of milliseconds
    between [min] and [max], both included. *)
Theorem randomDelay_within_bounds (min max : Z) (g : Humanizer.Rng) :
  unitDraws g -> (min <= max)%Z ->
  exists d : Z,
    Humanizer.randomDelay min max g
    = (Humanizer.Returned tt, [Humanizer.Sleep (inject_Z d)],
       Humanizer.mkRng (Humanizer.draws g) (S (Humanizer.cursor g)))
    /\ (min <= d <= max)%Z.
Proof.
  intros Hu Hm. eexists. split; [apply randomDelay_eq|].
  destruct (Hu (Humanizer.cursor g)). by apply delayMs_bounds.
Qed.

Lemma randomDelay_within_bounds_witness :
  exists d : Z,
    Humanizer.randomDelay 500 2000 halfRng
    = (Humanizer.Returned tt, [Humanizer.Sleep (inject_Z d)], Humanizer.mkRng (fun _ => 1 # 2) 1)
    /\ (500 <= d <= 2000)%Z.
Proof.
  apply (randomDelay_within_bounds 500 2000 halfRng); [|lia].
  intros n. split; [discriminate|reflexivity].
Defined.

Lemma bind_eq {A B : Type} (m : Humanizer.M A) (k : A -> Humanizer.M B)
    (g g1 : Humanizer.Rng) (a : A) (t1 : list Humanizer.Event) :
  m g = (Humanizer.Returned a, t1, g1) ->
  Humanizer.bind m k g
  = (fst (fst (k a g1)), t1 ++ snd (fst (k a g1)), snd (k a g1)).
Proof.
  intros H. unfold Humanizer.bind. rewrite H. by destruct (k a g1) as [[o t2] g2].
Qed.

(** With a bounding box, [clickHuman] returns after 60 draws. *)
Lemma clickHuman_returns (page : Humanizer.Page) (selector : jsstring)
    (box : Humanizer.Box) (g : Humanizer.Rng) :
  Humanizer.boundingBox (Humanizer.first (Humanizer.locator page selector)) = Some box ->
  exists t,
    Humanizer.clickHuman page selector g
    = (Humanizer.Returned tt, t,
       Humanizer.mkRng (Humanizer.draws g) (60 + Humanizer.cursor g)).
Proof.
  intros Hb. cbv beta zeta delta [Humanizer.clickHuman]. rewrite Hb.
  rewrite (bind_eq _ _ _ _ _ _ (random_run _)).
  rewrite (bind_eq _ _ _ _ _ _ (random_run _)).
  rewrite (bind_eq _ _ _ _ _ _ (generateMousePath_run _ _ _ _ _ _)).
  match goal with
  | |- context [Humanizer.bind (Humanizer.forEach ?p ?b) ?k ?g0] =>
      destruct (forEach_moves p g0) as [t [Hr _]];
      rewrite (bind_eq _ k _ _ _ _ Hr)
  end.
  rewrite bezierPath_length.
  rewrite (bind_eq _ _ _ _ _ _ (randomDelay_eq _ _ _)).
  rewrite (bind_eq _ _ _ _ _ _ (emit_run _ _)).
  rewrite (bind_eq _ _ _ _ _ _ (randomDelay_eq _ _ _)).
  rewrite (bind_eq _ _ _ _ _ _ (emit_run _ _)).
  rewrite randomDelay_eq. cbn [fst snd Humanizer.draws Humanizer.cursor].
  eexists. reflexivity.
Qed.

(** The string iterator cuts the string into pieces of one or two code
    units. *)
Lemma codePoints_concat_le (n : nat) (s : jsstring) :
  (length s <= n)%nat ->
  concat (Keyboard.codePoints s) = s
  /\ Forall (fun char => length char = 1%nat \/ length char = 2%nat) (Keyboard.codePoints s).
Proof.
  revert s. induction n as [|n IH]; intros s Hl.
  - destruct s; [done|simpl in Hl; lia].
  - destruct s as [|c [|c2 r2]]; [done|by split; [|repeat constructor; left]|].
    change (Keyboard.codePoints (c :: c2 :: r2))
      with (if Keyboard.isLeadSurrogate c && Keyboard.isTrailSurrogate c2
            then [c; c2] :: Keyboard.codePoints r2
            else [c] :: Keyboard.codePoints (c2 :: r2)).
    destruct (Keyboard.isLeadSurrogate c && Keyboard.isTrailSurrogate c2).
    + destruct (IH r2) as [Hc Hf]; [cbn [length] in *; lia|].
      split; [simpl; by rewrite Hc|constructor; [by right|exact Hf]].
    + destruct (IH (c2 :: r2)) as [Hc Hf]; [cbn [length] in *; lia|].
      split; [cbn [concat app]; by rewrite Hc|constructor; [by left|exact Hf]].
Qed.

Lemma codePoints_concat (s : jsstring) : concat (Keyboard.codePoints s) = s.
Proof. apply (codePoints_concat_le (length s)). done. Qed.

Lemma codePoints_noSurrogate (s : jsstring) :
  noSurrogate s -> Keyboard.codePoints s = map (fun c => [c]) s.
Proof.
  induction 1 as [|c r Hc Hr IH]; [done|].
  destruct r as [|c2 r2]; [done|].
  change (Keyboard.codePoints (c :: c2 :: r2))
    with (if Keyboard.isLeadSurrogate c && Keyboard.isTrailSurrogate c2
          then [c; c2] :: Keyboard.codePoints r2
          else [c] :: Keyboard.codePoints (c2 :: r2)).
  rewrite Hc. cbn [andb]. rewrite IH. reflexivity.
Qed.

Lemma keyboardInputs_app (t1 t2 : list Keyboard.Input) :
  keyboardInputs (t1 ++ t2) = keyboardInputs t1 ++ keyboardInputs t2.
Proof. apply List.filter_app. Qed.

Lemma keyboardInputs_pointer (t : list Humanizer.Event) :
  keyboardInputs (map Keyboard.Pointer t) = [].
Proof. induction t as [|e t IH]; [done|exact IH]. Qed.

Lemma pointerInputs_app (t1 t2 : list Keyboard.Input) :
  pointerInputs (t1 ++ t2) = pointerInputs t1 ++ pointerInputs t2.
Proof. apply omap_app. Qed.

Lemma pointerInputs_pointer (t : list Humanizer.Event) :
  pointerInputs (map Keyboard.Pointer t) = t.
Proof. induction t as [|e t IH]; [done|]. cbn. f_equal. exact IH. Qed.

Lemma keyboard_bind_eq {A B : Type} (m : Keyboard.K A) (k : A -> Keyboard.K B)
    (g g1 : Humanizer.Rng) (a : A) (t1 : list Keyboard.Input) :
  m g = (Humanizer.Returned a, t1, g1) ->
  Keyboard.bind m k g
  = (fst (fst (k a g1)), t1 ++ snd (fst (k a g1)), snd (k a g1)).
Proof.
  intros H. unfold Keyboard.bind. rewrite H. by destruct (k a g1) as [[o t2] g2].
Qed.

Lemma lift_eq {A : Type} (m : Humanizer.M A) (g g1 : Humanizer.Rng)
    (o : Humanizer.Outcome A) (t : list Humanizer.Event) :
  m g = (o, t, g1) -> Keyboard.lift m g = (o, map Keyboard.Pointer t, g1).
Proof. intros H. unfold Keyboard.lift. by rewrite H. Qed.

Lemma unitDraws_next (g : Humanizer.Rng) (n : nat) :
  unitDraws g -> unitDraws (Humanizer.mkRng (Humanizer.draws g) n).
Proof. intros H. exact H. Qed.

(** The loop that types: one call of [keyboard.type] per piece, in order,
    each followed by one pause of 50 to 150 ms; it moves no pointer and
    does not throw. *)
Lemma typing_run (chars : list jsstring) (g : Humanizer.Rng) :
  exists t,
    Keyboard.forEach chars
      (fun char =>
         Keyboard.bind (Keyboard.keyboardType char) (fun _ =>
         Keyboard.lift (Humanizer.randomDelay 50 150))) g
    = (Humanizer.Returned tt, t,
       Humanizer.mkRng (Humanizer.draws g) (length chars + Humanizer.cursor g))
    /\ keyboardInputs t = map Keyboard.KeyboardType chars
    /\ pointerEvents (pointerInputs t) = []
    /\ length t = (2 * length chars)%nat
    /\ (unitDraws g -> Forall (pauseWithin 50 150) t).
Proof.
  revert g. induction chars as [|c chars IH]; intros g.
  - exists []. split; [by destruct g|]. by repeat split.
  - destruct (IH (Humanizer.mkRng (Humanizer.draws g) (S (Humanizer.cursor g))))
      as (t & Hr & Hk & Hp & Hl & Hu).
    cbn [Humanizer.draws Humanizer.cursor] in Hr.
    exists (Keyboard.KeyboardType c
            :: Keyboard.Pointer
                 (Humanizer.Sleep
                    (inject_Z (delayMs 50 150 (Humanizer.draws g (Humanizer.cursor g)))))
            :: t).
    split; [|split; [|split; [|split]]].
    + cbn [Keyboard.forEach].
      rewrite (keyboard_bind_eq _ _ g
                 (Humanizer.mkRng (Humanizer.draws g) (S (Humanizer.cursor g))) tt
                 [Keyboard.KeyboardType c;
                  Keyboard.Pointer
                    (Humanizer.Sleep
                       (inject_Z (delayMs 50 150 (Humanizer.draws g (Humanizer.cursor g)))))])
        by reflexivity.
      rewrite Hr. cbn [fst snd app length]. by rewrite Nat.add_succ_r.
    + cbn. by rewrite <- Hk.
    + exact Hp.
    + cbn [length]. lia.
    + intros Hg. constructor; [exact I|]. constructor.
      * destruct (Hg (Humanizer.cursor g)) as [H0 H1].
        destruct (delayMs_bounds 50 150 _ H0 H1) as [Hlo Hhi]; [lia|].
        split; rewrite <- Zle_Qle; assumption.
      * apply Hu. exact Hg.
Qed.

Lemma clickHuman_hidden (page : Humanizer.Page) (selector : jsstring) (g : Humanizer.Rng) :
  Humanizer.boundingBox (Humanizer.first (Humanizer.locator page selector)) = None ->
  Humanizer.clickHuman page selector g
  = (Humanizer.Thrown (Humanizer.newError (js "Element " ++ selector ++ js " not visible")),
     [], g).
Proof. intros Hb. unfold Humanizer.clickHuman. cbv zeta. by rewrite Hb. Qed.

Lemma keyboard_bind_thrown {A B : Type} (m : Keyboard.K A) (k : A -> Keyboard.K B)
    (g g1 : Humanizer.Rng) (e : Humanizer.JsError) (t1 : list Keyboard.Input) :
  m g = (Humanizer.Thrown e, t1, g1) ->
  Keyboard.bind m k g = (Humanizer.Thrown e, t1, g1).
Proof. intros H. unfold Keyboard.bind. by rewrite H. Qed.

(** X11: [typeHuman] types nothing when the element has no bounding box: it
    throws the error of [clickHuman] and sends no input.  With a bounding
    box it returns; the inputs are those of the click, then the typing; the
    typing calls [keyboard.type] once per code point of the text, in order
    (once per code unit when the text has no surrogate), and the pieces put
    together are the text; the typing moves no pointer, so the pointer
    events are those of the click; and, for draws in [[0, 1)], every pause
    of the typing lasts between 50 and 150 ms. *)
Theorem typeHuman_types_text (page : Humanizer.Page) (selector text : jsstring)
    (g : Humanizer.Rng) :
  let r := Keyboard.typeHuman page selector text g in
  match Humanizer.boundingBox (Humanizer.first (Humanizer.locator page selector)) with
  | None =>
      r = (Humanizer.Thrown
             (Humanizer.newError (js "Element " ++ selector ++ js " not visible")), [], g)
  | Some box =>
      exists typing,
        result r = Humanizer.Returned tt
        /\ inputs r
           = map Keyboard.Pointer (trace (Humanizer.clickHuman page selector g)) ++ typing
        /\ keyboardInputs typing = map Keyboard.KeyboardType (Keyboard.codePoints text)
        /\ keyboardInputs (inputs r) = keyboardInputs typing
        /\ concat (Keyboard.codePoints text) = text
        /\ (noSurrogate text -> Keyboard.codePoints text = map (fun c => [c]) text)
        /\ pointerEvents (pointerInputs (inputs r))
           = map Humanizer.MouseMove (clickPath box g)
             ++ [Humanizer.MouseDown; Humanizer.MouseUp]
        /\ (unitDraws g -> Forall (pauseWithin 50 150) typing)
  end.
Proof.
  intros r. subst r. unfold Keyboard.typeHuman.
  destruct (Humanizer.boundingBox (Humanizer.first (Humanizer.locator page selector)))
    as [box|] eqn:Hb.
  - destruct (clickHuman_returns page selector box g Hb) as [click Hc].
    destruct (clickHuman_visible page selector box g Hb) as [_ Hp].
    rewrite Hc in Hp |- *. unfold trace in Hp |- *. cbn [fst snd] in Hp |- *.
    rewrite (keyboard_bind_eq _ _ _ _ _ _ (lift_eq _ _ _ _ _ Hc)).
    destruct (typing_run (Keyboard.codePoints text)
                (Humanizer.mkRng (Humanizer.draws g) (60 + Humanizer.cursor g)))
      as (typing & Hr & Hk & Hm & _ & Hu).
    rewrite Hr. unfold result, inputs. cbn [fst snd].
    exists typing. split; [done|]. split; [done|]. split; [exact Hk|].
    split; [by rewrite keyboardInputs_app, keyboardInputs_pointer|].
    split; [apply codePoints_concat|]. split; [apply codePoints_noSurrogate|].
    split; [|exact Hu].
    by rewrite pointerInputs_app, pointerInputs_pointer, pointerEvents_app, Hm, Hp, app_nil_r.
  - apply keyboard_bind_thrown. apply (lift_eq _ _ _ _ _ (clickHuman_hidden _ _ _ Hb)).
Qed.

Lemma typeHuman_types_text_witness :
  Keyboard.typeHuman testPage (js "#missing") (js "hi") zeroRng
  = (Humanizer.Thrown (Humanizer.newError (js "Element #missing not visible")), [], zeroRng)
  /\ exists typing,
       result (Keyboard.typeHuman testPage (js "#test-button") (js "hi") zeroRng)
       = Humanizer.Returned tt
       /\ keyboardInputs typing
          = [Keyboard.KeyboardType (js "h"); Keyboard.KeyboardType (js "i")]
       /\ Forall (pauseWithin 50 150) typing.
Proof.
  split.
  - exact (typeHuman_types_text testPage (js "#missing") (js "hi") zeroRng).
  - destruct (typeHuman_types_text testPage (js "#test-button") (js "hi") zeroRng)
      as (typing & Hres & _ & Hk & _ & _ & _ & _ & Hu).
    exists typing. split; [exact Hres|]. split; [exact Hk|].
    apply Hu. intros n. split; [discriminate|reflexivity].
Defined.

(** X12: [clearAndTypeHuman] sends nothing when the element has no bounding
    box: it throws the error of [clickHuman].  With a bounding box it
    returns; after the inputs of the click, the keyboard receives the key
    Control+A, then Backspace, then one [keyboard.type] per code point of
    the text, in order; nothing after the click moves the pointer. *)
Theorem clearAndTypeHuman_clears_then_types (page : Humanizer.Page)
    (selector text : jsstring) (g : Humanizer.Rng) :
  let r := Keyboard.clearAndTypeHuman page selector text g in
  match Humanizer.boundingBox (Humanizer.first (Humanizer.locator page selector)) with
  | None =>
      r = (Humanizer.Thrown
             (Humanizer.newError (js "Element " ++ selector ++ js " not visible")), [], g)
  | Some box =>
      exists rest,
        result r = Humanizer.Returned tt
        /\ inputs r
           = map Keyboard.Pointer (trace (Humanizer.clickHuman page selector g)) ++ rest
        /\ keyboardInputs (inputs r)
           = Keyboard.KeyboardPress (js "Control+A")
             :: Keyboard.KeyboardPress (js "Backspace")
             :: map Keyboard.KeyboardType (Keyboard.codePoints text)
        /\ pointerEvents (pointerInputs rest) = []
        /\ pointerEvents (pointerInputs (inputs r))
           = map Humanizer.MouseMove (clickPath box g)
             ++ [Humanizer.MouseDown; Humanizer.MouseUp]
  end.
Proof.
  intros r. subst r. unfold Keyboard.clearAndTypeHuman.
  destruct (Humanizer.boundingBox (Humanizer.first (Humanizer.locator page selector)))
    as [box|] eqn:Hb.
  - destruct (clickHuman_returns page selector box g Hb) as [click Hc].
    destruct (clickHuman_visible page selector box g Hb) as [_ Hp].
    rewrite Hc in Hp |- *. unfold trace in Hp |- *. cbn [fst snd] in Hp |- *.
    rewrite (keyboard_bind_eq _ _ _ _ _ _ (lift_eq _ _ _ _ _ Hc)).
    rewrite (keyboard_bind_eq _ _ _ _ tt [Keyboard.KeyboardPress (js "Control+A")]
               (eq_refl _)).
    rewrite (keyboard_bind_eq _ _ _ _ _ _ (lift_eq _ _ _ _ _ (randomDelay_eq 30 80 _))).
    rewrite (keyboard_bind_eq _ _ _ _ tt [Keyboard.KeyboardPress (js "Backspace")]
               (eq_refl _)).
    rewrite (keyboard_bind_eq _ _ _ _ _ _ (lift_eq _ _ _ _ _ (randomDelay_eq 50 120 _))).
    cbn [Humanizer.draws Humanizer.cursor].
    destruct (typing_run (Keyboard.codePoints text)
                (Humanizer.mkRng (Humanizer.draws g) (S (S (60 + Humanizer.cursor g)))))
      as (typing & Hr & Hk & Hm & _ & _).
    rewrite Hr. unfold result, inputs. cbn [fst snd].
    eexists. split; [done|]. split; [reflexivity|].
    split; [|split].
    + rewrite keyboardInputs_app, keyboardInputs_pointer. cbn [app].
      rewrite <- Hk. reflexivity.
    + transitivity (pointerEvents (pointerInputs typing)); [reflexivity|exact Hm].
    + rewrite pointerInputs_app, pointerInputs_pointer, pointerEvents_app, Hp.
      rewrite <- (app_nil_r (_ ++ [Humanizer.MouseDown; Humanizer.MouseUp])) at 2.
      f_equal.
      transitivity (pointerEvents (pointerInputs typing)); [reflexivity|exact Hm].
  - apply keyboard_bind_thrown. apply (lift_eq _ _ _ _ _ (clickHuman_hidden _ _ _ Hb)).
Qed.

#[local] Close Scope Q_scope.

(** ** The run of the click handler *)

Lemma clickAll_progress {World : Type} (config : ClickHandlerRun.Config)
    (browser : ClickHandlerRun.Browser World) (maxClicks : Z)
    (activities : list ClickHandler.ActivityInfo) (p : ClickHandlerRun.Progress World) :
  exists (titles : list jsstring) (k : nat),
    let p' := ClickHandlerRun.clickAll config browser maxClicks activities p in
    ClickHandlerRun.clickedActivities p' = ClickHandlerRun.clickedActivities p ++ titles
    /\ ClickHandlerRun.clickedCount p' = (ClickHandlerRun.clickedCount p + length titles)%nat
    /\ ClickHandlerRun.attempts p' = (ClickHandlerRun.attempts p + k)%nat
    /\ sublist titles (map ClickHandler.title activities)
    /\ (length titles <= k)%nat /\ (k <= length activities)%nat
    /\ (Z.of_nat (ClickHandlerRun.clickedCount p')
        <= Z.max (Z.of_nat (ClickHandlerRun.clickedCount p)) maxClicks)%Z
    /\ ((k < length activities)%nat ->
        (maxClicks <= Z.of_nat (ClickHandlerRun.clickedCount p'))%Z).
Proof.
  revert p. induction activities as [|a rest IH]; intros p.
  - exists [], 0%nat. cbn. rewrite app_nil_r, !Nat.add_0_r.
    repeat split; [constructor|lia..].
  - cbn [ClickHandlerRun.clickAll].
    destruct (Z.leb_spec maxClicks (Z.of_nat (ClickHandlerRun.clickedCount p))) as [Hle|Hlt].
    + exists [], 0%nat. cbn. rewrite app_nil_r, !Nat.add_0_r.
      repeat split; [apply sublist_nil_l|lia..].
    + destruct (ClickHandlerRun.clickActivity config browser a (ClickHandlerRun.world p))
        as [[success title0] w1] eqn:Hc.
      assert (Ht : title0 = ClickHandler.title a).
      { unfold ClickHandlerRun.clickActivity in Hc.
        destruct (ClickHandlerRun.dryRun config); [by inversion Hc|].
        destruct (ClickHandlerRun.performClick browser a (ClickHandlerRun.world p)).
        by inversion Hc. }
      subst title0. cbv zeta.
      destruct success.
      * destruct (IH (ClickHandlerRun.mkProgress
                        (S (ClickHandlerRun.clickedCount p)) (S (ClickHandlerRun.attempts p))
                        (ClickHandlerRun.clickedActivities p ++ [ClickHandler.title a])
                        (ClickHandlerRun.pause browser 2000 4000 w1)))
          as (titles & k & H1 & H2 & H3 & H4 & H5 & H6 & H7 & H8).
        cbn [ClickHandlerRun.clickedCount ClickHandlerRun.attempts
             ClickHandlerRun.clickedActivities] in *.
        exists (ClickHandler.title a :: titles), (S k).
        rewrite H1, H2, H3, <- app_assoc. cbn [length map app].
        split; [done|]. split; [lia|]. split; [lia|].
        split; [by constructor|]. split; [lia|]. split; [lia|]. split; [lia|].
        intros Hk. rewrite H2 in H8. apply H8. lia.
      * destruct (IH (ClickHandlerRun.mkProgress
                        (ClickHandlerRun.clickedCount p) (S (ClickHandlerRun.attempts p))
                        (ClickHandlerRun.clickedActivities p)
                        (ClickHandlerRun.pause browser 2000 4000 w1)))
          as (titles & k & H1 & H2 & H3 & H4 & H5 & H6 & H7 & H8).
        cbn [ClickHandlerRun.clickedCount ClickHandlerRun.attempts
             ClickHandlerRun.clickedActivities] in *.
        exists titles, (S k).
        rewrite H1, H2, H3. cbn [length map].
        split; [done|]. split; [lia|]. split; [lia|].
        split; [by apply sublist_cons|]. split; [lia|]. split; [lia|]. split; [lia|].
        intros Hk. rewrite H2 in H8. apply H8. lia.
Qed.

(** X13: what [ClickHandler.run] reports.  When the navigation throws, the
    status is [failed], with the message of the error and no attempt.  When
    discovery finds nothing, the status is [skipped], with no attempt.
    Otherwise [totalClicked] is the number of titles in [clickedActivities],
    these titles are titles of discovered activities, in their order; the
    number of clicks is at most the number of attempts, which is at most the
    number of activities; it is at most 10 and at most [maxActionsPerHour]
    (when that is not negative); the status is [ok] when at least one click
    succeeded and [failed] otherwise; and when not every activity was
    attempted, the limit [min(10, maxActionsPerHour)] was reached. *)
Theorem run_reports_clicks {World : Type} (config : ClickHandlerRun.Config)
    (browser : ClickHandlerRun.Browser World) (startTime endTime : Z) (w : World) :
  let r := fst (ClickHandlerRun.run config browser startTime endTime w) in
  let nav := ClickHandlerRun.goto browser (js "https://rewards.bing.com/") w in
  let activities :=
    ClickHandler.findClickableActivities
      (ClickHandlerRun.dashboard browser (ClickHandlerRun.pause browser 2000 4000 (snd nav))) in
  ActionResult.type r = ActionResult.click
  /\ ActionResult.durationMs r = (endTime - startTime)%Z
  /\ match fst nav with
     | Some e =>
         ActionResult.status r = MetricsStore.failed
         /\ ActionResult.attempts r = 0%nat
         /\ ActionResult.meta r = ActionResult.ErrorMessage (Humanizer.message e)
     | None =>
         match activities with
         | [] =>
             ActionResult.status r = MetricsStore.skipped
             /\ ActionResult.attempts r = 0%nat
             /\ ActionResult.meta r = ActionResult.Reason (js "No incomplete activities")
         | _ :: _ =>
             exists titles,
               ActionResult.meta r
               = ActionResult.ClickedActivities titles (Some (length titles))
               /\ sublist titles (map ClickHandler.title activities)
               /\ (length titles <= ActionResult.attempts r)%nat
               /\ (ActionResult.attempts r <= length activities)%nat
               /\ (length titles <= 10)%nat
               /\ (Z.of_nat (length titles)
                   <= Z.max 0 (ClickHandlerRun.maxActionsPerHour config))%Z
               /\ ActionResult.status r
                  = (if (0 <? length titles)%nat then MetricsStore.ok else MetricsStore.failed)
               /\ ((ActionResult.attempts r < length activities)%nat ->
                   (Z.min 10 (ClickHandlerRun.maxActionsPerHour config)
                    <= Z.of_nat (length titles))%Z)
         end
     end.
Proof.
  cbv zeta. unfold ClickHandlerRun.run.
  destruct (ClickHandlerRun.goto browser (js "https://rewards.bing.com/") w)
    as [[e|] w1]; cbn [fst snd]; [done|].
  cbv zeta.
  destruct (ClickHandler.findClickableActivities
              (ClickHandlerRun.dashboard browser (ClickHandlerRun.pause browser 2000 4000 w1)))
    as [|a rest] eqn:Ha; [done|].
  cbn [length Nat.eqb fst].
  destruct (clickAll_progress config browser
              (Z.min 10 (ClickHandlerRun.maxActionsPerHour config)) (a :: rest)
              (ClickHandlerRun.mkProgress 0 0 [] (ClickHandlerRun.pause browser 2000 4000 w1)))
    as (titles & k & H1 & H2 & H3 & H4 & H5 & H6 & H7 & H8).
  cbv zeta in *.
  cbn [ClickHandlerRun.clickedCount ClickHandlerRun.attempts
       ClickHandlerRun.clickedActivities app Nat.add] in *.
  split; [done|]. split; [done|].
  exists titles.
  cbn [ActionResult.meta ActionResult.attempts ActionResult.status].
  rewrite H1, H2, H3.
  split; [done|]. split; [exact H4|]. split; [lia|]. split; [exact H6|].
  rewrite H2 in H7, H8.
  split; [lia|]. split; [lia|]. split; [done|]. exact H8.
Qed.

Lemma pauses_succ {World : Type} (browser : ClickHandlerRun.Browser World) (n : nat)
    (w : World) :
  pauses browser (S n) w = pauses browser n (ClickHandlerRun.pause browser 2000 4000 w).
Proof. unfold pauses. by rewrite Nat.iter_succ_r. Qed.

Lemma clickAll_dry {World : Type} (config : ClickHandlerRun.Config)
    (browser : ClickHandlerRun.Browser World) (maxClicks : Z)
    (activities : list ClickHandler.ActivityInfo) (p : ClickHandlerRun.Progress World) :
  ClickHandlerRun.dryRun config = true ->
  let n := Nat.min (Z.to_nat (maxClicks - Z.of_nat (ClickHandlerRun.clickedCount p)))
                   (length activities) in
  ClickHandlerRun.clickAll config browser maxClicks activities p
  = ClickHandlerRun.mkProgress
      (ClickHandlerRun.clickedCount p + n) (ClickHandlerRun.attempts p + n)
      (ClickHandlerRun.clickedActivities p ++ take n (map ClickHandler.title activities))
      (pauses browser n (ClickHandlerRun.world p)).
Proof.
  intros Hd. revert p. induction activities as [|a rest IH]; intros p; cbv zeta.
  - rewrite Nat.min_0_r. cbn. rewrite app_nil_r, !Nat.add_0_r. by destruct p.
  - cbn [ClickHandlerRun.clickAll].
    destruct (Z.leb_spec maxClicks (Z.of_nat (ClickHandlerRun.clickedCount p))) as [Hle|Hlt].
    + replace (Z.to_nat (maxClicks - Z.of_nat (ClickHandlerRun.clickedCount p))) with 0%nat
        by lia.
      cbn. rewrite app_nil_r, !Nat.add_0_r. by destruct p.
    + unfold ClickHandlerRun.clickActivity. rewrite Hd. cbv zeta.
      rewrite IH. cbn [ClickHandlerRun.clickedCount ClickHandlerRun.attempts
                       ClickHandlerRun.clickedActivities ClickHandlerRun.world].
      destruct (Z.to_nat (maxClicks - Z.of_nat (ClickHandlerRun.clickedCount p)))
        as [|m] eqn:Hm; [lia|].
      replace (Z.to_nat (maxClicks - Z.of_nat (S (ClickHandlerRun.clickedCount p))))
        with m by lia.
      cbn [length Nat.min map take]. rewrite <- pauses_succ, <- app_assoc.
      cbn [app]. f_equal; lia.
Qed.

(** X14: in dry-run, [ClickHandler.run] performs no click: after the
    navigation it only pauses, once per activity it reports.  It reports
    the first [min(10, maxActionsPerHour)] discovered activities as clicked
    (all of them when there are fewer), with as many attempts, and its
    status is [ok] unless that limit is zero or negative. *)
Theorem run_dry_run_performs_no_click {World : Type} (config : ClickHandlerRun.Config)
    (browser : ClickHandlerRun.Browser World) (startTime endTime : Z) (w : World) :
  let nav := ClickHandlerRun.goto browser (js "https://rewards.bing.com/") w in
  let w2 := ClickHandlerRun.pause browser 2000 4000 (snd nav) in
  let activities := ClickHandler.findClickableActivities (ClickHandlerRun.dashboard browser w2) in
  let n := Nat.min (Z.to_nat (Z.min 10 (ClickHandlerRun.maxActionsPerHour config)))
                   (length activities) in
  ClickHandlerRun.dryRun config = true ->
  fst nav = None ->
  activities <> [] ->
  ClickHandlerRun.run config browser startTime endTime w
  = (ActionResult.mk ActionResult.click
       (if (0 <? n)%nat then MetricsStore.ok else MetricsStore.failed)
       n (endTime - startTime)
       (ActionResult.ClickedActivities (take n (map ClickHandler.title activities)) (Some n)),
     pauses browser n w2).
Proof.
  cbv zeta. intros Hd Hn Ha. unfold ClickHandlerRun.run.
  destruct (ClickHandlerRun.goto browser (js "https://rewards.bing.com/") w)
    as [[e|] w1]; cbn [fst snd] in *; [done|].
  cbv zeta.
  destruct (ClickHandler.findClickableActivities
              (ClickHandlerRun.dashboard browser (ClickHandlerRun.pause browser 2000 4000 w1)))
    as [|a rest] eqn:Hf; [done|].
  cbn [length Nat.eqb].
  rewrite (clickAll_dry config browser _ (a :: rest) _ Hd).
  cbn [ClickHandlerRun.clickedCount ClickHandlerRun.attempts
       ClickHandlerRun.clickedActivities ClickHandlerRun.world app Nat.add length].
  rewrite Z.sub_0_r. reflexivity.
Qed.

Lemma run_dry_run_performs_no_click_witness :
  ClickHandlerRun.run (ClickHandlerRun.mkConfig true 1) countingBrowser 1000 1500 0%nat
  = (ActionResult.mk ActionResult.click MetricsStore.ok 1 500
       (ActionResult.ClickedActivities [js "Daily offer"] (Some 1%nat)),
     0%nat).
Proof.
  apply (run_dry_run_performs_no_click (ClickHandlerRun.mkConfig true 1) countingBrowser
           1000 1500 0%nat); [reflexivity|reflexivity|discriminate].
Defined.

(** Outside dry-run the same page gets both cards clicked, and a browser
    that is not initialised gives a failed run. *)
Example run_examples :
  ClickHandlerRun.run (ClickHandlerRun.mkConfig false 30) countingBrowser 1000 1500 0%nat
  = (ActionResult.mk ActionResult.click MetricsStore.ok 2 500
       (ActionResult.ClickedActivities [js "Daily offer"; js "Daily offer"] (Some 2%nat)),
     2%nat)
  /\ ClickHandlerRun.run (ClickHandlerRun.mkConfig false 30) closedBrowser 1000 1500 0%nat
     = (ActionResult.mk ActionResult.click MetricsStore.failed 0 500
          (ActionResult.ErrorMessage (js "Browser not initialized")),
        0%nat).
Proof. split; reflexivity. Qed.

(** ** Answering a quiz and the run of the quiz handler *)

Lemma firstMatching_spec (view : QuizHandlerRun.View) (selectors : list jsstring) :
  (QuizHandlerRun.firstMatching view selectors = []
   <-> forall sel, sel ∈ selectors -> QuizHandlerRun.matches view sel = [])
  /\ (QuizHandlerRun.firstMatching view selectors <> [] ->
      exists before sel after,
        selectors = before ++ sel :: after
        /\ QuizHandlerRun.firstMatching view selectors = QuizHandlerRun.matches view sel
        /\ Forall (fun s => QuizHandlerRun.matches view s = []) before).
Proof.
  induction selectors as [|s rest [IH1 IH2]]; cbn [QuizHandlerRun.firstMatching].
  - split; [|done]. split; [by intros _ sel ?%elem_of_nil|done].
  - destruct (QuizHandlerRun.matches view s) as [|o os] eqn:Hm; cbn [length Nat.ltb Nat.leb].
    + split.
      * rewrite IH1. split.
        -- intros H sel [->|Hin]%elem_of_cons; [exact Hm|by apply H].
        -- intros H sel Hin. apply H. by right.
      * intros Hne. destruct (IH2 Hne) as (before & sel & after & -> & Hf & Hb).
        exists (s :: before), sel, after. split; [done|]. split; [exact Hf|].
        by constructor.
    + split.
      * split; [done|]. intros H. rewrite <- Hm. apply H. by left.
      * intros _. exists [], s, rest. by rewrite Hm.
Qed.

(** X15: [findOptions] returns the matches of one selector only: the first
    of its seven selectors, in the order of the list, that matches
    anything, and all the matches of that one; it returns no option exactly
    when none of the selectors matches. *)
Theorem findOptions_first_matching_selector (view : QuizHandlerRun.View) :
  (QuizHandlerRun.findOptions view = []
   <-> forall sel, sel ∈ QuizHandlerRun.possibleSelectors ->
                   QuizHandlerRun.matches view sel = [])
  /\ (QuizHandlerRun.findOptions view <> [] ->
      exists before sel after,
        QuizHandlerRun.possibleSelectors = before ++ sel :: after
        /\ QuizHandlerRun.findOptions view = QuizHandlerRun.matches view sel
        /\ Forall (fun s => QuizHandlerRun.matches view s = []) before).
Proof. apply firstMatching_spec. Qed.

Lemma findOptions_first_matching_selector_witness :
  exists before sel after,
    QuizHandlerRun.possibleSelectors = before ++ sel :: after
    /\ QuizHandlerRun.findOptions openView = QuizHandlerRun.matches openView sel
    /\ Forall (fun s => QuizHandlerRun.matches openView s = []) before.
Proof.
  apply (proj2 (findOptions_first_matching_selector openView)). discriminate.
Defined.

Lemma pausedFrom_trans {World : Type} (browser : QuizHandlerRun.Browser World)
    (w w1 w2 : World) :
  pausedFrom browser w w1 -> pausedFrom browser w1 w2 -> pausedFrom browser w w2.
Proof. intros H1 H2. induction H2; [exact H1|by constructor]. Qed.

Lemma pausedFrom_one {World : Type} (browser : QuizHandlerRun.Browser World)
    (lo hi : Z) (w : World) :
  pausedFrom browser w (QuizHandlerRun.pause browser lo hi w).
Proof. repeat constructor. Qed.

Lemma tryOptions_dry {World : Type} (config : QuizHandlerRun.Config)
    (browser : QuizHandlerRun.Browser World) (options : list nat) (w : World) :
  QuizHandlerRun.dryRun config = true ->
  QuizHandlerRun.tryOptions config browser options w
  = (negb (length options =? 0)%nat, w).
Proof. intros Hd. destruct options; [done|]. cbn. by rewrite Hd. Qed.

Lemma tryOptions_spec {World : Type} (config : QuizHandlerRun.Config)
    (browser : QuizHandlerRun.Browser World) (options : list nat) (w : World) :
  clockAdvances browser ->
  let r := QuizHandlerRun.tryOptions config browser options w in
  (QuizHandlerRun.now browser w <= QuizHandlerRun.now browser (snd r))%Z
  /\ (fst r = true ->
      QuizHandlerRun.isQuizComplete (QuizHandlerRun.view browser (snd r)) = true
      \/ QuizHandlerRun.dryRun config = true).
Proof.
  intros [Hp Hc]. revert w. induction options as [|o rest IH]; intros w; cbv zeta.
  - cbn. split; [lia|done].
  - cbn [QuizHandlerRun.tryOptions].
    destruct (QuizHandlerRun.dryRun config) eqn:Hd.
    + cbn. split; [lia|by right].
    + pose proof (Hc o w) as Hclick.
      destruct (QuizHandlerRun.clickOption browser o w) as [[e|] w1]; cbn [snd] in Hclick.
      * cbn. split; [lia|done].
      * cbv zeta. pose proof (Hp 1000%Z 2000%Z w1) as Hpause.
        destruct (QuizHandlerRun.isQuizComplete
                    (QuizHandlerRun.view browser (QuizHandlerRun.pause browser 1000 2000 w1)))
          eqn:Hq.
        -- cbn. split; [lia|by left].
        -- destruct (IH (QuizHandlerRun.pause browser 1000 2000 w1)) as [H1 H2].
           split; [lia|exact H2].
Qed.

Lemma answer_spec {World : Type} (config : QuizHandlerRun.Config)
    (browser : QuizHandlerRun.Browser World) (startTime : Z) :
  clockAdvances browser ->
  forall (fuel : nat) (w : World),
    (1 <= fuel)%nat ->
    (60000 - (QuizHandlerRun.now browser w - startTime) <= 1000 * (Z.of_nat fuel - 1))%Z ->
    exists completed w',
      QuizHandlerRun.answer fuel config browser startTime w = Some (completed, w')
      /\ (completed = false -> (60000 <= QuizHandlerRun.now browser w' - startTime)%Z)
      /\ (completed = true ->
          QuizHandlerRun.isQuizComplete (QuizHandlerRun.view browser w') = true
          \/ (QuizHandlerRun.dryRun config = true
              /\ QuizHandlerRun.findOptions (QuizHandlerRun.view browser w') <> []))
      /\ (QuizHandlerRun.dryRun config = true -> pausedFrom browser w w').
Proof.
  intros Hclock. pose proof Hclock as [Hp Hc].
  induction fuel as [|fuel IH]; intros w Hfuel Hf.
  - lia.
  - cbn [QuizHandlerRun.answer]. cbv zeta.
    destruct (Z.ltb_spec (QuizHandlerRun.now browser w - startTime) 60000) as [Hlt|Hge].
    + destruct (QuizHandlerRun.isQuizComplete (QuizHandlerRun.view browser w)) eqn:Hq.
      * exists true, w. split; [done|]. split; [done|]. split; [by left|constructor].
      * destruct (Nat.eqb_spec
                    (length (QuizHandlerRun.findOptions (QuizHandlerRun.view browser w))) 0)
          as [Hz|Hnz].
        -- pose proof (Hp 1000%Z 2000%Z w) as Hpause.
           destruct (IH (QuizHandlerRun.pause browser 1000 2000 w))
             as (c & w' & He & H1 & H2 & H3); [lia|lia|].
           exists c, w'. split; [exact He|]. split; [exact H1|]. split; [exact H2|].
           intros Hd. eapply pausedFrom_trans; [apply pausedFrom_one|by apply H3].
        -- destruct (tryOptions_spec config browser
                       (QuizHandlerRun.findOptions (QuizHandlerRun.view browser w)) w Hclock)
             as [Ht1 Ht2].
           pose proof (tryOptions_dry config browser
                         (QuizHandlerRun.findOptions (QuizHandlerRun.view browser w)) w) as Hdry.
           destruct (QuizHandlerRun.tryOptions config browser
                       (QuizHandlerRun.findOptions (QuizHandlerRun.view browser w)) w)
             as [[|] w1]; cbn [fst snd] in *.
           ++ exists true, w1. split; [done|]. split; [done|].
              split.
              ** intros _. destruct (QuizHandlerRun.dryRun config) eqn:Hd.
                 --- specialize (Hdry eq_refl). inversion Hdry; subst w1.
                     right. split; [done|]. intros E. rewrite E in Hnz. done.
                 --- destruct (Ht2 eq_refl) as [?|?]; [by left|done].
              ** intros Hd. specialize (Hdry Hd). inversion Hdry; subst w1. constructor.
           ++ pose proof (Hp 2000%Z 3000%Z w1) as Hpause.
              destruct (IH (QuizHandlerRun.pause browser 2000 3000 w1))
                as (c & w' & He & H1 & H2 & H3); [lia|lia|].
              exists c, w'. split; [exact He|]. split; [exact H1|]. split; [exact H2|].
              intros Hd. specialize (Hdry Hd). inversion Hdry; subst w1.
              eapply pausedFrom_trans; [apply pausedFrom_one|by apply H3].
    + exists false, w. split; [done|]. split; [lia|]. split; [done|constructor].
Qed.

Lemma handleQuiz_run_ends {World : Type} (fuel : nat) (config : QuizHandlerRun.Config)
    (browser : QuizHandlerRun.Browser World) (w : World) :
  clockAdvances browser ->
  (61 <= fuel)%nat ->
  exists completed w',
    QuizHandlerRun.handleQuiz fuel config browser w = Some (completed, w')
    /\ (QuizHandlerRun.dryRun config = true -> pausedFrom browser w w').
Proof.
  intros Hclock Hfuel. unfold QuizHandlerRun.handleQuiz. cbv zeta.
  destruct (answer_spec config browser
              (QuizHandlerRun.now browser (QuizHandlerRun.pause browser 2000 3000 w))
              Hclock fuel (QuizHandlerRun.pause browser 2000 3000 w))
    as (c & w' & He & _ & _ & H3); [lia|lia|].
  exists c, w'. split; [exact He|].
  intros Hd. eapply pausedFrom_trans; [apply pausedFrom_one|by apply H3].
Qed.

(** X16: [handleQuiz] comes to an end: when pauses take their time and a
    click does not turn the clock back, 61 rounds of its loop are enough.
    It gives up ([completed = false]) only once a minute has passed since
    its start; it reports the quiz completed only when the page shows a
    completion indicator or, in dry-run, when the page shows options; and
    in dry-run it clicks no option: the state it ends in is reached by
    pauses alone. *)
Theorem handleQuiz_ends {World : Type} (fuel : nat) (config : QuizHandlerRun.Config)
    (browser : QuizHandlerRun.Browser World) (w : World) :
  clockAdvances browser ->
  (61 <= fuel)%nat ->
  exists completed w',
    QuizHandlerRun.handleQuiz fuel config browser w = Some (completed, w')
    /\ (completed = false ->
        (QuizHandlerRun.now browser (QuizHandlerRun.pause browser 2000 3000 w) + 60000
         <= QuizHandlerRun.now browser w')%Z)
    /\ (completed = true ->
        QuizHandlerRun.isQuizComplete (QuizHandlerRun.view browser w') = true
        \/ (QuizHandlerRun.dryRun config = true
            /\ QuizHandlerRun.findOptions (QuizHandlerRun.view browser w') <> []))
    /\ (QuizHandlerRun.dryRun config = true -> pausedFrom browser w w').
Proof.
  intros Hclock Hfuel. unfold QuizHandlerRun.handleQuiz. cbv zeta.
  destruct (answer_spec config browser
              (QuizHandlerRun.now browser (QuizHandlerRun.pause browser 2000 3000 w))
              Hclock fuel (QuizHandlerRun.pause browser 2000 3000 w))
    as (c & w' & He & H1 & H2 & H3); [lia|lia|].
  exists c, w'. split; [exact He|]. split; [intros Hc; specialize (H1 Hc); lia|].
  split; [exact H2|].
  intros Hd. eapply pausedFrom_trans; [apply pausedFrom_one|by apply H3].
Qed.

Lemma clockAdvances_quizBrowser : clockAdvances quizBrowser.
Proof. split; intros; cbn; lia. Qed.

Lemma handleQuiz_ends_witness :
  exists completed w',
    QuizHandlerRun.handleQuiz 61 (QuizHandlerRun.mkConfig true 30) quizBrowser (0%Z, 0%nat)
    = Some (completed, w')
    /\ (completed = true ->
        QuizHandlerRun.isQuizComplete (QuizHandlerRun.view quizBrowser w') = true
        \/ (true = true /\ QuizHandlerRun.findOptions (QuizHandlerRun.view quizBrowser w') <> []))
    /\ pausedFrom quizBrowser (0%Z, 0%nat) w'.
Proof.
  destruct (handleQuiz_ends 61 (QuizHandlerRun.mkConfig true 30) quizBrowser (0%Z, 0%nat)
              clockAdvances_quizBrowser (le_n 61))
    as (c & w' & He & _ & H2 & H3).
  exists c, w'. split; [exact He|]. split; [exact H2|]. apply H3. reflexivity.
Defined.

Lemma handleAll_progress {World : Type} (fuel : nat) (config : QuizHandlerRun.Config)
    (browser : QuizHandlerRun.Browser World) :
  clockAdvances browser ->
  (61 <= fuel)%nat ->
  forall (quizzes : list QuizHandler.Card) (p : QuizHandlerRun.Progress World),
  exists (p' : QuizHandlerRun.Progress World) (k : nat),
    QuizHandlerRun.handleAll fuel config browser quizzes p = Some p'
    /\ QuizHandlerRun.attempts p' = (QuizHandlerRun.attempts p + k)%nat
    /\ (k <= length quizzes)%nat
    /\ (QuizHandlerRun.completedCount p <= QuizHandlerRun.completedCount p')%nat
    /\ (QuizHandlerRun.completedCount p' <= QuizHandlerRun.completedCount p + k)%nat
    /\ (Z.of_nat (QuizHandlerRun.completedCount p')
        <= Z.max (Z.of_nat (QuizHandlerRun.completedCount p))
                 (QuizHandlerRun.maxActionsPerHour config))%Z
    /\ ((k < length quizzes)%nat ->
        (QuizHandlerRun.maxActionsPerHour config
         <= Z.of_nat (QuizHandlerRun.completedCount p'))%Z)
    /\ (QuizHandlerRun.dryRun config = true ->
        pausedFrom browser (QuizHandlerRun.world p) (QuizHandlerRun.world p')).
Proof.
  intros Hclock Hfuel. induction quizzes as [|q rest IH]; intros p.
  - exists p, 0%nat. cbn. rewrite Nat.add_0_r.
    repeat split; try lia. intros _. constructor.
  - cbn [QuizHandlerRun.handleAll].
    destruct (Z.leb_spec (QuizHandlerRun.maxActionsPerHour config)
                (Z.of_nat (QuizHandlerRun.completedCount p))) as [Hle|Hlt].
    + exists p, 0%nat. rewrite Nat.add_0_r. cbn [length].
      repeat split; try lia. intros _. constructor.
    + assert (Hopen : QuizHandlerRun.dryRun config = true ->
                      QuizHandlerRun.openQuiz config browser q (QuizHandlerRun.world p)
                      = (None, QuizHandlerRun.world p)).
      { intros Hd. unfold QuizHandlerRun.openQuiz. by rewrite Hd. }
      destruct (QuizHandlerRun.openQuiz config browser q (QuizHandlerRun.world p))
        as [[e|] w1].
      * destruct (IH (QuizHandlerRun.mkProgress (QuizHandlerRun.completedCount p)
                        (S (QuizHandlerRun.attempts p)) w1))
          as (p' & k & H1 & H2 & H3 & H4 & H5 & H6 & H7 & H8).
        cbn [QuizHandlerRun.completedCount QuizHandlerRun.attempts QuizHandlerRun.world] in *.
        exists p', (S k). cbn [length].
        split; [exact H1|]. repeat split; try lia.
        intros Hd. specialize (Hopen Hd). discriminate.
      * destruct (handleQuiz_run_ends fuel config browser w1 Hclock Hfuel)
          as (c & w2 & He & Hdry).
        rewrite He.
        assert (Hback : QuizHandlerRun.dryRun config = true ->
                        QuizHandlerRun.returnToMain config browser w2 = w2).
        { intros Hd. unfold QuizHandlerRun.returnToMain. by rewrite Hd. }
        destruct (IH (QuizHandlerRun.mkProgress
                        (if c then S (QuizHandlerRun.completedCount p)
                         else QuizHandlerRun.completedCount p)
                        (S (QuizHandlerRun.attempts p))
                        (QuizHandlerRun.returnToMain config browser w2)))
          as (p' & k & H1 & H2 & H3 & H4 & H5 & H6 & H7 & H8).
        cbn [QuizHandlerRun.completedCount QuizHandlerRun.attempts QuizHandlerRun.world] in *.
        exists p', (S k). cbn [length].
        split; [exact H1|].
        destruct c; (repeat split; try lia);
          intros Hd; specialize (Hopen Hd); inversion Hopen; subst w1;
          (eapply pausedFrom_trans; [apply (Hdry Hd)|]);
          rewrite <- (Hback Hd); by apply H8.
Qed.

(** X17: [QuizHandler.run] comes to an end (under the same conditions on
    the clock, with 61 rounds for each quiz).  When the navigation throws,
    the status is [failed], with the message of the error and no attempt.
    When discovery finds no quiz, the status is [skipped].  Otherwise the
    number of completed quizzes is at most the number of attempts, which is
    at most the number of quizzes found; it is at most [maxActionsPerHour]
    (when that is not negative); the status is [ok] when at least one quiz
    was completed and [failed] otherwise; when not every quiz was attempted,
    the limit was reached; and in dry-run the handler, once on the
    dashboard, only pauses: it opens no quiz and clicks no option. *)
Theorem run_reports_quizzes {World : Type} (fuel : nat) (config : QuizHandlerRun.Config)
    (browser : QuizHandlerRun.Browser World) (startTime endTime : Z) (w : World) :
  clockAdvances browser ->
  (61 <= fuel)%nat ->
  let nav := QuizHandlerRun.goto browser (js "https://rewards.bing.com/") w in
  let w2 := QuizHandlerRun.pause browser 2000 4000 (snd nav) in
  let quizzes := QuizHandler.findQuizActivities (QuizHandlerRun.dashboard browser w2) in
  exists r w',
    QuizHandlerRun.run fuel config browser startTime endTime w = Some (r, w')
    /\ ActionResult.type r = ActionResult.quiz
    /\ ActionResult.durationMs r = (endTime - startTime)%Z
    /\ match fst nav with
       | Some e =>
           ActionResult.status r = MetricsStore.failed
           /\ ActionResult.attempts r = 0%nat
           /\ ActionResult.meta r = ActionResult.ErrorMessage (Humanizer.message e)
       | None =>
           match quizzes with
           | [] =>
               ActionResult.status r = MetricsStore.skipped
               /\ ActionResult.attempts r = 0%nat
               /\ ActionResult.meta r = ActionResult.Reason (js "No quiz activities found")
           | _ :: _ =>
               exists n,
                 ActionResult.meta r = ActionResult.QuizzesCompleted n None
                 /\ (n <= ActionResult.attempts r)%nat
                 /\ (ActionResult.attempts r <= length quizzes)%nat
                 /\ (Z.of_nat n <= Z.max 0 (QuizHandlerRun.maxActionsPerHour config))%Z
                 /\ ActionResult.status r
                    = (if (0 <? n)%nat then MetricsStore.ok else MetricsStore.failed)
                 /\ ((ActionResult.attempts r < length quizzes)%nat ->
                     (QuizHandlerRun.maxActionsPerHour config <= Z.of_nat n)%Z)
                 /\ (QuizHandlerRun.dryRun config = true -> pausedFrom browser w2 w')
           end
       end.
Proof.
  intros Hclock Hfuel. cbv zeta. unfold QuizHandlerRun.run.
  destruct (QuizHandlerRun.goto browser (js "https://rewards.bing.com/") w)
    as [[e|] w1]; cbn [fst snd].
  { eexists _, _. split; [reflexivity|]. done. }
  cbv zeta.
  destruct (QuizHandler.findQuizActivities
              (QuizHandlerRun.dashboard browser (QuizHandlerRun.pause browser 2000 4000 w1)))
    as [|q rest] eqn:Hq.
  { eexists _, _. split; [reflexivity|]. done. }
  cbn [length Nat.eqb].
  destruct (handleAll_progress fuel config browser Hclock Hfuel (q :: rest)
              (QuizHandlerRun.mkProgress 0 0 (QuizHandlerRun.pause browser 2000 4000 w1)))
    as (p' & k & H1 & H2 & H3 & H4 & H5 & H6 & H7 & H8).
  cbn [QuizHandlerRun.completedCount QuizHandlerRun.attempts QuizHandlerRun.world
       Nat.add] in *.
  rewrite H1. eexists _, _. split; [reflexivity|].
  cbn [ActionResult.type ActionResult.durationMs ActionResult.meta ActionResult.attempts
       ActionResult.status].
  split; [done|]. split; [done|].
  exists (QuizHandlerRun.completedCount p'). rewrite H2.
  split; [done|]. split; [lia|]. split; [exact H3|]. split; [lia|].
  split; [done|]. split; [exact H7|exact H8].
Qed.

Lemma run_reports_quizzes_witness :
  exists r w',
    QuizHandlerRun.run 61 (QuizHandlerRun.mkConfig true 30) quizBrowser 1000 3500 (0%Z, 0%nat)
    = Some (r, w')
    /\ ActionResult.status r = MetricsStore.ok
    /\ ActionResult.attempts r = 1%nat
    /\ ActionResult.meta r = ActionResult.QuizzesCompleted 1 None
    /\ snd w' = 0%nat.
Proof.
  destruct (run_reports_quizzes 61 (QuizHandlerRun.mkConfig true 30) quizBrowser 1000 3500
              (0%Z, 0%nat) clockAdvances_quizBrowser (le_n 61))
    as (r & w' & He & _).
  exists r, w'. split; [exact He|].
  vm_compute in He. inversion He. repeat split.
Defined.

(** ** Further properties of the explore query, discovery and the cache key *)

Lemma matchLiteral_suffix (literal s r : jsstring) :
  ClickHandler.matchLiteral literal s = Some r -> exists p, s = p ++ r.
Proof.
  revert s. induction literal as [|l literal IH]; intros s H.
  - exists []. by inversion H.
  - destruct s as [|c s']; [done|]. cbn in H.
    destruct (ClickHandler.canonicalize l =? ClickHandler.canonicalize c)%N; [|done].
    destruct (IH s' H) as [p ->]. by exists (c :: p).
Qed.

Lemma matchSpaces1_suffix (s r : jsstring) :
  ClickHandler.matchSpaces1 s = Some r -> exists p, s = p ++ r.
Proof.
  destruct s as [|c s']; [done|]. cbn.
  destruct (isWhiteSpace c); [|done]. intros [= <-].
  destruct (trimStart_split s') as [w [Hs _]]. exists (c :: w). cbn. by f_equal.
Qed.

Lemma matchSeparatorOpt_suffix (s : jsstring) :
  exists p, s = p ++ ClickHandler.matchSeparatorOpt s.
Proof.
  destruct s as [|c r]; [by exists []|]. cbn.
  destruct ((c =? 58) || (c =? 45) || (c =? 8211))%N; [by exists [c]|by exists []].
Qed.

Lemma stripLead_suffix (s : jsstring) : exists p, s = p ++ ClickHandler.stripLead s.
Proof.
  unfold ClickHandler.stripLead.
  destruct (ClickHandler.matchLead s) as [r|] eqn:Hm; [|by exists []].
  cbn [default]. unfold ClickHandler.matchLead in Hm.
  destruct (ClickHandler.matchLiteral (js "search") s) as [s1|] eqn:H1; [|done].
  cbn [mbind option_bind] in Hm.
  destruct (ClickHandler.matchSpaces1 s1) as [s2|] eqn:H2; [|done].
  cbn [mbind option_bind] in Hm.
  destruct (ClickHandler.matchLiteral (js "on") s2) as [s3|] eqn:H3; [|done].
  cbn [mbind option_bind] in Hm.
  destruct (ClickHandler.matchSpaces1 s3) as [s4|] eqn:H4; [|done].
  cbn [mbind option_bind] in Hm.
  destruct (ClickHandler.matchLiteral (js "bing") s4) as [s5|] eqn:H5; [|done].
  cbn [mbind option_bind] in Hm.
  destruct (ClickHandler.matchSpaces1 s5) as [s6|] eqn:H6; [|done].
  cbn [mbind option_bind] in Hm.
  assert (H7 : exists s7 p7, s6 = p7 ++ s7
                 /\ r = trimStart (ClickHandler.matchSeparatorOpt (trimStart s7))).
  { destruct (ClickHandler.matchLiteral (js "to") s6) as [s7|] eqn:Hto.
    - cbn [mbind option_bind] in Hm. inversion Hm.
      destruct (matchLiteral_suffix _ _ _ Hto) as [p ->]. by exists s7, p.
    - destruct (ClickHandler.matchLiteral (js "for") s6) as [s7|] eqn:Hfor; [|done].
      cbn [mbind option_bind] in Hm. inversion Hm.
      destruct (matchLiteral_suffix _ _ _ Hfor) as [p ->]. by exists s7, p. }
  destruct H7 as (s7 & p7 & -> & ->).
  destruct (matchLiteral_suffix _ _ _ H1) as [p1 ->].
  destruct (matchSpaces1_suffix _ _ H2) as [p2 ->].
  destruct (matchLiteral_suffix _ _ _ H3) as [p3 ->].
  destruct (matchSpaces1_suffix _ _ H4) as [p4 ->].
  destruct (matchLiteral_suffix _ _ _ H5) as [p5 ->].
  destruct (matchSpaces1_suffix _ _ H6) as [p6 E6].
  destruct (trimStart_split s7) as [w1 [E1 _]].
  destruct (matchSeparatorOpt_suffix (trimStart s7)) as [w2 E2].
  destruct (trimStart_split (ClickHandler.matchSeparatorOpt (trimStart s7))) as [w3 [E3 _]].
  exists (p1 ++ p2 ++ p3 ++ p4 ++ p5 ++ p6 ++ p7 ++ w1 ++ w2 ++ w3).
  rewrite E6. rewrite E1 at 1. rewrite E2 at 1. rewrite E3 at 1.
  by rewrite <- !app_assoc.
Qed.

Lemma trim_infix (s : jsstring) : exists before after, s = before ++ trim s ++ after.
Proof.
  unfold trim. destruct (trimStart_split s) as [w1 [E1 _]].
  destruct (trimEnd_split (trimStart s)) as [w2 [E2 _]].
  exists w1, w2. rewrite <- E2. exact E1.
Qed.

(** X18: the query of an explore activity is a contiguous part of the field
    it is taken from (the description, or the title when the description is
    absent or blank): nothing is added or rewritten; it has no white space
    at either end; and it is empty exactly when that field is blank. *)
Theorem getExploreQuery_part_of_field (activity : ClickHandler.ActivityInfo) :
  let query := ClickHandler.getExploreQuery activity in
  (exists before after, queryField activity = before ++ query ++ after)
  /\ trim query = query
  /\ (query = [] <-> trim (queryField activity) = []).
Proof.
  cbv zeta. rewrite getExploreQuery_field.
  split; [|split].
  - rewrite normalizeExploreQuery_cases.
    destruct (ClickHandler.isEmpty (stripped (queryField activity))); [apply trim_infix|].
    unfold stripped.
    destruct (trim_infix (queryField activity)) as (b1 & a1 & E1).
    destruct (stripLead_suffix (trim (queryField activity))) as [p E2].
    destruct (trim_infix (ClickHandler.stripLead (trim (queryField activity))))
      as (b2 & a2 & E3).
    exists (b1 ++ p ++ b2), (a2 ++ a1).
    rewrite E1 at 1. rewrite E2 at 1. rewrite E3 at 1. by rewrite <- !app_assoc.
  - rewrite normalizeExploreQuery_cases.
    destruct (ClickHandler.isEmpty (stripped (queryField activity)));
      [|unfold stripped]; apply trim_idem.
  - rewrite <- !isEmpty_true. by rewrite normalizeExploreQuery_empty.
Qed.

Lemma processCard_entry (card : ClickHandler.Card) (type0 : ClickHandler.ActivityType)
    (n : nat) (info : ClickHandler.ActivityInfo) :
  ClickHandler.processCard card type0 n = Some info ->
  ClickHandler.isVisible card = true
  /\ ClickHandler.completeMarks card = 0%nat
  /\ ClickHandler.linkCount card <> 0%nat
  /\ (type0 = ClickHandler.standard ->
      ClickHandler.pointsMarks card <> 0%nat /\ ClickHandler.quizMarks card = 0%nat)
  /\ info = ClickHandler.mkActivityInfo n (titleOf card n) (js "placeholder") false
              (ClickHandler.link card) type0 (trim <$> ClickHandler.descriptionText card).
Proof.
  unfold ClickHandler.processCard, titleOf.
  destruct (ClickHandler.isVisible card); [|done]. cbn [negb].
  destruct (ClickHandler.completeMarks card) as [|m]; [|done]. cbn [Nat.ltb Nat.leb].
  assert (Hrest :
    match ClickHandler.titleText card with
    | Some text =>
        if (ClickHandler.linkCount card =? 0)%nat then None
        else Some (ClickHandler.mkActivityInfo n
                     (trim match text with
                           | Some t => if ClickHandler.isEmpty t
                                       then js "Activity #" ++ toDecimal n else t
                           | None => js "Activity #" ++ toDecimal n
                           end)
                     (js "placeholder") false (ClickHandler.link card) type0
                     (trim <$> ClickHandler.descriptionText card))
    | None => None
    end = Some info ->
    ClickHandler.linkCount card <> 0%nat
    /\ info = ClickHandler.mkActivityInfo n
                match ClickHandler.titleText card with
                | Some (Some (c :: t)) => trim (c :: t)
                | _ => trim (js "Activity #" ++ toDecimal n)
                end (js "placeholder") false (ClickHandler.link card) type0
                (trim <$> ClickHandler.descriptionText card)).
  { destruct (ClickHandler.titleText card) as [text|]; [|done].
    destruct (Nat.eqb_spec (ClickHandler.linkCount card) 0); [done|].
    intros [= <-]. split; [done|]. by destruct text as [[|c t]|]. }
  destruct type0.
  - destruct (ClickHandler.pointsMarks card) as [|pm]; [done|]. cbn [Nat.ltb Nat.leb negb].
    destruct (ClickHandler.quizMarks card) as [|qm]; [|done]. cbn [Nat.ltb Nat.leb].
    intros H. destruct (Hrest H) as [Hl Hi]. by repeat split.
  - intros H. destruct (Hrest H) as [Hl Hi]. by repeat split.
Qed.

Lemma collect_entries (type0 : ClickHandler.ActivityType) (cards : list ClickHandler.Card)
    (activities : list ClickHandler.ActivityInfo) (info : ClickHandler.ActivityInfo) :
  info ∈ fold_left (ClickHandler.collect type0) cards activities ->
  info ∈ activities
  \/ exists card n, card ∈ cards /\ ClickHandler.processCard card type0 n = Some info.
Proof.
  revert activities. induction cards as [|c r IH]; intros activities H; [by left|].
  cbn [fold_left] in H. apply IH in H as [H|(card & n & Hc & Hp)].
  - unfold ClickHandler.collect in H.
    destruct (ClickHandler.processCard c type0 (length activities)) as [i|] eqn:Hp;
      [|by left].
    apply elem_of_app in H as [H|H]; [by left|].
    apply list_elem_of_singleton in H. subst i.
    right. exists c, (length activities). split; [by left|exact Hp].
  - right. exists card, n. split; [by right|exact Hp].
Qed.

(** X19: every entry [findClickableActivities] returns is made from a card
    of the section of its type that is visible, carries no completion mark
    and has a link, which is the handle of the entry; a standard entry comes
    from a card with a points indicator and no quiz marker.  The entry is
    not completed, its selector is the placeholder, its title is the
    trimmed text of the title element, or "Activity #" followed by its
    index when that text is null or empty, its description is the trimmed
    text of the paragraph; so title and description have no white space at
    either end. *)
Theorem findClickableActivities_entries (page : ClickHandler.Page)
    (info : ClickHandler.ActivityInfo) :
  info ∈ ClickHandler.findClickableActivities page ->
  ClickHandler.isCompleted info = false
  /\ ClickHandler.selector info = js "placeholder"
  /\ trim (ClickHandler.title info) = ClickHandler.title info
  /\ (forall d, ClickHandler.description info = Some d -> trim d = d)
  /\ exists card,
       card ∈ sectionOf page (ClickHandler.type info)
       /\ ClickHandler.isVisible card = true
       /\ ClickHandler.completeMarks card = 0%nat
       /\ ClickHandler.linkCount card <> 0%nat
       /\ (ClickHandler.type info = ClickHandler.standard ->
           ClickHandler.pointsMarks card <> 0%nat /\ ClickHandler.quizMarks card = 0%nat)
       /\ ClickHandler.locator info = ClickHandler.link card
       /\ ClickHandler.title info = titleOf card (ClickHandler.index info)
       /\ ClickHandler.description info = trim <$> ClickHandler.descriptionText card.
Proof.
  unfold ClickHandler.findClickableActivities. fold (moreActivities page). cbv zeta.
  intros H.
  assert (Hfrom : exists type0 card n,
             card ∈ sectionOf page type0
             /\ ClickHandler.processCard card type0 n = Some info).
  { apply collect_entries in H as [H|(card & n & Hc & Hp)].
    - apply collect_entries in H as [H|(card & n & Hc & Hp)];
        [by apply elem_of_nil in H|].
      by exists ClickHandler.standard, card, n.
    - by exists ClickHandler.explore, card, n. }
  destruct Hfrom as (type0 & card & n & Hc & Hp).
  destruct (processCard_entry _ _ _ _ Hp) as (Hv & Hm & Hl & Hs & ->).
  cbn [ClickHandler.isCompleted ClickHandler.selector ClickHandler.title
       ClickHandler.description ClickHandler.type ClickHandler.locator ClickHandler.index].
  split; [done|]. split; [done|].
  split.
  { unfold titleOf. destruct (ClickHandler.titleText card) as [[[|c t]|]|]; apply trim_idem. }
  split.
  { intros d Hd. destruct (ClickHandler.descriptionText card) as [d0|]; [|done].
    cbn in Hd. inversion Hd. apply trim_idem. }
  exists card. split; [exact Hc|]. split; [exact Hv|]. split; [exact Hm|].
  split; [exact Hl|]. split; [exact Hs|]. by split.
Qed.

Lemma findClickableActivities_entries_witness :
  exists info,
    info ∈ ClickHandler.findClickableActivities (ClickHandler.mkPage [] [] [blankCard])
    /\ ClickHandler.isCompleted info = false
    /\ ClickHandler.title info = js "Search on Bing for cats"
    /\ trim (ClickHandler.title info) = ClickHandler.title info.
Proof.
  eexists. split; [apply list_elem_of_here|].
  destruct (findClickableActivities_entries (ClickHandler.mkPage [] [] [blankCard]) _
              (list_elem_of_here _ _)) as (H1 & _ & H3 & _).
  split; [exact H1|]. split; [reflexivity|exact H3].
Defined.

Lemma stripNonAlnum_alnumFree (s : jsstring) :
  Forall (fun c => isLowerAlnum c = false) s ->
  Forall (fun c => isWhiteSpace c = true) (stripNonAlnum s).
Proof.
  induction 1 as [|c r Hc Hr IH]; [constructor|].
  unfold stripNonAlnum. cbn [List.filter]. rewrite Hc. cbn [orb].
  destruct (isWhiteSpace c) eqn:Hw; [constructor; [exact Hw|exact IH]|exact IH].
Qed.

Lemma collapseFrom_blank (s : jsstring) :
  Forall (fun c => isWhiteSpace c = true) s ->
  collapseFrom true s = []
  /\ (collapseFrom false s = [] \/ collapseFrom false s = [32%N]).
Proof.
  induction 1 as [|c r Hc Hr [IH1 IH2]]; [by split; [|left]|].
  cbn [collapseFrom]. rewrite Hc, IH1. by split; [|right].
Qed.

Lemma normalizeQuestion_alnumFree (question : jsstring) :
  alnumFree question -> QACache.normalizeQuestion question = [].
Proof.
  intros H. unfold QACache.normalizeQuestion, collapseWhiteSpace.
  destruct (collapseFrom_blank _ (stripNonAlnum_alnumFree _ H)) as [_ [-> | ->]];
    reflexivity.
Qed.

(** X20: every question without a letter of [[a-z]] or a digit once it is
    lower-cased (a question in another script, or made of punctuation) has
    the empty normal form and the key "1505" (5381 in hexadecimal); so the
    cache does not tell two such questions apart: an answer stored as
    correct for one is what [lookup] returns for the other, with
    confidence 1. *)
Theorem hashQuestion_without_alnum (q1 q2 : jsstring) (a : Z)
    (ev : option (list jsstring)) (cache : gmap jsstring QACache.QARecord) :
  alnumFree q1 -> alnumFree q2 ->
  QACache.normalizeQuestion q1 = []
  /\ QACache.hashQuestion q1 = js "1505"
  /\ QACache.hashQuestion q2 = QACache.hashQuestion q1
  /\ QACache.lookup q2 (QACache.store q1 a true ev cache)
     = Some (QACache.mkQARecord (js "1505") a true ev)
  /\ QACache.getConfidence q2 (QACache.store q1 a true ev cache) = 1%Q.
Proof.
  intros H1 H2.
  assert (E1 : QACache.hashQuestion q1 = js "1505").
  { unfold QACache.hashQuestion. by rewrite (normalizeQuestion_alnumFree q1 H1). }
  assert (E2 : QACache.hashQuestion q2 = js "1505").
  { unfold QACache.hashQuestion. by rewrite (normalizeQuestion_alnumFree q2 H2). }
  assert (L : QACache.lookup q2 (QACache.store q1 a true ev cache)
              = Some (QACache.mkQARecord (js "1505") a true ev)).
  { unfold QACache.lookup. rewrite E2, <- E1. apply store_correct_lookup. }
  split; [by apply normalizeQuestion_alnumFree|]. split; [exact E1|].
  split; [by rewrite E1, E2|]. split; [exact L|].
  unfold QACache.getConfidence. by rewrite L.
Qed.

Lemma hashQuestion_without_alnum_witness :
  QACache.lookup (js "???")
    (QACache.store [20320; 22909; 21527; 65311]%N 2 true None ∅)
  = Some (QACache.mkQARecord (js "1505") 2 true None).
Proof.
  apply (hashQuestion_without_alnum [20320; 22909; 21527; 65311]%N (js "???") 2 None ∅).
  - repeat constructor.
  - repeat constructor.
Defined.

(** ** The command line *)

Lemma parse_sound (n : nat) :
  forall (args : list jsstring) (config : Cli.ExtendedConfig),
    (length args <= n)%nat ->
    match Cli.parse args config with
    | None => exists arg, arg ∈ args /\ isHelp arg = true
    | Some c =>
        (Cli.maxActionsPerHour config <> 0%Z -> Cli.maxActionsPerHour c <> 0%Z)
        /\ (Cli.userDataDir config <> [] -> Cli.userDataDir c <> [])
        /\ (Cli.dryRun c = true ->
            Cli.dryRun config = true \/ exists arg, arg ∈ args /\ isDryRun arg = true)
        /\ (Cli.skipClicks c = true ->
            Cli.skipClicks config = true \/ js "--skip-clicks" ∈ args)
        /\ (Cli.skipQuizzes c = true ->
            Cli.skipQuizzes config = true \/ js "--skip-quizzes" ∈ args)
        /\ (Cli.showMetrics c = true ->
            Cli.showMetrics config = true \/ js "--metrics" ∈ args)
    end.
Proof.
  induction n as [|n IH]; intros args config Hl.
  { destruct args; [|cbn in Hl; lia]. cbn. repeat split; auto. }
  destruct args as [|arg rest]; [cbn; repeat split; auto|].
  cbn [length] in Hl.
  assert (Hweak : forall (rest0 : list jsstring) (config0 : Cli.ExtendedConfig),
             (forall a, a ∈ rest0 -> a ∈ arg :: rest) ->
             (length rest0 <= n)%nat ->
             (Cli.maxActionsPerHour config <> 0%Z -> Cli.maxActionsPerHour config0 <> 0%Z) ->
             (Cli.userDataDir config <> [] -> Cli.userDataDir config0 <> []) ->
             (Cli.dryRun config0 = true ->
              Cli.dryRun config = true \/ isDryRun arg = true) ->
             (Cli.skipClicks config0 = true ->
              Cli.skipClicks config = true \/ arg = js "--skip-clicks") ->
             (Cli.skipQuizzes config0 = true ->
              Cli.skipQuizzes config = true \/ arg = js "--skip-quizzes") ->
             (Cli.showMetrics config0 = true ->
              Cli.showMetrics config = true \/ arg = js "--metrics") ->
             match Cli.parse rest0 config0 with
             | None => exists a, a ∈ arg :: rest /\ isHelp a = true
             | Some c =>
                 (Cli.maxActionsPerHour config <> 0%Z -> Cli.maxActionsPerHour c <> 0%Z)
                 /\ (Cli.userDataDir config <> [] -> Cli.userDataDir c <> [])
                 /\ (Cli.dryRun c = true ->
                     Cli.dryRun config = true
                     \/ exists a, a ∈ arg :: rest /\ isDryRun a = true)
                 /\ (Cli.skipClicks c = true ->
                     Cli.skipClicks config = true \/ js "--skip-clicks" ∈ arg :: rest)
                 /\ (Cli.skipQuizzes c = true ->
                     Cli.skipQuizzes config = true \/ js "--skip-quizzes" ∈ arg :: rest)
                 /\ (Cli.showMetrics c = true ->
                     Cli.showMetrics config = true \/ js "--metrics" ∈ arg :: rest)
             end).
  { intros rest0 config0 Hsub Hlen Hm Hu Hd Hc Hq Hs.
    pose proof (IH rest0 config0 Hlen) as H.
    destruct (Cli.parse rest0 config0) as [c|].
    - destruct H as (H1 & H2 & H3 & H4 & H5 & H6).
      split; [auto|]. split; [auto|].
      split.
      { intros Hc0. destruct (H3 Hc0) as [H|(a & Ha & Hda)].
        - destruct (Hd H) as [?|?]; [by left|]. right. exists arg. split; [by left|done].
        - right. exists a. split; [by apply Hsub|done]. }
      split.
      { intros Hc0. destruct (H4 Hc0) as [H|H].
        - destruct (Hc H) as [?| ->]; [by left|right; by left].
        - right. by apply Hsub. }
      split.
      { intros Hc0. destruct (H5 Hc0) as [H|H].
        - destruct (Hq H) as [?| ->]; [by left|right; by left].
        - right. by apply Hsub. }
      intros Hc0. destruct (H6 Hc0) as [H|H].
      + destruct (Hs H) as [?| ->]; [by left|right; by left].
      + right. by apply Hsub.
    - destruct H as (a & Ha & Hh). exists a. split; [by apply Hsub|done]. }
  assert (Hrest : forall a, a ∈ rest -> a ∈ arg :: rest) by (intros a Ha; by right).
  cbn [Cli.parse].
  destruct (bool_decide (arg = js "--dry-run") || bool_decide (arg = js "-d")) eqn:E1.
  { apply Hweak; cbn; [exact Hrest|lia|tauto|tauto| |tauto|tauto|tauto].
    intros _. right. exact E1. }
  destruct (bool_decide (arg = js "--user-data-dir") || bool_decide (arg = js "-u")) eqn:E2.
  { destruct rest as [|value rest']; [repeat split; auto|].
    cbn [length] in Hl. apply Hweak; cbn; [|lia|tauto| |tauto|tauto|tauto|tauto].
    - intros a Ha. right. by right.
    - intros Hu. destruct (decide (value = [])) as [Hv|Hv].
      + by rewrite (bool_decide_eq_true_2 _ Hv).
      + by rewrite (bool_decide_eq_false_2 _ Hv). }
  destruct (bool_decide (arg = js "--max-actions") || bool_decide (arg = js "-m")) eqn:E3.
  { destruct rest as [|value rest']; [repeat split; auto|].
    cbn [length] in Hl. apply Hweak; cbn; [|lia| |tauto|tauto|tauto|tauto|tauto].
    - intros a Ha. right. by right.
    - intros Hm. destruct (Cli.parseInt value) as [m|]; [|exact Hm].
      destruct (Z.eqb_spec m 0); [exact Hm|done]. }
  destruct (bool_decide (arg = js "--skip-clicks")) eqn:E4.
  { apply bool_decide_eq_true in E4.
    apply Hweak; cbn; [exact Hrest|lia|tauto|tauto|tauto| |tauto|tauto].
    intros _. by right. }
  destruct (bool_decide (arg = js "--skip-quizzes")) eqn:E5.
  { apply bool_decide_eq_true in E5.
    apply Hweak; cbn; [exact Hrest|lia|tauto|tauto|tauto|tauto| |tauto].
    intros _. by right. }
  destruct (bool_decide (arg = js "--metrics")) eqn:E6.
  { apply bool_decide_eq_true in E6.
    apply Hweak; cbn; [exact Hrest|lia|tauto|tauto|tauto|tauto|tauto| ].
    intros _. by right. }
  destruct (bool_decide (arg = js "--help") || bool_decide (arg = js "-h")) eqn:E7.
  { exists arg. split; [by left|exact E7]. }
  apply Hweak; [exact Hrest|lia|tauto..].
Qed.

(** Comparisons of two literals are computed. *)
Ltac literal_tests :=
  repeat match goal with
         | |- context [bool_decide (js ?a = js ?b)] =>
             let v := eval vm_compute in (bool_decide (js a = js b)) in
             change (bool_decide (js a = js b)) with v
         end;
  cbn [orb andb].

Ltac known_flag IH :=
  cbn [Cli.parse existsb]; unfold isHelp, isDryRun; literal_tests; rewrite IH;
  cbn [Cli.userDataDir Cli.dryRun Cli.maxActionsPerHour Cli.skipClicks Cli.skipQuizzes
       Cli.showMetrics];
  rewrite ?orb_true_r; reflexivity.

Lemma parse_flags (args : list jsstring) (config : Cli.ExtendedConfig) :
  Forall (fun arg => takesValue arg = false) args ->
  Cli.parse args config
  = if existsb isHelp args then None
    else Some (Cli.mkExtendedConfig
                 (Cli.userDataDir config)
                 (Cli.dryRun config || existsb isDryRun args)
                 (Cli.maxActionsPerHour config)
                 (Cli.skipClicks config
                  || existsb (fun arg => bool_decide (arg = js "--skip-clicks")) args)
                 (Cli.skipQuizzes config
                  || existsb (fun arg => bool_decide (arg = js "--skip-quizzes")) args)
                 (Cli.showMetrics config
                  || existsb (fun arg => bool_decide (arg = js "--metrics")) args)).
Proof.
  intros H. revert config. induction H as [|arg rest Ht Hr IH]; intros config.
  - cbn. rewrite !orb_false_r. by destruct config.
  - destruct (decide (arg = js "--dry-run")) as [->|N1]; [known_flag IH|].
    destruct (decide (arg = js "-d")) as [->|N2]; [known_flag IH|].
    destruct (decide (arg = js "--skip-clicks")) as [->|N3]; [known_flag IH|].
    destruct (decide (arg = js "--skip-quizzes")) as [->|N4]; [known_flag IH|].
    destruct (decide (arg = js "--metrics")) as [->|N5]; [known_flag IH|].
    destruct (decide (arg = js "--help")) as [->|N6].
    { cbn [Cli.parse existsb]. unfold isHelp. literal_tests. reflexivity. }
    destruct (decide (arg = js "-h")) as [->|N7].
    { cbn [Cli.parse existsb]. unfold isHelp. literal_tests. reflexivity. }
    unfold takesValue in Ht.
    apply orb_false_elim in Ht as [Ht E4]. apply orb_false_elim in Ht as [Ht E3].
    apply orb_false_elim in Ht as [E1 E2].
    cbn [Cli.parse existsb]. unfold isHelp, isDryRun.
    rewrite E1, E2, E3, E4.
    rewrite (bool_decide_eq_false_2 _ N1), (bool_decide_eq_false_2 _ N2),
      (bool_decide_eq_false_2 _ N3), (bool_decide_eq_false_2 _ N4),
      (bool_decide_eq_false_2 _ N5), (bool_decide_eq_false_2 _ N6),
      (bool_decide_eq_false_2 _ N7).
    cbn [orb]. apply IH.
Qed.

(** X21: what [parseArgs] returns.  It ends the process only when a help
    option is among the arguments.  Otherwise [maxActionsPerHour] is never
    zero (a value of 0, or one that is not a number, leaves the number as
    it was, 30 at first), the data directory is not empty when the default
    one is not, and a flag is set only when its option is among the
    arguments.  When no argument is an option that takes a value, the
    process ends exactly when a help option is present, and otherwise each
    flag is set exactly when its option is present, whatever the order,
    and directory and limit keep their defaults. *)
Theorem parseArgs_result (defaultDir : jsstring) (args : list jsstring) :
  match Cli.parseArgs defaultDir args with
  | None => exists arg, arg ∈ args /\ isHelp arg = true
  | Some config =>
      Cli.maxActionsPerHour config <> 0%Z
      /\ (defaultDir <> [] -> Cli.userDataDir config <> [])
      /\ (Cli.dryRun config = true -> exists arg, arg ∈ args /\ isDryRun arg = true)
      /\ (Cli.skipClicks config = true -> js "--skip-clicks" ∈ args)
      /\ (Cli.skipQuizzes config = true -> js "--skip-quizzes" ∈ args)
      /\ (Cli.showMetrics config = true -> js "--metrics" ∈ args)
  end
  /\ (Forall (fun arg => takesValue arg = false) args ->
      Cli.parseArgs defaultDir args
      = if existsb isHelp args then None
        else Some (Cli.mkExtendedConfig defaultDir (existsb isDryRun args) 30
                     (existsb (fun arg => bool_decide (arg = js "--skip-clicks")) args)
                     (existsb (fun arg => bool_decide (arg = js "--skip-quizzes")) args)
                     (existsb (fun arg => bool_decide (arg = js "--metrics")) args))).
Proof.
  split.
  - unfold Cli.parseArgs.
    pose proof (parse_sound (length args) args
                  (Cli.mkExtendedConfig defaultDir false 30 false false false)
                  (le_n _)) as H.
    destruct (Cli.parse args (Cli.mkExtendedConfig defaultDir false 30 false false false))
      as [c|]; [|exact H].
    cbn [Cli.maxActionsPerHour Cli.userDataDir Cli.dryRun Cli.skipClicks Cli.skipQuizzes
         Cli.showMetrics] in H.
    destruct H as (H1 & H2 & H3 & H4 & H5 & H6).
    split; [by apply H1|]. split; [exact H2|].
    split; [intros E; by destruct (H3 E)|].
    split; [intros E; by destruct (H4 E)|].
    split; [intros E; by destruct (H5 E)|].
    intros E; by destruct (H6 E).
  - intros H. unfold Cli.parseArgs. by rewrite (parse_flags _ _ H).
Qed.

Lemma parseArgs_result_witness :
  Cli.parseArgs (js "/home/me/.ms-rewards-agent/edge-profile")
    [js "--skip-quizzes"; js "-d"]
  = Some (Cli.mkExtendedConfig (js "/home/me/.ms-rewards-agent/edge-profile")
            true 30 false true false).
Proof.
  apply (proj2 (parseArgs_result (js "/home/me/.ms-rewards-agent/edge-profile")
                  [js "--skip-quizzes"; js "-d"])).
  repeat constructor.
Defined.

(** An option that takes a value takes the next argument, whatever it is;
    a limit of 0 or one that is not a number is ignored, a negative one is
    kept. *)
Example parseArgs_examples :
  Cli.parseArgs (js "dir") [js "-u"; js "--dry-run"]
  = Some (Cli.mkExtendedConfig (js "--dry-run") false 30 false false false)
  /\ Cli.parseArgs (js "dir") [js "-m"; js "0"; js "-m"; js "many"]
     = Some (Cli.mkExtendedConfig (js "dir") false 30 false false false)
  /\ Cli.parseArgs (js "dir") [js "--max-actions"; js " 12px"]
     = Some (Cli.mkExtendedConfig (js "dir") false 12 false false false)
  /\ Cli.parseArgs (js "dir") [js "-m"; js "-5"]
     = Some (Cli.mkExtendedConfig (js "dir") false (-5) false false false)
  /\ Cli.parseArgs (js "dir") [js "--metrics"; js "-h"; js "-d"] = None.
Proof. repeat split. Qed.

(** ** Quiz discovery: what is found *)

Lemma visit_visited (seen : list QuizHandler.Card) (st : QuizHandler.State)
    (element : QuizHandler.Card) :
  visited seen st -> visited (seen ++ [element]) (QuizHandler.visit st element).
Proof.
  destruct st as [processed quizzes]. intros (H1 & H2 & H3).
  cbn [fst snd] in *. unfold QuizHandler.visit.
  destruct (0 <? QuizHandler.completedMarks element)%nat eqn:Hm; cbn [negb].
  - apply Nat.ltb_lt in Hm. split; [|split]; cbn [fst snd].
    + intros text. rewrite H1. split.
      * intros (card & Hc & Hz & Ht). exists card. split; [|done].
        apply elem_of_app. by left.
      * intros (card & Hc & Hz & Ht). exists card. split; [|done].
        apply elem_of_app in Hc as [Hc|Hc]; [done|].
        apply list_elem_of_singleton in Hc. subst card. lia.
    + exact H2.
    + intros card Hc. apply elem_of_app. left. by apply H3.
  - apply Nat.ltb_ge in Hm. fold (QuizHandler.cardText element).
    case_bool_decide as Hin; (split; [|split]); cbn [fst snd].
    + intros text. rewrite H1. split.
      * intros (card & Hc & Hz & Ht). exists card. split; [|done].
        apply elem_of_app. by left.
      * intros (card & Hc & Hz & Ht).
        apply elem_of_app in Hc as [Hc|Hc]; [by exists card|].
        apply list_elem_of_singleton in Hc. subst card. subst text. by apply H1.
    + exact H2.
    + intros card Hc. apply elem_of_app. left. by apply H3.
    + intros text. rewrite elem_of_union, elem_of_singleton, H1. split.
      * intros [->|(card & Hc & Hz & Ht)].
        -- exists element. split; [apply elem_of_app; right; by left|]. split; [lia|done].
        -- exists card. split; [|done]. apply elem_of_app. by left.
      * intros (card & Hc & Hz & Ht).
        apply elem_of_app in Hc as [Hc|Hc]; [right; by exists card|].
        apply list_elem_of_singleton in Hc. subst card. by left.
    + intros text. rewrite elem_of_union, elem_of_singleton, map_app, elem_of_app, H2.
      cbn [map]. rewrite list_elem_of_singleton. tauto.
    + intros card Hc. apply elem_of_app in Hc as [Hc|Hc].
      * apply elem_of_app. left. by apply H3.
      * apply elem_of_app. by right.
Qed.

Lemma fold_visit_visited (elements seen : list QuizHandler.Card) (st : QuizHandler.State) :
  visited seen st ->
  visited (seen ++ elements) (fold_left QuizHandler.visit elements st).
Proof.
  revert seen st. induction elements as [|e r IH]; intros seen st H.
  - by rewrite app_nil_r.
  - cbn [fold_left]. rewrite cons_middle, (assoc_L (++)). by apply IH, visit_visited.
Qed.

Lemma fold_selectors_visited (page : QuizHandler.Page) (selectors : list jsstring)
    (seen : list QuizHandler.Card) (st : QuizHandler.State) :
  visited seen st ->
  visited (seen ++ flat_map page selectors)
    (fold_left (fun st selector => fold_left QuizHandler.visit (page selector) st)
       selectors st).
Proof.
  revert seen st. induction selectors as [|s r IH]; intros seen st H.
  - cbn. by rewrite app_nil_r.
  - cbn [fold_left flat_map]. rewrite (assoc_L (++)). by apply IH, fold_visit_visited.
Qed.

Lemma candidates_elem (page : QuizHandler.Page) (card : QuizHandler.Card) :
  card ∈ candidates page
  <-> exists selector, selector ∈ QuizHandler.quizSelectors /\ card ∈ page selector.
Proof.
  unfold candidates. rewrite list_elem_of_In, in_flat_map. split.
  - intros (s & Hs & Hc). exists s. by rewrite !list_elem_of_In.
  - intros (s & Hs & Hc). exists s. by rewrite <- !list_elem_of_In.
Qed.

(** X22: [findQuizActivities] misses no quiz that is still to do, and
    returns nothing else: every returned card is an element matched by one
    of the seven selectors and carries no completion mark, and a text is the
    text of a returned card exactly when it is the text of some matched
    element without completion mark; each such text is returned once. *)
Theorem findQuizActivities_finds_every_open_quiz (page : QuizHandler.Page) :
  (forall card,
      card ∈ QuizHandler.findQuizActivities page ->
      QuizHandler.completedMarks card = 0%nat
      /\ exists selector, selector ∈ QuizHandler.quizSelectors /\ card ∈ page selector)
  /\ (forall text,
         text ∈ map QuizHandler.cardText (QuizHandler.findQuizActivities page)
         <-> exists selector card,
               selector ∈ QuizHandler.quizSelectors /\ card ∈ page selector
               /\ QuizHandler.completedMarks card = 0%nat
               /\ QuizHandler.cardText card = text)
  /\ NoDup (map QuizHandler.cardText (QuizHandler.findQuizActivities page)).
Proof.
  destruct (findQuizActivities_not_completed_no_duplicate page) as [Hc Hn].
  unfold QuizHandler.findQuizActivities in *.
  destruct (fold_selectors_visited page QuizHandler.quizSelectors [] (∅, []))
    as (H1 & H2 & H3).
  { split; [|split]; cbn [fst snd].
    - intros text. split; [by intros ?%elem_of_empty|].
      by intros (card & ?%elem_of_nil & _).
    - intros text. split; [by intros ?%elem_of_empty|by intros ?%elem_of_nil].
    - by intros card ?%elem_of_nil. }
  cbn [app] in *. fold (candidates page) in *.
  split; [|split; [|exact Hn]].
  - intros card Hin. split.
    + rewrite Forall_forall in Hc. by apply Hc.
    + apply candidates_elem. by apply H3.
  - intros text. rewrite <- H2, H1. split.
    + intros (card & Hin & Hz & Ht). apply candidates_elem in Hin as (s & Hs & Hin).
      by exists s, card.
    + intros (s & card & Hs & Hin & Hz & Ht). exists card.
      split; [|done]. apply candidates_elem. by exists s.
Qed.

(** ** The humanizer: how long a click takes *)

#[local] Open Scope Q_scope.

Lemma sleepTotal_sleep (ms : Q) (t : list Humanizer.Event) :
  sleepTotal (Humanizer.Sleep ms :: t) = ms + sleepTotal t.
Proof. reflexivity. Qed.

Lemma sleepTotal_app (t1 t2 : list Humanizer.Event) :
  sleepTotal (t1 ++ t2) == sleepTotal t1 + sleepTotal t2.
Proof.
  induction t1 as [|e t1 IH].
  - change (sleepTotal ([] ++ t2)) with (sleepTotal t2).
    change (sleepTotal []) with 0. ring.
  - destruct e as [p| | |ms].
    + exact IH.
    + exact IH.
    + exact IH.
    + change (sleepTotal ((Humanizer.Sleep ms :: t1) ++ t2))
        with (ms + sleepTotal (t1 ++ t2)).
      rewrite sleepTotal_sleep, IH. ring.
Qed.

(** The loop over the path: its pointer events, and the time it pauses. *)
Lemma forEach_sleeps (path : list Humanizer.Point) (g : Humanizer.Rng) :
  exists t,
    Humanizer.forEach path
      (fun point =>
         Humanizer.bind (Humanizer.emit (Humanizer.MouseMove point)) (fun _ =>
         Humanizer.bind Humanizer.random (fun r =>
         Humanizer.emit (Humanizer.Sleep (r * 5))))) g
    = (Humanizer.Returned tt, t,
       Humanizer.mkRng (Humanizer.draws g) (length path + Humanizer.cursor g))
    /\ (unitDraws g ->
        0 <= sleepTotal t /\ sleepTotal t <= 5 * inject_Z (Z.of_nat (length path))).
Proof.
  revert g. induction path as [|p path IH]; intros g.
  - exists []. split; [by destruct g|]. intros _. cbn. split; discriminate.
  - destruct (IH (Humanizer.mkRng (Humanizer.draws g) (S (Humanizer.cursor g))))
      as (t & Hr & Hs).
    exists (Humanizer.MouseMove p
            :: Humanizer.Sleep (Humanizer.draws g (Humanizer.cursor g) * 5) :: t).
    split.
    + cbn [Humanizer.forEach].
      rewrite (bind_eq _ _ g
                 (Humanizer.mkRng (Humanizer.draws g) (S (Humanizer.cursor g))) tt
                 [Humanizer.MouseMove p;
                  Humanizer.Sleep (Humanizer.draws g (Humanizer.cursor g) * 5)])
        by reflexivity.
      cbn [Humanizer.draws Humanizer.cursor] in Hr.
      rewrite Hr. cbn [fst snd app length]. by rewrite Nat.add_succ_r.
    + intros Hu. destruct (Hs Hu) as [H0 H1]. destruct (Hu (Humanizer.cursor g)) as [Hr0 Hr1].
      change (sleepTotal (Humanizer.MouseMove p :: ?r)) with (sleepTotal r).
      rewrite sleepTotal_sleep. cbn [length].
      rewrite Nat2Z.inj_succ, <- Z.add_1_r, inject_Z_plus.
      change (inject_Z 1) with 1. split; lra.
Qed.

(** With a bounding box, the trace of [clickHuman] is the loop over the
    path, then the three pauses around pointer-down and pointer-up. *)
Lemma clickHuman_pauses (page : Humanizer.Page) (selector : jsstring)
    (box : Humanizer.Box) (g : Humanizer.Rng) :
  Humanizer.boundingBox (Humanizer.first (Humanizer.locator page selector)) = Some box ->
  exists (loop : list Humanizer.Event) (d1 d2 d3 : Z),
    trace (Humanizer.clickHuman page selector g)
    = loop ++ [Humanizer.Sleep (inject_Z d1); Humanizer.MouseDown;
               Humanizer.Sleep (inject_Z d2); Humanizer.MouseUp;
               Humanizer.Sleep (inject_Z d3)]
    /\ (unitDraws g ->
        (0 <= sleepTotal loop /\ sleepTotal loop <= 255)
        /\ (100 <= d1 <= 300)%Z /\ (50 <= d2 <= 150)%Z /\ (500 <= d3 <= 1000)%Z).
Proof.
  intros Hb. cbv beta zeta delta [Humanizer.clickHuman]. rewrite Hb.
  rewrite (bind_eq _ _ _ _ _ _ (random_run _)).
  rewrite (bind_eq _ _ _ _ _ _ (random_run _)).
  rewrite (bind_eq _ _ _ _ _ _ (generateMousePath_run _ _ _ _ _ _)).
  match goal with
  | |- context [Humanizer.bind (Humanizer.forEach ?p ?b) ?k ?g0] =>
      destruct (forEach_sleeps p g0) as (t & Hr & Hs);
      rewrite (bind_eq _ k _ _ _ _ Hr)
  end.
  rewrite bezierPath_length in Hs |- *.
  rewrite (bind_eq _ _ _ _ _ _ (randomDelay_eq _ _ _)).
  rewrite (bind_eq _ _ _ _ _ _ (emit_run _ _)).
  rewrite (bind_eq _ _ _ _ _ _ (randomDelay_eq _ _ _)).
  rewrite (bind_eq _ _ _ _ _ _ (emit_run _ _)).
  rewrite randomDelay_eq. unfold trace.
  cbn [fst snd Humanizer.draws Humanizer.cursor app].
  exists t. eexists _, _, _. split; [reflexivity|].
  intros Hu. split; [exact (Hs Hu)|].
  split; [|split];
    match goal with
    | |- (_ <= delayMs _ _ (Humanizer.draws g ?n) <= _)%Z =>
        destruct (Hu n); apply delayMs_bounds; [assumption|assumption|lia]
    end.
Qed.

(** X23: a humanized click on an element with a bounding box, with draws in
    [[0, 1)]: its trace is the loop over the path, whose pauses add up to at
    most 255 ms (less than 5 ms after each of the 51 moves), then a pause of
    100 to 300 ms, pointer-down, a pause of 50 to 150 ms, pointer-up, and a
    pause of 500 to 1000 ms; so the click pauses, in all, for at least
    650 ms and at most 1705 ms. *)
Theorem clickHuman_pause_total (page : Humanizer.Page) (selector : jsstring)
    (box : Humanizer.Box) (g : Humanizer.Rng) :
  Humanizer.boundingBox (Humanizer.first (Humanizer.locator page selector)) = Some box ->
  unitDraws g ->
  exists (loop : list Humanizer.Event) (d1 d2 d3 : Z),
    trace (Humanizer.clickHuman page selector g)
    = loop ++ [Humanizer.Sleep (inject_Z d1); Humanizer.MouseDown;
               Humanizer.Sleep (inject_Z d2); Humanizer.MouseUp;
               Humanizer.Sleep (inject_Z d3)]
    /\ pointerEvents loop = map Humanizer.MouseMove (clickPath box g)
    /\ (0 <= sleepTotal loop /\ sleepTotal loop <= 255)
    /\ (100 <= d1 <= 300)%Z /\ (50 <= d2 <= 150)%Z /\ (500 <= d3 <= 1000)%Z
    /\ 650 <= sleepTotal (trace (Humanizer.clickHuman page selector g))
    /\ sleepTotal (trace (Humanizer.clickHuman page selector g)) <= 1705.
Proof.
  intros Hb Hu.
  destruct (clickHuman_pauses page selector box g Hb) as (loop & d1 & d2 & d3 & E & H).
  destruct (H Hu) as ([H0 H1] & [L1 U1] & [L2 U2] & [L3 U3]).
  exists loop, d1, d2, d3. split; [exact E|].
  split.
  { destruct (clickHuman_visible page selector box g Hb) as [_ Hp].
    rewrite E, pointerEvents_app in Hp.
    change (pointerEvents [Humanizer.Sleep (inject_Z d1); Humanizer.MouseDown;
                           Humanizer.Sleep (inject_Z d2); Humanizer.MouseUp;
                           Humanizer.Sleep (inject_Z d3)])
      with [Humanizer.MouseDown; Humanizer.MouseUp] in Hp.
    by apply app_inv_tail in Hp. }
  split; [by split|]. split; [by split|]. split; [by split|]. split; [by split|].
  rewrite E, sleepTotal_app, sleepTotal_sleep.
  change (sleepTotal (Humanizer.MouseDown :: ?r)) with (sleepTotal r).
  rewrite sleepTotal_sleep.
  change (sleepTotal (Humanizer.MouseUp :: ?r)) with (sleepTotal r).
  rewrite sleepTotal_sleep. change (sleepTotal []) with 0.
  rewrite Zle_Qle in L1, U1, L2, U2, L3, U3.
  change (inject_Z 100) with 100 in L1. change (inject_Z 300) with 300 in U1.
  change (inject_Z 50) with 50 in L2. change (inject_Z 150) with 150 in U2.
  change (inject_Z 500) with 500 in L3. change (inject_Z 1000) with 1000 in U3.
  split; lra.
Qed.

Lemma clickHuman_pause_total_witness :
  650 <= sleepTotal (trace (Humanizer.clickHuman testPage (js "#test-button") halfRng))
  /\ sleepTotal (trace (Humanizer.clickHuman testPage (js "#test-button") halfRng)) <= 1705.
Proof.
  destruct (clickHuman_pause_total testPage (js "#test-button") testBox halfRng)
    as (loop & d1 & d2 & d3 & _ & _ & _ & _ & _ & _ & H).
  - reflexivity.
  - intros n. split; [discriminate|reflexivity].
  - exact H.
Defined.

#[local] Close Scope Q_scope.
